(** * WireViz data model: a shallow embedding of [wireviz/wv_dataclasses.py]

    The Python classes of the harness model (pins, wires, connectors, cables,
    additional components) are rendered as records, their methods as functions,
    and every [raise] as a value of the error monad [Py].  Mutable attributes
    become explicit state passing: a method that mutates [self] returns the
    updated record. *)

From Stdlib Require Import ZArith List String Ascii Bool Lia.
From Stdlib Require Import Uint63 Floats.
From Stdlib Require DecimalString.
From ExtLib Require Import Structures.Monad.
Import ListNotations.
Import MonadNotation.

Local Open Scope monad_scope.
Local Open Scope string_scope.
Local Open Scope Z_scope.

(** ** Python runtime: exceptions, fallible computations, built-in containers *)

(** The exception classes the module can raise.  [Exception] carries the
    message of the source's [raise Exception(...)]; the other classes are the
    ones the interpreter raises on a failed lookup or attribute access, on an
    operand that is [None], and on the conversion to [float] of an int that
    is too large. *)
Inductive PyExc : Type :=
| Exception (msg : string)
| ValueError
| KeyError
| IndexError
| AttributeError
| TypeError
| OverflowError.

(** [isinstance(e, ValueError)]: of the classes above only [ValueError] itself
    is a subclass of [ValueError] ([Exception] is its base class, and
    [OverflowError] is an [ArithmeticError]). *)
Definition is_ValueError (e : PyExc) : bool :=
  match e with
  | ValueError => true
  | _ => false
  end.

Inductive Py (A : Type) : Type :=
| Returns (a : A)
| Raises (e : PyExc).

Arguments Returns {A} a.
Arguments Raises {A} e.

#[export] Instance Monad_Py : Monad Py :=
  {| ret := fun _ a => Returns a;
     bind := fun _ _ c k =>
       match c with
       | Returns a => k a
       | Raises e => Raises e
       end |}.

Definition returns {A} (c : Py A) : bool :=
  match c with
  | Returns _ => true
  | Raises _ => false
  end.

(** A [for] statement whose body may raise: the state is threaded through the
    iterations in order and the first exception ends the loop. *)
Fixpoint for_each {S A : Type} (items : list A) (body : S -> A -> Py S) (s : S)
  : Py S :=
  match items with
  | [] => ret s
  | x :: rest => s' <- body s x ;; for_each rest body s'
  end.

(** [enumerate(xs)], indices as Python ints. *)
Definition enumerate {A : Type} (xs : list A) : list (Z * A) :=
  combine (map Z.of_nat (seq 0 (List.length xs))) xs.

(** [list(range(lo, hi))]. *)
Definition range (lo hi : Z) : list Z :=
  map (fun i => lo + Z.of_nat i) (seq 0 (Z.to_nat (hi - lo))).

(** [len(xs)] as a Python int. *)
Definition len {A : Type} (xs : list A) : Z := Z.of_nat (List.length xs).

(** [itertools.zip_longest] with the default fill value [None]: position [i]
    of the result holds the [i]-th element of each list, or [None] where that
    list has run out. *)
Definition zip_longest {A B : Type} (xs : list A) (ys : list B)
  : list (option A * option B) :=
  map (fun i => (nth_error xs i, nth_error ys i))
      (seq 0 (Nat.max (List.length xs) (List.length ys))).

Definition zip_longest3 {A B C : Type} (xs : list A) (ys : list B) (zs : list C)
  : list (option A * option B * option C) :=
  map (fun i => (nth_error xs i, nth_error ys i, nth_error zs i))
      (seq 0 (Nat.max (List.length xs) (Nat.max (List.length ys) (List.length zs)))).

(** [xs[i]] for a non-negative index. *)
Definition list_getitem {A : Type} (xs : list A) (i : Z) : Py A :=
  if i <? 0 then Raises IndexError
  else match nth_error xs (Z.to_nat i) with
       | Some x => Returns x
       | None => Raises IndexError
       end.

(** Identifiers of pins and wires: [Union[int, str]] in the source. *)
Inductive PyId : Type :=
| IdInt (z : Z)
| IdStr (s : string).

Definition PyId_eq_dec (a b : PyId) : {a = b} + {a <> b}.
Proof.
  decide equality; [apply Z.eq_dec | apply string_dec].
Defined.

Definition option_eq_dec {A : Type} (dec : forall a b : A, {a = b} + {a <> b})
  (a b : option A) : {a = b} + {a <> b}.
Proof.
  decide equality.
Defined.

(** A Python [dict]: keys in insertion order.  Assigning to a key that is
    present replaces the value in place; a new key goes to the end. *)
Module Dict.
Section Dict.
Context {K V : Type} (K_eq_dec : forall a b : K, {a = b} + {a <> b}).

Definition t := list (K * V).

Definition empty : t := [].

Fixpoint get (k : K) (d : t) : option V :=
  match d with
  | [] => None
  | (k', v) :: d' => if K_eq_dec k k' then Some v else get k d'
  end.

Fixpoint set (k : K) (v : V) (d : t) : t :=
  match d with
  | [] => [(k, v)]
  | (k', v') :: d' =>
      if K_eq_dec k k' then (k', v) :: d' else (k', v') :: set k v d'
  end.

(** [d[k]], raising [KeyError] when the key is missing. *)
Definition getitem (k : K) (d : t) : Py V :=
  match get k d with
  | Some v => Returns v
  | None => Raises KeyError
  end.

Definition keys (d : t) : list K := map fst d.
Definition values (d : t) : list V := map snd d.
End Dict.
End Dict.

(** [str(n)] for a Python int. *)
Definition str_of_int (z : Z) : string :=
  DecimalString.NilZero.string_of_int (Z.to_int z).

(** [sep.join(parts)]. *)
Fixpoint join (sep : string) (parts : list string) : string :=
  match parts with
  | [] => ""
  | [p] => p
  | p :: rest => p ++ sep ++ join sep rest
  end.

(** [s.split(" ", 1)] on a string that contains a space: the text before the
    first space and the text after it. *)
Fixpoint split_first_space (s : string) : option (string * string) :=
  match s with
  | EmptyString => None
  | String c rest =>
      if Ascii.eqb c " "%char then Some (EmptyString, rest)
      else match split_first_space rest with
           | Some (a, b) => Some (String c a, b)
           | None => None
           end
  end.

(** [s.replace(old, new)] for a non-empty [old]: occurrences are replaced
    left to right without overlap.  [skip] counts the characters of a match
    that are still to be dropped. *)
Fixpoint replace_from (old new : string) (skip : nat) (s : string) : string :=
  match s with
  | EmptyString => EmptyString
  | String c rest =>
      match skip with
      | S k => replace_from old new k rest
      | O =>
          if String.prefix old s
          then new ++ replace_from old new (Nat.pred (String.length old)) rest
          else String c (replace_from old new O rest)
      end
  end.

Definition replace (old new s : string) : string := replace_from old new O s.

(** The newline and the double quote, as they occur in messages. *)
Definition nl : string := String "010"%char EmptyString.
Definition dq : string := String "034"%char EmptyString.

(** The value of an optional int where it is truthy (neither [None] nor
    [0]), as [if x:] tests it. *)
Definition truthy_int (x : option Z) : option Z :=
  match x with
  | Some n => if n =? 0 then None else Some n
  | None => None
  end.

Definition str_truthy (s : option string) : bool :=
  match s with
  | Some s => negb (s =? "")%string
  | None => false
  end.

(** ** Collaborators imported by the module *)

(** A part-number attribute as the user supplies it: absent, one text, or
    (for bundles) a list with one text per wire. *)
Inductive PartField : Type :=
| PartNone
| PartStr (s : string)
| PartList (l : list string).

(** Modelled from the spec: the members of the enumeration
    [wv_bom.QtyMultiplierConnector], whose declaration is not in the
    sources: PINCOUNT, POPULATED, CONNECTIONS. *)
Inductive QtyMultiplierConnector : Type :=
| PINCOUNT
| POPULATED
| CONNECTIONS.

(** Modelled from the spec: the members of the enumeration
    [wv_bom.QtyMultiplierCable], whose declaration is not in the sources:
    WIRECOUNT, TERMINATIONS, LENGTH, TOTAL_LENGTH. *)
Inductive QtyMultiplierCable : Type :=
| WIRECOUNT
| TERMINATIONS
| LENGTH
| TOTAL_LENGTH.

Definition QtyMultiplierConnector_name (m : QtyMultiplierConnector) : string :=
  match m with
  | PINCOUNT => "PINCOUNT"
  | POPULATED => "POPULATED"
  | CONNECTIONS => "CONNECTIONS"
  end.

Definition QtyMultiplierCable_name (m : QtyMultiplierCable) : string :=
  match m with
  | WIRECOUNT => "WIRECOUNT"
  | TERMINATIONS => "TERMINATIONS"
  | LENGTH => "LENGTH"
  | TOTAL_LENGTH => "TOTAL_LENGTH"
  end.

(** [QtyMultiplierConnector.__members__]: the member of a given name. *)
Definition QtyMultiplierConnector_members (name : string)
  : option QtyMultiplierConnector :=
  find (fun m => (QtyMultiplierConnector_name m =? name)%string)
       [PINCOUNT; POPULATED; CONNECTIONS].

Definition QtyMultiplierCable_members (name : string)
  : option QtyMultiplierCable :=
  find (fun m => (QtyMultiplierCable_name m =? name)%string)
       [WIRECOUNT; TERMINATIONS; LENGTH; TOTAL_LENGTH].

(** [str(m)] of an [Enum] member. *)
Definition QtyMultiplierCable_str (m : QtyMultiplierCable) : string :=
  "QtyMultiplierCable." ++ QtyMultiplierCable_name m.

Inductive Side : Type :=
| LEFT
| RIGHT.

(** What the module takes from the interpreter and from its sibling modules
    [wv_colors] and [wv_utils].  None of them is defined in the sources, so
    the model is parametric in them: first the types, on which the records
    of the model depend, then the operations. *)
Class ExternalTypes : Type := {
  (** the built-in [float] *)
  pyfloat : Type;
  (** the colour classes of [wv_colors] *)
  SingleColor : Type;
  MultiColor : Type
}.

(** The colour constructors and [get_color_by_colorcode_index] are taken as
    total. *)
Class Externals {T : ExternalTypes} : Type := {
  (** [float(n)] for an int ([None] stands for the [OverflowError] of an int
      beyond the range of the floats), [float(s)] for a string ([None]
      stands for its [ValueError]), [+] on floats and [str] of a float *)
  float_of_int : Z -> option pyfloat;
  float_of_str : string -> option pyfloat;
  float_add : pyfloat -> pyfloat -> pyfloat;
  str_of_float : pyfloat -> string;
  (** [str.upper] *)
  str_upper : string -> string;
  (** [wv_utils.remove_links], applied to each part-number attribute *)
  remove_links : PartField -> PartField;
  (** [wv_colors]: the constructors of colour objects, their truth value
      and [str], the table of colour codes and the lookup into it *)
  SingleColor_new : option string -> SingleColor;
  MultiColor_new : option string -> MultiColor;
  MultiColor_bool : MultiColor -> bool;
  MultiColor_str : MultiColor -> string;
  COLOR_CODES_contains : string -> bool;
  get_color_by_colorcode_index : string -> Z -> string
}.

(** Two more operations, used by the methods that compute quantities and
    by [Options]: [*] on floats, and the truth value of a [SingleColor]. *)
Class MoreExternals {T : ExternalTypes} : Type := {
  float_mul : pyfloat -> pyfloat -> pyfloat;
  SingleColor_bool : SingleColor -> bool
}.

(** ** Numbers and quantities *)

Module Number.
Section Number.
Context {T : ExternalTypes} {E : Externals}.

(** A Python number: [int] or [float]. *)
Inductive t : Type :=
| PyInt (z : Z)
| PyFloat (f : pyfloat).

(** [float(n)], which raises [OverflowError] on an int that is too large. *)
Definition float (n : t) : Py pyfloat :=
  match n with
  | PyInt z =>
      match float_of_int z with
      | Some f => ret f
      | None => Raises OverflowError
      end
  | PyFloat f => ret f
  end.

(** [a + b]: integer addition on two ints; otherwise the int operand, if
    any, is converted and the floats are added. *)
Definition add (a b : t) : Py t :=
  match a, b with
  | PyInt x, PyInt y => ret (PyInt (x + y))
  | _, _ =>
      x <- float a ;;
      y <- float b ;;
      ret (PyFloat (float_add x y))
  end.

(** [sum(xs)]: the additions start from the int [0]; an element that is
    [None] makes the addition raise [TypeError], and an int too large to be
    added to a float makes it raise [OverflowError]. *)
Definition sum (xs : list (option t)) : Py t :=
  for_each xs
    (fun acc x =>
       match x with
       | Some n => add acc n
       | None => Raises TypeError
       end)
    (PyInt 0).

(** [str(x)] for a number or [None], as an f-string prints it. *)
Definition str (x : option t) : string :=
  match x with
  | None => "None"
  | Some (PyInt z) => str_of_int z
  | Some (PyFloat f) => str_of_float f
  end.
End Number.

Section Product.
Context {T : ExternalTypes} {E : Externals} {M : MoreExternals}.

(** [a * b]: integer product on two ints; otherwise the int operand, if
    any, is converted and the floats are multiplied. *)
Definition mul (a b : t) : Py t :=
  match a, b with
  | PyInt x, PyInt y => ret (PyInt (x * y))
  | _, _ =>
      x <- float a ;;
      y <- float b ;;
      ret (PyFloat (float_mul x y))
  end.

(** [a * b] where an operand may be [None], on which [*] raises
    [TypeError]. *)
Definition mul_values (a b : option t) : Py (option t) :=
  match a, b with
  | Some x, Some y => product <- mul x y ;; ret (Some product)
  | _, _ => Raises TypeError
  end.
End Product.
End Number.

(** [str(x)] for a text or [None], as an f-string prints it. *)
Definition str_of_optional (x : option string) : string :=
  match x with
  | None => "None"
  | Some s => s
  end.

(** The named tuple [NumberAndUnit(number, unit)]. *)
Module NumberAndUnit.
Section NumberAndUnit.
Context {T : ExternalTypes} {E : Externals}.

Record t : Type := mk {
  number : option Number.t;
  unit : option string
}.
End NumberAndUnit.
End NumberAndUnit.

(** The named tuple [wv_bom.PartNumberInfo], built from five positional
    values and read through the fields [pn], [manufacturer], [mpn],
    [supplier], [spn]. *)
Module PartNumberInfo.
Record t : Type := mk {
  pn : PartField;
  manufacturer : PartField;
  mpn : PartField;
  supplier : PartField;
  spn : PartField
}.
End PartNumberInfo.

(** The named tuple [wv_bom.BomHash], built with the keywords
    [description], [qty_unit], [amount], [partnumbers]. *)
Module BomHash.
Section BomHash.
Context {T : ExternalTypes} {E : Externals}.

Record t : Type := mk {
  description : string;
  qty_unit : option string;
  amount : option NumberAndUnit.t;
  partnumbers : option PartNumberInfo.t
}.
End BomHash.
End BomHash.

(** ** class Component *)

Module Component.
Section Component.
Context {T : ExternalTypes} {E : Externals}.

(** The attributes the constructor stores as they are given. *)
Record attrs : Type := mk_attrs {
  category : option string;
  type : option string;
  subtype : option string;
  pn : PartField;
  manufacturer : PartField;
  mpn : PartField;
  supplier : PartField;
  spn : PartField;
  sum_amounts_in_bom : bool;
  ignore_in_bom : bool
}.

(** A component after its [__post_init__]: the stored attributes, the
    part numbers filled by [fill_partnumbers], [qty] and [amount] as
    [NumberAndUnit] (or [None]), and the [bom_id] filled after the harness is
    built. *)
Record t : Type := mk {
  attributes : attrs;
  partnumbers : option PartNumberInfo.t;
  qty : option NumberAndUnit.t;
  amount : option NumberAndUnit.t;
  bom_id : option string
}.

Definition fill_partnumbers (a : attrs) : PartNumberInfo.t :=
  PartNumberInfo.mk (remove_links (pn a)) (remove_links (manufacturer a))
    (remove_links (mpn a)) (remove_links (supplier a)) (remove_links (spn a)).

(** The argument of [parse_number_and_unit]:
    [Optional[Union[NumberAndUnit, float, int, str]]]. *)
Inductive quantity_input : Type :=
| InNone
| InNumberAndUnit (nu : NumberAndUnit.t)
| InNumber (n : Number.t)
| InStr (s : string).

Definition parse_number_and_unit (inp : quantity_input)
  (default_unit : option string) : Py (option NumberAndUnit.t) :=
  match inp with
  | InNone => ret None
  | InNumberAndUnit nu => ret (Some nu)
  | InNumber n =>
      number <- Number.float n ;;
      ret (Some (NumberAndUnit.mk (Some (Number.PyFloat number)) default_unit))
  | InStr s =>
      let '(number, unit) :=
        match split_first_space s with
        | Some (number, unit) => (number, Some unit)
        | None => (s, default_unit)
        end in
      match float_of_str number with
      | None =>
          Raises (Exception
            (s ++ " is not a valid number and unit." ++ nl ++
             "It must be a number, or a number and unit separated by a space."))
      | Some f => ret (Some (NumberAndUnit.mk (Some (Number.PyFloat f)) unit))
      end
  end.

(** [x.unit] and [x.number] on an attribute that may hold [None]. *)
Definition unit_of (x : option NumberAndUnit.t) : Py (option string) :=
  match x with
  | Some nu => ret (NumberAndUnit.unit nu)
  | None => Raises AttributeError
  end.

Definition number_of (x : option NumberAndUnit.t) : Py (option Number.t) :=
  match x with
  | Some nu => ret (NumberAndUnit.number nu)
  | None => Raises AttributeError
  end.

(** The property [bom_hash].  [description] is the property of that name
    of the subclass at hand; the base class has none. *)
Definition bom_hash (description : Py string) (self : t) : Py BomHash.t :=
  if sum_amounts_in_bom (attributes self) then
    d <- description ;;
    ret (BomHash.mk d
           (match amount self with
            | Some a => NumberAndUnit.unit a
            | None => None
            end)
           None
           (partnumbers self))
  else
    d <- description ;;
    u <- unit_of (qty self) ;;
    ret (BomHash.mk d u (amount self) (partnumbers self)).

End Component.

Section Quantity.
Context {T : ExternalTypes} {E : Externals} {M : MoreExternals}.

Definition bom_qty (self : t) : Py (option Number.t) :=
  if sum_amounts_in_bom (attributes self) then
    match amount self with
    | Some a =>
        qty_number <- number_of (qty self) ;;
        Number.mul_values qty_number (NumberAndUnit.number a)
    | None => number_of (qty self)
    end
  else number_of (qty self).
End Quantity.
End Component.

(** ** class AdditionalComponent *)

Module AdditionalComponent.

(** The value given for [qty_multiplier]: a number or the name of a
    symbolic multiplier. *)
Inductive multiplier_input {T : ExternalTypes} : Type :=
| GivenNumber (n : Number.t)
| GivenName (s : string).

(** [qty_multiplier] after [__post_init__]. *)
Inductive multiplier {T : ExternalTypes} : Type :=
| Numeric (n : Number.t)
| OfConnector (m : QtyMultiplierConnector)
| OfCable (m : QtyMultiplierCable).

(** The constructor's arguments. *)
Module Args.
Section Args.
Context {T : ExternalTypes} {E : Externals}.

Record t : Type := mk {
  component : Component.attrs;
  qty : Component.quantity_input;
  amount : Component.quantity_input;
  qty_multiplier : multiplier_input;
  designators : option string;
  bgcolor : option string;
  note : option string
}.
End Args.
End Args.

Section AdditionalComponent.
Context {T : ExternalTypes} {E : Externals}.

Record t : Type := mk {
  component : Component.t;
  qty_multiplier : multiplier;
  _qty_multiplier_computed : option Number.t;
  designators : option string;
  bgcolor : SingleColor;
  note : option string
}.

Definition __post_init__ (a : Args.t) : Py t :=
  let partnumbers := Component.fill_partnumbers (Args.component a) in
  let bgcolor := SingleColor_new (Args.bgcolor a) in
  qty <- Component.parse_number_and_unit (Args.qty a) None ;;
  amount <- Component.parse_number_and_unit (Args.amount a) None ;;
  qty_multiplier <-
    match Args.qty_multiplier a with
    | GivenNumber n => ret (Numeric n)
    | GivenName s =>
        let name := str_upper s in
        match QtyMultiplierConnector_members name with
        | Some m => ret (OfConnector m)
        | None =>
            match QtyMultiplierCable_members name with
            | Some m => ret (OfCable m)
            | None => Raises (Exception ("Unknown qty multiplier: " ++ name))
            end
        end
    end ;;
  ret (mk (Component.mk (Args.component a) (Some partnumbers) qty amount None)
          qty_multiplier (Some (Number.PyInt 1)) (Args.designators a)
          bgcolor (Args.note a)).

Definition description (self : t) : string :=
  let c := Component.attributes (component self) in
  str_of_optional (Component.type c) ++
  (if str_truthy (Component.subtype c)
   then ", " ++ str_of_optional (Component.subtype c)
   else "").

Definition bom_hash (self : t) : Py BomHash.t :=
  Component.bom_hash (ret (description self)) (component self).

Definition set_computed (factor : option Number.t) (self : t) : t :=
  mk (component self) (qty_multiplier self) factor (designators self)
     (bgcolor self) (note self).

Definition set_qty (q : option NumberAndUnit.t) (self : t) : t :=
  let c := component self in
  mk (Component.mk (Component.attributes c) (Component.partnumbers c) q
        (Component.amount c) (Component.bom_id c))
     (qty_multiplier self) (_qty_multiplier_computed self) (designators self)
     (bgcolor self) (note self).

(** An entry of [additional_components] as given to a connector or cable:
    a raw mapping still to be expanded, or an object. *)
Inductive entry : Type :=
| Mapping (a : Args.t)
| Object (c : t).

(** The closing loop of both [__post_init__] methods: every mapping in
    [additional_components] is replaced by the object built from it. *)
Fixpoint expand (items : list entry) : Py (list t) :=
  match items with
  | [] => ret []
  | Mapping a :: rest =>
      c <- __post_init__ a ;;
      cs <- expand rest ;;
      ret (c :: cs)
  | Object c :: rest =>
      cs <- expand rest ;;
      ret (c :: cs)
  end.
End AdditionalComponent.

Section Quantity.
Context {T : ExternalTypes} {E : Externals} {M : MoreExternals}.

(** The property [bom_qty], which overrides the one of [Component]. *)
Definition bom_qty (self : t) : Py (option Number.t) :=
  qty_number <- Component.number_of (Component.qty (component self)) ;;
  Number.mul_values qty_number (_qty_multiplier_computed self).
End Quantity.
End AdditionalComponent.

(** The texts among [substrs] that are neither [None] nor empty, in order:
    the filter [s is not None and s != ""] of the description properties. *)
Definition present (substrs : list (option string)) : list string :=
  flat_map
    (fun s =>
       match s with
       | Some s => if (s =? "")%string then [] else [s]
       | None => []
       end)
    substrs.

Definition AUTOGENERATED_PREFIX : string := "AUTOGENERATED_".

(** The property [is_autogenerated] of connectors and cables:
    [self.designator.startswith(AUTOGENERATED_PREFIX)]. *)
Definition is_autogenerated (designator : option string) : Py bool :=
  match designator with
  | Some d => ret (String.prefix AUTOGENERATED_PREFIX d)
  | None => Raises AttributeError
  end.

(** [x == "text"] for an optional text attribute. *)
Definition eq_str (x : option string) (s : string) : bool :=
  match x with
  | Some x => (x =? s)%string
  | None => false
  end.

(** A loop that rebuilds each item of a list and may raise. *)
Fixpoint map_each {A B : Type} (f : A -> Py B) (items : list A) : Py (list B) :=
  match items with
  | [] => ret []
  | x :: rest =>
      y <- f x ;;
      ys <- map_each f rest ;;
      ret (y :: ys)
  end.

(** ** class PinClass *)

Module PinClass.
Section PinClass.
Context {T : ExternalTypes} {E : Externals}.

Record t : Type := mk {
  index : Z;
  id : option PyId;
  label : option PyId;
  color : MultiColor;
  parent : option string;
  _num_connections : Z;
  _anonymous : bool;
  _simple : bool
}.

(** [self._num_connections += 1]. *)
Definition connect (self : t) : t :=
  mk (index self) (id self) (label self) (color self) (parent self)
     (_num_connections self + 1) (_anonymous self) (_simple self).

(** [str(x)] of a pin id, a label, or [None]. *)
Definition str_of_id (x : option PyId) : string :=
  match x with
  | None => "None"
  | Some (IdInt z) => str_of_int z
  | Some (IdStr s) => s
  end.

(** The truth value of a label: [None], [0] and the empty text are false. *)
Definition label_truthy (x : option PyId) : bool :=
  match x with
  | None => false
  | Some (IdInt z) => negb (z =? 0)
  | Some (IdStr s) => negb (s =? "")%string
  end.

Definition __str__ (self : t) : string :=
  let snippets :=
    [if negb (_anonymous self) then str_of_optional (parent self) else "";
     if negb (_anonymous self) && negb (_simple self)
     then str_of_id (id self) else "";
     if label_truthy (label self) then str_of_id (label self) else ""] in
  join ":" (filter (fun snip => negb (snip =? "")%string) snippets).
End PinClass.
End PinClass.

(** ** class Connector *)

Module Connector.

(** The constructor's arguments.  [image], [notes] and the other
    attributes that are only handed on to rendering are left out; an
    [image] given as a raw mapping is outside the inputs modelled here. *)
Module Args.
Section Args.
Context {T : ExternalTypes} {E : Externals}.

Record t : Type := mk {
  component : Component.attrs;
  bgcolor : option string;
  designator : option string;
  color : option string;
  additional_components : list AdditionalComponent.entry;
  bgcolor_title : option string;
  show_name : option bool;
  style : option string;
  loops : list (list PyId);
  pincount : option Z;
  pins : list PyId;
  pinlabels : list PyId;
  pincolors : list string;
  show_pincount : option bool;
  hide_disconnected_pins : bool
}.
End Args.
End Args.

Section Connector.
Context {T : ExternalTypes} {E : Externals}.

Definition pin_dict : Type := @Dict.t (option PyId) PinClass.t.

Definition get_pin : option PyId -> pin_dict -> option PinClass.t :=
  Dict.get (option_eq_dec PyId_eq_dec).

Record t : Type := mk {
  component : Component.t;
  bgcolor : SingleColor;
  designator : option string;
  color : MultiColor;
  additional_components : list AdditionalComponent.t;
  bgcolor_title : SingleColor;
  show_name : bool;
  style : option string;
  loops : list (list PyId);
  pincount : Z;
  pins : list PyId;
  pinlabels : list PyId;
  pincolors : list string;
  pin_objects : pin_dict;
  show_pincount : bool;
  hide_disconnected_pins : bool;
  ports_left : bool;
  ports_right : bool
}.

Definition set_pin_objects (d : pin_dict) (self : t) : t :=
  mk (component self) (bgcolor self) (designator self) (color self)
     (additional_components self) (bgcolor_title self) (show_name self)
     (style self) (loops self) (pincount self) (pins self) (pinlabels self)
     (pincolors self) d (show_pincount self) (hide_disconnected_pins self)
     (ports_left self) (ports_right self).

Definition set_ports (left right : bool) (self : t) : t :=
  mk (component self) (bgcolor self) (designator self) (color self)
     (additional_components self) (bgcolor_title self) (show_name self)
     (style self) (loops self) (pincount self) (pins self) (pinlabels self)
     (pincolors self) (pin_objects self) (show_pincount self)
     (hide_disconnected_pins self) left right.

Definition set_additional_components (cs : list AdditionalComponent.t)
  (self : t) : t :=
  mk (component self) (bgcolor self) (designator self) (color self)
     cs (bgcolor_title self) (show_name self)
     (style self) (loops self) (pincount self) (pins self) (pinlabels self)
     (pincolors self) (pin_objects self) (show_pincount self)
     (hide_disconnected_pins self) (ports_left self) (ports_right self).

Definition description (self : t) : string :=
  let c := Component.attributes (component self) in
  join ", "
    (present
       [Some "Connector";
        Component.type c;
        Component.subtype c;
        if show_pincount self
        then Some (str_of_int (pincount self) ++ " pins")
        else None;
        if MultiColor_bool (color self)
        then Some (MultiColor_str (color self))
        else None]).

Definition bom_hash (self : t) : Py BomHash.t :=
  Component.bom_hash (ret (description self)) (component self).

Definition should_show_pin (self : t) (pin_id : option PyId) : Py bool :=
  if negb (hide_disconnected_pins self) then ret true
  else
    pin <- Dict.getitem (option_eq_dec PyId_eq_dec) pin_id (pin_objects self) ;;
    ret (PinClass._num_connections pin >? 0).

Definition activate_pin (self : t) (pin_id : option PyId)
  (side : option Side) (is_connection : bool) : Py t :=
  self <-
    (if is_connection then
       pin <- Dict.getitem (option_eq_dec PyId_eq_dec) pin_id
                (pin_objects self) ;;
       ret (set_pin_objects
              (Dict.set (option_eq_dec PyId_eq_dec) pin_id
                 (PinClass.connect pin) (pin_objects self))
              self)
     else ret self) ;;
  match side with
  | Some LEFT => ret (set_ports true (ports_right self) self)
  | Some RIGHT => ret (set_ports (ports_left self) true self)
  | None => ret self
  end.

(** The pin-creating loop of [__post_init__]: one [PinClass] per tuple of
    the zipped lists, stored under its pin id. *)
Definition create_pins (designator : option string) (style : option string)
  (pins : list PyId) (pinlabels : list PyId) (pincolors : list string)
  : Py pin_dict :=
  for_each (enumerate (zip_longest3 pins pinlabels pincolors))
    (fun pin_objects '(pin_index, (pin_id, pin_label, pin_color)) =>
       anonymous <- is_autogenerated designator ;;
       ret (Dict.set (option_eq_dec PyId_eq_dec) pin_id
              (PinClass.mk pin_index pin_id pin_label
                 (MultiColor_new pin_color) designator 0 anonymous
                 (eq_str style "simple"))
              pin_objects))
    Dict.empty.

(** The loop over [self.loops] in [__post_init__]. *)
Definition register_loops (loops : list (list PyId)) (self : t) : Py t :=
  for_each loops
    (fun self loop =>
       match loop with
       | [a; b] =>
           self <- activate_pin self (Some a) None true ;;
           activate_pin self (Some b) None true
       | _ => Raises (Exception "Loops must be between exactly two pins!")
       end)
    self.

Definition __post_init__ (a : Args.t) : Py t :=
  let partnumbers := Component.fill_partnumbers (Args.component a) in
  let bgcolor := SingleColor_new (Args.bgcolor a) in
  let bgcolor_title := SingleColor_new (Args.bgcolor_title a) in
  let color := MultiColor_new (Args.color a) in
  (* connectors do not support custom qty or amount *)
  let qty := Some (NumberAndUnit.mk (Some (Number.PyInt 1)) None) in
  let amount := None in
  let style := Args.style a in
  pincount <-
    (if eq_str style "simple" then
       match truthy_int (Args.pincount a) with
       | Some n =>
           if n >? 1
           then Raises (Exception
                  "Connectors with style set to simple may only have one pin")
           else ret (Some 1)
       | None => ret (Some 1)
       end
     else ret (Args.pincount a)) ;;
  pincount <-
    match truthy_int pincount with
    | Some n => ret n
    | None =>
        let n := Z.max (len (Args.pins a))
                   (Z.max (len (Args.pinlabels a)) (len (Args.pincolors a))) in
        if n =? 0
        then Raises (Exception
               ("You need to specify at least one: " ++
                "pincount, pins, pinlabels, or pincolors"))
        else ret n
    end ;;
  (* create default list for pins (sequential) if not specified *)
  let pins :=
    match Args.pins a with
    | [] => map IdInt (range 1 (pincount + 1))
    | _ => Args.pins a
    end in
  if negb (List.length pins =? List.length (nodup PyId_eq_dec pins))%nat
  then Raises (Exception "Pins are not unique")
  else
  (* all checks have passed *)
  pin_objects <- create_pins (Args.designator a) style pins
                   (Args.pinlabels a) (Args.pincolors a) ;;
  show_name <-
    match Args.show_name a with
    | Some b => ret b
    | None =>
        if negb (eq_str style "simple") then
          autogenerated <- is_autogenerated (Args.designator a) ;;
          ret (negb autogenerated)
        else ret false
    end ;;
  let show_pincount :=
    match Args.show_pincount a with
    | Some b => b
    | None => negb (eq_str style "simple")
    end in
  (* the object as it stands when the loops are registered; its additional
     components are expanded by the last step *)
  let self :=
    mk (Component.mk (Args.component a) (Some partnumbers) qty amount None)
       bgcolor (Args.designator a) color [] bgcolor_title show_name style
       (Args.loops a) pincount pins (Args.pinlabels a) (Args.pincolors a)
       pin_objects show_pincount (Args.hide_disconnected_pins a) false false in
  self <- register_loops (Args.loops a) self ;;
  additional_components <-
    AdditionalComponent.expand (Args.additional_components a) ;;
  ret (set_additional_components additional_components self).

(** The body of the loop of [compute_qty_multipliers]. *)
Definition resolve (qty_multipliers_computed : @Dict.t string (option Number.t))
  (subitem : AdditionalComponent.t) : Py AdditionalComponent.t :=
  computed_factor <-
    match AdditionalComponent.qty_multiplier subitem with
    | AdditionalComponent.OfConnector m =>
        Dict.getitem string_dec (QtyMultiplierConnector_name m)
          qty_multipliers_computed
    | AdditionalComponent.OfCable _ =>
        Raises (Exception "Used a cable multiplier in a connector!")
    | AdditionalComponent.Numeric n => ret (Some n)
    end ;;
  ret (AdditionalComponent.set_computed computed_factor subitem).

Definition compute_qty_multipliers (self : t) : Py t :=
  let num_populated_pins :=
    len (filter (fun pin => PinClass._num_connections pin >? 0)
           (Dict.values (pin_objects self))) in
  let num_connections :=
    fold_left Z.add
      (map PinClass._num_connections (Dict.values (pin_objects self))) 0 in
  let qty_multipliers_computed :=
    [("PINCOUNT", Some (Number.PyInt (pincount self)));
     ("POPULATED", Some (Number.PyInt num_populated_pins));
     ("CONNECTIONS", Some (Number.PyInt num_connections))] in
  additional_components <-
    map_each (resolve qty_multipliers_computed) (additional_components self) ;;
  ret (set_additional_components additional_components self).

(** The states of a connector in the life of a harness: the constructor
    builds it, the assembly step activates pins, and the multipliers are
    resolved afterwards. *)
Inductive reachable : t -> Prop :=
| reach_init (a : Args.t) (self : t) :
    __post_init__ a = Returns self -> reachable self
| reach_activate_pin (self self' : t) (pin_id : option PyId)
    (side : option Side) (is_connection : bool) :
    reachable self ->
    activate_pin self pin_id side is_connection = Returns self' ->
    reachable self'
| reach_compute_qty_multipliers (self self' : t) :
    reachable self ->
    compute_qty_multipliers self = Returns self' ->
    reachable self'.
End Connector.

Section Quantity.
Context {T : ExternalTypes} {E : Externals} {M : MoreExternals}.

(** The property [bom_qty], inherited from [Component]. *)
Definition bom_qty (self : t) : Py (option Number.t) :=
  Component.bom_qty (component self).
End Quantity.
End Connector.

(** ** class WireClass (and its subclass ShieldClass, which adds nothing) *)

Module WireClass.
Section WireClass.
Context {T : ExternalTypes} {E : Externals}.

Record t : Type := mk {
  parent : option string;
  index : Z;
  id : PyId;
  label : option PyId;
  color : MultiColor;
  bom_id : option string;
  type : option string;
  subtype : option string;
  gauge : option NumberAndUnit.t;
  length : option NumberAndUnit.t;
  ignore_in_bom : bool;
  sum_amounts_in_bom : bool;
  partnumbers : option PartNumberInfo.t
}.

Definition gauge_str (self : t) : option string :=
  match gauge self with
  | None => None
  | Some g =>
      Some (replace "mm2" "mm²"
              (Number.str (NumberAndUnit.number g) ++ " " ++
               str_of_optional (NumberAndUnit.unit g)))
  end.

Definition description (self : t) : string :=
  join ", "
    (present
       [Some "Wire";
        type self;
        subtype self;
        gauge_str self;
        if MultiColor_bool (color self)
        then Some (MultiColor_str (color self))
        else None]).

Definition bom_hash (self : t) : BomHash.t :=
  if sum_amounts_in_bom self then
    BomHash.mk (description self)
      (match length self with
       | Some l => NumberAndUnit.unit l
       | None => None
       end)
      None
      (partnumbers self)
  else
    BomHash.mk (description self) None (length self) (partnumbers self).

Definition set_length (l : option NumberAndUnit.t) (self : t) : t :=
  mk (parent self) (index self) (id self) (label self) (color self)
     (bom_id self) (type self) (subtype self) (gauge self) l
     (ignore_in_bom self) (sum_amounts_in_bom self) (partnumbers self).
End WireClass.
End WireClass.

(** ** class Connection *)

Module Connection.
Section Connection.
Context {T : ExternalTypes} {E : Externals}.

Record t : Type := mk {
  from_ : list PinClass.t;
  via : WireClass.t;
  to : list PinClass.t
}.
End Connection.
End Connection.

(** ** class Cable *)

Module Cable.

(** The value of [shield]: a flag, or the colour of the shield. *)
Inductive shield_value : Type :=
| ShieldFlag (b : bool)
| ShieldColor (s : string).

(** The truth value of [self.shield]. *)
Definition shielded (s : shield_value) : bool :=
  match s with
  | ShieldFlag b => b
  | ShieldColor s => negb (s =? "")%string
  end.

(** The constructor's arguments ([qty] as its declared type; [image],
    [notes] and the like left out as for connectors). *)
Module Args.
Section Args.
Context {T : ExternalTypes} {E : Externals}.

Record t : Type := mk {
  component : Component.attrs;
  qty : NumberAndUnit.t;
  bgcolor : option string;
  designator : option string;
  color : option string;
  additional_components : list AdditionalComponent.entry;
  bgcolor_title : option string;
  gauge : Component.quantity_input;
  length : Component.quantity_input;
  color_code : option string;
  wirecount : option Z;
  shield : shield_value;
  colors : list string;
  wirelabels : list PyId;
  show_name : option bool;
  show_equiv : bool;
  show_wirecount : bool;
  show_wirenumbers : option bool
}.
End Args.
End Args.

Section Cable.
Context {T : ExternalTypes} {E : Externals}.

Definition wire_dict : Type := @Dict.t PyId WireClass.t.

Definition get_wire : PyId -> wire_dict -> option WireClass.t :=
  Dict.get PyId_eq_dec.

Record t : Type := mk {
  component : Component.t;
  bgcolor : SingleColor;
  designator : option string;
  color : MultiColor;
  additional_components : list AdditionalComponent.t;
  bgcolor_title : SingleColor;
  gauge : option NumberAndUnit.t;
  length : option NumberAndUnit.t;
  color_code : option string;
  wirecount : Z;
  shield : shield_value;
  colors : list string;
  wirelabels : list PyId;
  wire_objects : wire_dict;
  _connections : list Connection.t;
  show_name : bool;
  show_equiv : bool;
  show_wirecount : bool;
  show_wirenumbers : bool
}.

Definition set_additional_components (cs : list AdditionalComponent.t)
  (self : t) : t :=
  mk (component self) (bgcolor self) (designator self) (color self) cs
     (bgcolor_title self) (gauge self) (length self) (color_code self)
     (wirecount self) (shield self) (colors self) (wirelabels self)
     (wire_objects self) (_connections self) (show_name self)
     (show_equiv self) (show_wirecount self) (show_wirenumbers self).

Definition set_wire_objects (d : wire_dict) (self : t) : t :=
  mk (component self) (bgcolor self) (designator self) (color self)
     (additional_components self) (bgcolor_title self) (gauge self)
     (length self) (color_code self) (wirecount self) (shield self)
     (colors self) (wirelabels self) d (_connections self) (show_name self)
     (show_equiv self) (show_wirecount self) (show_wirenumbers self).

Definition set_connections (cs : list Connection.t) (self : t) : t :=
  mk (component self) (bgcolor self) (designator self) (color self)
     (additional_components self) (bgcolor_title self) (gauge self)
     (length self) (color_code self) (wirecount self) (shield self)
     (colors self) (wirelabels self) (wire_objects self) cs (show_name self)
     (show_equiv self) (show_wirecount self) (show_wirenumbers self).

Definition category (self : t) : option string :=
  Component.category (Component.attributes (component self)).

Definition gauge_str (self : t) : option string :=
  match gauge self with
  | None => None
  | Some g =>
      Some (replace "mm2" "mm²"
              (Number.str (NumberAndUnit.number g) ++ " " ++
               str_of_optional (NumberAndUnit.unit g)))
  end.

Definition length_str (self : t) : option string :=
  match length self with
  | None => None
  | Some l =>
      Some (Number.str (NumberAndUnit.number l) ++ " " ++
            str_of_optional (NumberAndUnit.unit l))
  end.

Definition description (self : t) : Py string :=
  if eq_str (category self) "bundle"
  then Raises (Exception "Do this at the wire level!")
  else
    let c := Component.attributes (component self) in
    let substrs :=
      [("", Some "Cable");
       (", ", Component.type c);
       (", ", Component.subtype c);
       (", ", Some (str_of_int (wirecount self)));
       (" ", match gauge self with
             | Some _ => Some ("x " ++ str_of_optional (gauge_str self))
             | None => Some "wires"
             end);
       (" ", if shielded (shield self) then Some "shielded" else None);
       (", ", if MultiColor_bool (color self)
              then Some (MultiColor_str (color self))
              else None)] in
    ret (String.concat ""
           (flat_map
              (fun s : string * option string =>
                 match snd s with
                 | Some text =>
                     if (text =? "")%string then [] else [fst s ++ text]
                 | None => []
                 end)
              substrs)).

Definition bom_hash (self : t) : Py BomHash.t :=
  if eq_str (category self) "bundle"
  then Raises (Exception "Do this at the wire level!")
  else Component.bom_hash (description self) (component self).

(** [inp[idx] if isinstance(inp, List) else inp]. *)
Definition _get_correct_element (inp : PartField) (idx : Z) : Py PartField :=
  match inp with
  | PartList l => s <- list_getitem l idx ;; ret (PartStr s)
  | _ => ret inp
  end.

Definition _get_wire_partnumber (category : option string)
  (partnumbers : PartNumberInfo.t) (idx : Z) : Py (option PartNumberInfo.t) :=
  if eq_str category "bundle" then
    pn <- _get_correct_element (PartNumberInfo.pn partnumbers) idx ;;
    manufacturer <-
      _get_correct_element (PartNumberInfo.manufacturer partnumbers) idx ;;
    mpn <- _get_correct_element (PartNumberInfo.mpn partnumbers) idx ;;
    supplier <- _get_correct_element (PartNumberInfo.supplier partnumbers) idx ;;
    spn <- _get_correct_element (PartNumberInfo.spn partnumbers) idx ;;
    ret (Some (PartNumberInfo.mk pn manufacturer mpn supplier spn))
  else ret None.

(** The colour list and the wire count after the first block of
    [__post_init__]. *)
Definition derive_colors (wirecount : option Z) (colors : list string)
  (color_code : option string) : Py (list string * Z) :=
  match truthy_int wirecount with
  | None =>
      match colors with
      | [] => Raises (Exception
                ("Unknown number of wires. " ++
                 "Must specify wirecount or colors (implicit length)"))
      | _ => ret (colors, len colors)
      end
  | Some n =>
      match colors with
      | _ :: _ =>
          ret (map (fun i => nth (Z.to_nat (i mod len colors)) colors "")
                 (range 0 n), n)
      | [] =>
          if str_truthy color_code then
            let code := str_of_optional color_code in
            if negb (COLOR_CODES_contains code)
            then Raises (Exception "Unknown color code")
            else ret (map (get_color_by_colorcode_index code) (range 0 n), n)
          else ret (repeat "" (Z.to_nat n), n)
      end
  end.

(** The loop over the part-number attributes in [__post_init__]. *)
Definition check_part_lists (a : Component.attrs) (wirecount : Z) : Py unit :=
  for_each
    [Component.manufacturer a; Component.mpn a; Component.supplier a;
     Component.spn a; Component.pn a]
    (fun _ idfield =>
       match idfield with
       | PartList l =>
           if eq_str (Component.category a) "bundle" then
             if negb (len l =? wirecount)
             then Raises (Exception "lists of part data must match wirecount")
             else ret tt
           else Raises (Exception
                  "lists of part data are only supported for bundles")
       | _ => ret tt
       end)
    tt.

(** The wire-creating loop of [__post_init__]. *)
Definition create_wires (a : Component.attrs) (partnumbers : PartNumberInfo.t)
  (designator : option string) (gauge length : option NumberAndUnit.t)
  (colors : list string) (wirelabels : list PyId) : Py wire_dict :=
  for_each (enumerate (zip_longest colors wirelabels))
    (fun wire_objects '(wire_index, (wire_color, wire_label)) =>
       let id := IdInt (wire_index + 1) in
       wire_partnumbers <-
         _get_wire_partnumber (Component.category a) partnumbers wire_index ;;
       ret (Dict.set PyId_eq_dec id
              (WireClass.mk designator wire_index id wire_label
                 (MultiColor_new wire_color) None (Component.type a)
                 (Component.subtype a) gauge length
                 (Component.ignore_in_bom a) (Component.sum_amounts_in_bom a)
                 wire_partnumbers)
              wire_objects))
    Dict.empty.

(** The shield entry added after the wires. *)
Definition add_shield (designator : option string) (shield : shield_value)
  (wire_objects : wire_dict) : wire_dict :=
  if shielded shield then
    let index_offset := len wire_objects in
    let id := IdStr "s" in
    Dict.set PyId_eq_dec id
      (WireClass.mk designator index_offset id (Some (IdStr "Shield"))
         (match shield with
          | ShieldColor s => MultiColor_new (Some s)
          | ShieldFlag _ => MultiColor_new None
          end)
         None None None None None false true None)
      wire_objects
  else wire_objects.

Definition __post_init__ (a : Args.t) : Py t :=
  let attrs := Args.component a in
  let partnumbers := Component.fill_partnumbers attrs in
  let bgcolor := SingleColor_new (Args.bgcolor a) in
  let bgcolor_title := SingleColor_new (Args.bgcolor_title a) in
  let color := MultiColor_new (Args.color a) in
  gauge <- Component.parse_number_and_unit (Args.gauge a) (Some "mm2") ;;
  length <- Component.parse_number_and_unit (Args.length a) (Some "m") ;;
  let amount := length in
  '(colors, wirecount) <-
    derive_colors (Args.wirecount a) (Args.colors a) (Args.color_code a) ;;
  if match Args.wirelabels a with
     | [] => false
     | _ => shielded (Args.shield a) &&
            existsb (fun l => if PyId_eq_dec l (IdStr "s") then true else false)
              (Args.wirelabels a)
     end
  then Raises (Exception
         (dq ++ "s" ++ dq ++
          " may not be used as a wire label for a shielded cable."))
  else
  check_part_lists attrs wirecount ;;
  (* all checks have passed *)
  wire_objects <-
    create_wires attrs partnumbers (Args.designator a) gauge length colors
      (Args.wirelabels a) ;;
  let wire_objects := add_shield (Args.designator a) (Args.shield a) wire_objects in
  show_name <-
    match Args.show_name a with
    | Some b => ret b
    | None =>
        autogenerated <- is_autogenerated (Args.designator a) ;;
        ret (negb autogenerated)
    end ;;
  let show_wirenumbers :=
    match Args.show_wirenumbers a with
    | Some b => b
    | None => negb (eq_str (Component.category attrs) "bundle")
    end in
  additional_components <-
    AdditionalComponent.expand (Args.additional_components a) ;;
  ret (mk (Component.mk attrs (Some partnumbers) (Some (Args.qty a)) amount None)
          bgcolor (Args.designator a) color additional_components
          bgcolor_title gauge length (Args.color_code a) wirecount
          (Args.shield a) colors (Args.wirelabels a) wire_objects []
          show_name (Args.show_equiv a) (Args.show_wirecount a)
          show_wirenumbers).

Definition _connect (self : t) (from_pin_obj : list PinClass.t)
  (via_wire_id : PyId) (to_pin_obj : list PinClass.t) : Py t :=
  via_wire_obj <- Dict.getitem PyId_eq_dec via_wire_id (wire_objects self) ;;
  ret (set_connections
         (_connections self ++ [Connection.mk from_pin_obj via_wire_obj to_pin_obj])%list
         self).

(** The body of the loop of [compute_qty_multipliers]. *)
Definition resolve (length : option NumberAndUnit.t)
  (qty_multipliers_computed : @Dict.t string (option Number.t))
  (subitem : AdditionalComponent.t) : Py AdditionalComponent.t :=
  match AdditionalComponent.qty_multiplier subitem with
  | AdditionalComponent.OfCable m =>
      computed_factor <-
        Dict.getitem string_dec (QtyMultiplierCable_name m)
          qty_multipliers_computed ;;
      (* inherit component's length unit if appropriate *)
      subitem <-
        (if existsb (String.eqb (QtyMultiplierCable_name m))
              ["LENGTH"; "TOTAL_LENGTH"]
         then
           let qty := Component.qty (AdditionalComponent.component subitem) in
           qty_unit <- Component.unit_of qty ;;
           match qty_unit with
           | Some _ =>
               Raises (Exception
                 ("No unit may be specified when using" ++
                  QtyMultiplierCable_str m ++ " as a multiplier"))
           | None =>
               number <- Component.number_of qty ;;
               unit <- Component.unit_of length ;;
               ret (AdditionalComponent.set_qty
                      (Some (NumberAndUnit.mk number unit)) subitem)
           end
         else ret subitem) ;;
      ret (AdditionalComponent.set_computed computed_factor subitem)
  | AdditionalComponent.OfConnector _ =>
      Raises (Exception "Used a connector multiplier in a cable!")
  | AdditionalComponent.Numeric n =>
      ret (AdditionalComponent.set_computed (Some n) subitem)
  end.

Definition compute_qty_multipliers (self : t) : Py t :=
  total_length <-
    Number.sum
      (map (fun wire =>
              match WireClass.length wire with
              | Some l => NumberAndUnit.number l
              | None => Some (Number.PyInt 0)
              end)
         (Dict.values (wire_objects self))) ;;
  let qty_multipliers_computed :=
    [("WIRECOUNT", Some (Number.PyInt (len (wire_objects self))));
     ("TERMINATIONS", Some (Number.PyInt 999));
     ("LENGTH", match length self with
                | Some l => NumberAndUnit.number l
                | None => Some (Number.PyInt 0)
                end);
     ("TOTAL_LENGTH", Some total_length)] in
  additional_components <-
    map_each (resolve (length self) qty_multipliers_computed)
      (additional_components self) ;;
  ret (set_additional_components additional_components self).
End Cable.

Section Quantity.
Context {T : ExternalTypes} {E : Externals} {M : MoreExternals}.

(** The property [bom_qty], inherited from [Component]. *)
Definition bom_qty (self : t) : Py (option Number.t) :=
  Component.bom_qty (component self).
End Quantity.
End Cable.

(** ** class Options *)

Module Options.

(** The constructor's arguments: the font, the five background colours and
    the plain settings.  [color_output_mode] and the two path lists, which
    [__post_init__] does not touch, are left out. *)
Module Args.
Record t : Type := mk {
  fontname : string;
  bgcolor : option string;
  bgcolor_node : option string;
  bgcolor_connector : option string;
  bgcolor_cable : option string;
  bgcolor_bundle : option string;
  mini_bom_mode : bool;
  template_separator : string;
  _pad : Z
}.

(** The defaults of the dataclass. *)
Definition default : t :=
  mk "arial" (Some "WH") (Some "WH") None None None true "." 0.
End Args.

Section Options.
Context {T : ExternalTypes} {E : Externals} {M : MoreExternals}.

Record t : Type := mk {
  fontname : string;
  bgcolor : SingleColor;
  bgcolor_node : SingleColor;
  bgcolor_connector : SingleColor;
  bgcolor_cable : SingleColor;
  bgcolor_bundle : SingleColor;
  mini_bom_mode : bool;
  template_separator : string;
  _pad : Z
}.

Definition __post_init__ (a : Args.t) : t :=
  let bgcolor := SingleColor_new (Args.bgcolor a) in
  let bgcolor_node := SingleColor_new (Args.bgcolor_node a) in
  let bgcolor_connector := SingleColor_new (Args.bgcolor_connector a) in
  let bgcolor_cable := SingleColor_new (Args.bgcolor_cable a) in
  let bgcolor_bundle := SingleColor_new (Args.bgcolor_bundle a) in
  let bgcolor_node :=
    if negb (SingleColor_bool bgcolor_node) then bgcolor else bgcolor_node in
  let bgcolor_connector :=
    if negb (SingleColor_bool bgcolor_connector)
    then bgcolor_node else bgcolor_connector in
  let bgcolor_cable :=
    if negb (SingleColor_bool bgcolor_cable) then bgcolor_node else bgcolor_cable in
  let bgcolor_bundle :=
    if negb (SingleColor_bool bgcolor_bundle)
    then bgcolor_cable else bgcolor_bundle in
  mk (Args.fontname a) bgcolor bgcolor_node bgcolor_connector bgcolor_cable
     bgcolor_bundle (Args.mini_bom_mode a) (Args.template_separator a)
     (Args._pad a).
End Options.
End Options.

(** ** A concrete set of collaborators

    To run the model on concrete inputs: binary64 floats for [float], ints
    converted by rounding to the nearest float, plain decimal literals for
    [float(s)], ASCII upper-casing, part numbers without
    hyperlinks, colours kept as their text, and a colour-code table holding
    the first ten colours of the DIN code. *)

Module Sample.

Definition upper_char (c : ascii) : ascii :=
  let n := nat_of_ascii c in
  if ((97 <=? n) && (n <=? 122))%nat then ascii_of_nat (n - 32) else c.

Fixpoint upper (s : string) : string :=
  match s with
  | EmptyString => EmptyString
  | String c rest => String (upper_char c) (upper rest)
  end.

Definition digit_of (c : ascii) : option Z :=
  let n := nat_of_ascii c in
  if ((48 <=? n) && (n <=? 57))%nat then Some (Z.of_nat (n - 48)) else None.

(** Reads [digits[.digits]]: the digits as one integer and the number of
    digits after the point; [None] unless there is at least one digit and
    nothing else. *)
Fixpoint scan_decimal (s : string) (mantissa : Z) (after_point : option nat)
  (digits : nat) : option (Z * nat) :=
  match s with
  | EmptyString =>
      match digits with
      | O => None
      | _ => Some (mantissa, match after_point with Some k => k | None => O end)
      end
  | String c rest =>
      match digit_of c with
      | Some d =>
          scan_decimal rest (10 * mantissa + d) (option_map S after_point)
            (S digits)
      | None =>
          match after_point with
          | None =>
              if Ascii.eqb c "."%char then scan_decimal rest mantissa (Some O) digits
              else None
          | Some _ => None
          end
      end
  end.

Definition float_of_nonneg (z : Z) : float := PrimFloat.of_uint63 (Uint63.of_Z z).

Definition of_int (z : Z) : float :=
  if z <? 0 then PrimFloat.opp (float_of_nonneg (- z)) else float_of_nonneg z.

(** [float(n)] for any int: the nearest binary64 number, ties to even, and
    [None] when that is beyond the largest finite one. *)
Definition nearest_float (z : Z) : option float :=
  match SpecFloat.binary_normalize FloatOps.prec FloatOps.emax z 0 false with
  | S754_infinity _ => None
  | x => Some (SF2Prim x)
  end.

Definition float_of_unsigned (s : string) : option float :=
  match scan_decimal s 0 None O with
  | Some (mantissa, k) =>
      Some (PrimFloat.div (float_of_nonneg mantissa)
              (float_of_nonneg (10 ^ Z.of_nat k)))
  | None => None
  end.

Definition of_str (s : string) : option float :=
  match s with
  | String "-" rest => option_map PrimFloat.opp (float_of_unsigned rest)
  | String "+" rest => float_of_unsigned rest
  | _ => float_of_unsigned s
  end.

(** Drops the trailing zeros of a decimal fraction [n / 10^k]. *)
Fixpoint reduce_fraction (k : nat) (n : Z) : nat * Z :=
  match k with
  | O => (O, n)
  | S k' => if n mod 10 =? 0 then reduce_fraction k' (n / 10) else (k, n)
  end.

Fixpoint zeros (k : nat) : string :=
  match k with
  | O => EmptyString
  | S k' => String "0" (zeros k')
  end.

(** The exact decimal expansion of a finite float, which is what Python
    prints for values such as [1.5], [0.25] or [6.0]. *)
Definition repr (f : float) : string :=
  match Prim2SF f with
  | S754_zero false => "0.0"
  | S754_zero true => "-0.0"
  | S754_infinity false => "inf"
  | S754_infinity true => "-inf"
  | S754_nan => "nan"
  | S754_finite sign m e =>
      (if sign then "-" else "") ++
      (if 0 <=? e then str_of_int (Z.pos m * 2 ^ e) ++ ".0"
       else
         let '(k, n) := reduce_fraction (Z.to_nat (- e))
                          (Z.pos m * 5 ^ (- e)) in
         match k with
         | O => str_of_int n ++ ".0"
         | _ =>
             let fraction := str_of_int (n mod 10 ^ Z.of_nat k) in
             str_of_int (n / 10 ^ Z.of_nat k) ++ "." ++
             zeros (k - String.length fraction) ++ fraction
         end)
  end.

Definition color_text (c : option string) : string :=
  match c with
  | Some s => s
  | None => ""
  end.

Definition COLOR_CODES : list (string * list string) :=
  [("DIN", ["WH"; "BN"; "GN"; "YE"; "GY"; "PK"; "BU"; "RD"; "BK"; "VT"])].

Definition colors_of (code : string) : list string :=
  match find (fun entry => (fst entry =? code)%string) COLOR_CODES with
  | Some entry => snd entry
  | None => []
  end.

Definition color_by_index (code : string) (index : Z) : string :=
  nth (Z.to_nat (index mod len (colors_of code))) (colors_of code) "".

#[export] Instance types : ExternalTypes :=
  {| pyfloat := float;
     SingleColor := string;
     MultiColor := string |}.

#[export] Instance externals : Externals :=
  {| float_of_int := nearest_float;
     float_of_str := of_str;
     float_add := PrimFloat.add;
     str_of_float := repr;
     str_upper := upper;
     remove_links := fun field => field;
     SingleColor_new := color_text;
     MultiColor_new := color_text;
     MultiColor_bool := fun c => negb (c =? "")%string;
     MultiColor_str := fun c => c;
     COLOR_CODES_contains := fun code =>
       existsb (fun entry => (fst entry =? code)%string) COLOR_CODES;
     get_color_by_colorcode_index := color_by_index |}.

#[export] Instance more_externals : MoreExternals :=
  {| float_mul := PrimFloat.mul;
     SingleColor_bool := fun c => negb (c =? "")%string |}.

End Sample.

(** ** Vocabulary of the statements *)

(** [d[k] = v] on the list of keys: a key that is present keeps its place, a
    new key goes to the end. *)
Definition insert_key {K : Type} (dec : forall a b : K, {a = b} + {a <> b})
  (ks : list K) (k : K) : list K :=
  if in_dec dec k ks then ks else (ks ++ [k])%list.


Section Vocabulary.
Context {T : ExternalTypes} {E : Externals}.

(** Every pin of [before] is still stored under its key in [after], with a
    connection count that is not lower. *)
Definition counts_grow (before after : Connector.pin_dict) : Prop :=
  forall k p, Connector.get_pin k before = Some p ->
    exists p', Connector.get_pin k after = Some p' /\
      PinClass._num_connections p <= PinClass._num_connections p'.

Definition counts_nonneg (d : Connector.pin_dict) : Prop :=
  forall k p, Connector.get_pin k d = Some p -> 0 <= PinClass._num_connections p.

(** The attributes of a connector that pin activation leaves alone. *)
Definition same_frame (self self' : Connector.t) : Prop :=
  Connector.pins self' = Connector.pins self /\
  Connector.pincount self' = Connector.pincount self /\
  Connector.pinlabels self' = Connector.pinlabels self /\
  Connector.pincolors self' = Connector.pincolors self /\
  Connector.show_name self' = Connector.show_name self /\
  Connector.show_pincount self' = Connector.show_pincount self /\
  Connector.style self' = Connector.style self /\
  Connector.hide_disconnected_pins self' = Connector.hide_disconnected_pins self.

Definition pin_dec := option_eq_dec PyId_eq_dec.

(** Every pin is stored under its own id. *)
Definition ids_match (d : Connector.pin_dict) : Prop :=
  forall k p, Connector.get_pin k d = Some p -> PinClass.id p = k.

(** The table [qty_multipliers_computed] of [Connector.compute_qty_multipliers]. *)
Definition connector_table (self : Connector.t)
  : @Dict.t string (option Number.t) :=
  [("PINCOUNT", Some (Number.PyInt (Connector.pincount self)));
   ("POPULATED",
    Some (Number.PyInt
            (len (filter (fun pin => PinClass._num_connections pin >? 0)
                    (Dict.values (Connector.pin_objects self))))));
   ("CONNECTIONS",
    Some (Number.PyInt
            (fold_left Z.add
               (map PinClass._num_connections
                  (Dict.values (Connector.pin_objects self))) 0)))].

(** The factor that [Connector.compute_qty_multipliers] gives a multiplier:
    the number itself, the pin count, the number of pins with a connection,
    or the number of connections of all pins. *)
Definition connector_factor (self : Connector.t)
  (m : AdditionalComponent.multiplier) : option Number.t :=
  match m with
  | AdditionalComponent.Numeric n => Some n
  | AdditionalComponent.OfConnector PINCOUNT =>
      Some (Number.PyInt (Connector.pincount self))
  | AdditionalComponent.OfConnector POPULATED =>
      Some (Number.PyInt
              (len (filter (fun pin => PinClass._num_connections pin >? 0)
                      (Dict.values (Connector.pin_objects self)))))
  | AdditionalComponent.OfConnector CONNECTIONS =>
      Some (Number.PyInt
              (fold_left Z.add
                 (map PinClass._num_connections
                    (Dict.values (Connector.pin_objects self))) 0))
  | AdditionalComponent.OfCable _ => None
  end.

Definition populated (d : Connector.pin_dict) : Z :=
  len (filter (fun pin => PinClass._num_connections pin >? 0) (Dict.values d)).

Definition connections (d : Connector.pin_dict) : Z :=
  fold_left Z.add (map PinClass._num_connections (Dict.values d)) 0.

(** No stored pin has a negative connection count. *)
Definition all_counts_nonneg (d : Connector.pin_dict) : Prop :=
  Forall (fun pin => 0 <= PinClass._num_connections pin) (Dict.values d).

(** The object that an entry of [additional_components] stands for. *)
Definition expanded (item : AdditionalComponent.entry)
  (c : AdditionalComponent.t) : Prop :=
  match item with
  | AdditionalComponent.Object c0 => c = c0
  | AdditionalComponent.Mapping a =>
      AdditionalComponent.__post_init__ a = Returns c
  end.

(** The multiplier that a given [qty_multiplier] stands for. *)
Definition names_multiplier (given : AdditionalComponent.multiplier_input)
  (m : AdditionalComponent.multiplier) : Prop :=
  match given, m with
  | AdditionalComponent.GivenNumber n, AdditionalComponent.Numeric n' => n' = n
  | AdditionalComponent.GivenName s, AdditionalComponent.OfConnector c =>
      QtyMultiplierConnector_name c = str_upper s
  | AdditionalComponent.GivenName s, AdditionalComponent.OfCable c =>
      QtyMultiplierCable_name c = str_upper s
  | _, _ => False
  end.

(** The table [qty_multipliers_computed] of [Cable.compute_qty_multipliers],
    given the total of the wire lengths. *)
Definition cable_table (self : Cable.t) (total_length : Number.t)
  : @Dict.t string (option Number.t) :=
  [("WIRECOUNT", Some (Number.PyInt (len (Cable.wire_objects self))));
   ("TERMINATIONS", Some (Number.PyInt 999));
   ("LENGTH", match Cable.length self with
              | Some l => NumberAndUnit.number l
              | None => Some (Number.PyInt 0)
              end);
   ("TOTAL_LENGTH", Some total_length)].

(** The factor that a cable gives to a multiplier. *)
Definition cable_factor (self : Cable.t) (total_length : Number.t)
  (m : AdditionalComponent.multiplier) : option Number.t :=
  match m with
  | AdditionalComponent.Numeric n => Some n
  | AdditionalComponent.OfCable WIRECOUNT =>
      Some (Number.PyInt (len (Cable.wire_objects self)))
  | AdditionalComponent.OfCable TERMINATIONS => Some (Number.PyInt 999)
  | AdditionalComponent.OfCable LENGTH =>
      match Cable.length self with
      | Some l => NumberAndUnit.number l
      | None => Some (Number.PyInt 0)
      end
  | AdditionalComponent.OfCable TOTAL_LENGTH => Some total_length
  | AdditionalComponent.OfConnector _ => None
  end.

(** The multipliers LENGTH and TOTAL_LENGTH. *)
Definition is_length_multiplier (m : AdditionalComponent.multiplier) : bool :=
  match m with
  | AdditionalComponent.OfCable LENGTH
  | AdditionalComponent.OfCable TOTAL_LENGTH => true
  | _ => false
  end.

(** The lengths that [Cable.compute_qty_multipliers] adds up. *)
Definition wire_lengths (self : Cable.t) : list (option Number.t) :=
  map (fun wire =>
         match WireClass.length wire with
         | Some l => NumberAndUnit.number l
         | None => Some (Number.PyInt 0)
         end)
    (Dict.values (Cable.wire_objects self)).

(** The message of the exception raised for a unit on the quantity of a
    subitem multiplied by a length. *)
Definition no_unit_message (m : QtyMultiplierCable) : string :=
  "No unit may be specified when using" ++ QtyMultiplierCable_str m ++
  " as a multiplier".

(** What the resolution has done to a subitem when it returns. *)
Definition resolved (self : Cable.t) (total_length : Number.t)
  (subitem subitem' : AdditionalComponent.t) : Prop :=
  let factor :=
    cable_factor self total_length (AdditionalComponent.qty_multiplier subitem) in
  (forall m, AdditionalComponent.qty_multiplier subitem
             <> AdditionalComponent.OfConnector m) /\
  if is_length_multiplier (AdditionalComponent.qty_multiplier subitem) then
    exists number l,
      Cable.length self = Some l /\
      Component.qty (AdditionalComponent.component subitem)
        = Some (NumberAndUnit.mk number None) /\
      subitem' =
        AdditionalComponent.set_computed factor
          (AdditionalComponent.set_qty
             (Some (NumberAndUnit.mk number (NumberAndUnit.unit l))) subitem)
  else subitem' = AdditionalComponent.set_computed factor subitem.
End Vocabulary.

(** The ids under which a constructed connector stores a pin: the ids of
    the pin list, and [None] when [pinlabels] or [pincolors] is longer than
    the pin list. *)
Definition known_pin {T : ExternalTypes} (self : Connector.t)
  (pin_id : option PyId) : Prop :=
  match pin_id with
  | Some k => In k (Connector.pins self)
  | None =>
      len (Connector.pins self) <
        Z.max (len (Connector.pinlabels self)) (len (Connector.pincolors self))
  end.

(** The label of a pin as its [__str__] prints it: nothing for a label
    that is [None], [0] or empty. *)
Definition label_text (label : option PyId) : string :=
  match label with
  | Some (IdInt z) => if z =? 0 then "" else str_of_int z
  | Some (IdStr s) => s
  | None => ""
  end.

(** A text with a colon before it, or nothing for the empty text. *)
Definition after_colon (s : string) : string :=
  if (s =? "")%string then "" else ":" ++ s.

(** The names of the symbolic multipliers. *)
Definition multiplier_names : list string :=
  (map QtyMultiplierConnector_name [PINCOUNT; POPULATED; CONNECTIONS] ++
   map QtyMultiplierCable_name [WIRECOUNT; TERMINATIONS; LENGTH; TOTAL_LENGTH])%list.

(** [x.unit if x else None]. *)
Definition unit_if_any {T : ExternalTypes} (amount : option NumberAndUnit.t)
  : option string :=
  match amount with
  | Some a => NumberAndUnit.unit a
  | None => None
  end.

(** [" " in s]. *)
Fixpoint contains_space (s : string) : bool :=
  match s with
  | EmptyString => false
  | String c rest => Ascii.eqb c " "%char || contains_space rest
  end.

(** The message of the exception that [parse_number_and_unit] raises. *)
Definition not_a_number_and_unit (inp : string) : string :=
  inp ++ " is not a valid number and unit." ++ nl ++
  "It must be a number, or a number and unit separated by a space.".

(** ** Sample harness parts *)

Module Examples.

#[local] Existing Instance Sample.types.
#[local] Existing Instance Sample.externals.
#[local] Existing Instance Sample.more_externals.

Definition attrs (category type : option string) : Component.attrs :=
  Component.mk_attrs category type None PartNone PartNone PartNone PartNone
    PartNone true false.

Definition one : NumberAndUnit.t :=
  NumberAndUnit.mk (Some (Number.PyInt 1)) None.

(** An additional component given as a raw mapping, with the default [qty]
    unless one is given. *)
Definition additional (type : string) (qty : Component.quantity_input)
  (qty_multiplier : AdditionalComponent.multiplier_input)
  : AdditionalComponent.entry :=
  AdditionalComponent.Mapping
    (AdditionalComponent.Args.mk (attrs None (Some type)) qty Component.InNone
       qty_multiplier None None None).

Definition connector (designator : string) (style : option string)
  (pincount : option Z) (pins pinlabels : list PyId) (pincolors : list string)
  (loops : list (list PyId))
  (additional_components : list AdditionalComponent.entry)
  (hide_disconnected_pins : bool) : Connector.Args.t :=
  Connector.Args.mk (attrs None None) None (Some designator) None
    additional_components None None style loops pincount pins pinlabels
    pincolors None hide_disconnected_pins.

Definition cable (designator : string) (category : option string)
  (wirecount : option Z) (colors : list string) (color_code : option string)
  (wirelabels : list PyId) (shield : Cable.shield_value)
  (length : Component.quantity_input)
  (additional_components : list AdditionalComponent.entry) : Cable.Args.t :=
  Cable.Args.mk (attrs category None) one None (Some designator) None
    additional_components None Component.InNone length color_code wirecount
    shield colors wirelabels None false true None.

Definition metres (n : Z) : NumberAndUnit.t :=
  NumberAndUnit.mk (Some (Number.PyFloat (Sample.of_int n))) (Some "m").


(** A wire of two metres. *)
Definition wire (sum_amounts_in_bom : bool) : WireClass.t :=
  WireClass.mk (Some "W1") 0 (IdInt 1) None "RD" None None None None
    (Some (metres 2)) false sum_amounts_in_bom None.

(** The pairs of [xs] with the elements of [ys] at the same positions, as
    far as [ys] goes. *)
Definition paired {A B : Type} (xs : list A) (ys : list B)
  : list (A * option B) :=
  map (fun ix => (snd ix, nth_error ys (fst ix)))
      (combine (seq 0 (List.length xs)) xs).

(** The cable with the lengths of its wires replaced, position by
    position, as the harness may do after construction. *)
Definition with_wire_lengths (lengths : list NumberAndUnit.t) (self : Cable.t)
  : Cable.t :=
  Cable.set_wire_objects
    (map (fun entry : (PyId * WireClass.t) * option NumberAndUnit.t =>
            match snd entry with
            | Some l => (fst (fst entry),
                         WireClass.set_length (Some l) (snd (fst entry)))
            | None => fst entry
            end)
       (paired (Cable.wire_objects self) lengths))
    self.

End Examples.

(** * Properties *)

(** ** Dictionaries *)

Section DictFacts.
Context {K V : Type} (dec : forall a b : K, {a = b} + {a <> b}).

Lemma get_set_same (k : K) (v : V) (d : Dict.t) :
  Dict.get dec k (Dict.set dec k v d) = Some v.
Proof.
  induction d as [|[k' v'] d IH]; simpl.
  - destruct (dec k k); congruence.
  - destruct (dec k k') as [->|Hne]; simpl.
    + destruct (dec k' k'); congruence.
    + destruct (dec k k'); congruence.
Qed.

Lemma get_set_other (k k' : K) (v : V) (d : Dict.t) :
  k <> k' -> Dict.get dec k' (Dict.set dec k v d) = Dict.get dec k' d.
Proof.
  intros Hne. induction d as [|[k0 v0] d IH]; simpl.
  - destruct (dec k' k); congruence.
  - destruct (dec k k0) as [->|Hk]; simpl.
    + destruct (dec k' k0); congruence.
    + destruct (dec k' k0); congruence.
Qed.

Lemma get_in_keys (k : K) (d : @Dict.t K V) :
  In k (Dict.keys d) <-> Dict.get dec k d <> None.
Proof.
  induction d as [|[k' v'] d IH]; simpl.
  - split; [tauto | congruence].
  - destruct (dec k k') as [->|Hne].
    + split; [congruence | auto].
    + rewrite <- IH. split; [intros [H|H]; [congruence | exact H] | auto].
Qed.

Lemma keys_set_present (k : K) (v : V) (d : Dict.t) :
  In k (Dict.keys d) -> Dict.keys (Dict.set dec k v d) = Dict.keys d.
Proof.
  induction d as [|[k' v'] d IH]; simpl; [tauto|].
  intros Hin. destruct (dec k k') as [->|Hne]; simpl; [reflexivity|].
  f_equal. apply IH. destruct Hin; congruence.
Qed.

Lemma keys_set_fresh (k : K) (v : V) (d : Dict.t) :
  ~ In k (Dict.keys d) -> Dict.keys (Dict.set dec k v d) = (Dict.keys d ++ [k])%list.
Proof.
  induction d as [|[k' v'] d IH]; simpl; [reflexivity|].
  intros Hin. destruct (dec k k') as [->|Hne]; simpl; [tauto|].
  f_equal. apply IH. tauto.
Qed.

Lemma keys_length (d : @Dict.t K V) : List.length (Dict.keys d) = List.length d.
Proof. apply length_map. Qed.

Lemma values_length (d : @Dict.t K V) : List.length (Dict.values d) = List.length d.
Proof. apply length_map. Qed.

Lemma getitem_returns (k : K) (d : @Dict.t K V) (v : V) :
  Dict.getitem dec k d = Returns v <-> Dict.get dec k d = Some v.
Proof.
  unfold Dict.getitem. destruct (Dict.get dec k d); split; congruence.
Qed.

End DictFacts.

(** ** Loops that may raise *)

Lemma bind_returns {A B : Type} (c : Py A) (k : A -> Py B) (b : B) :
  bind c k = Returns b -> exists a, c = Returns a /\ k a = Returns b.
Proof.
  destruct c as [a|e]; simpl; [eauto | discriminate].
Qed.

Lemma for_each_invariant {S A : Type} (P : S -> Prop) (body : S -> A -> Py S)
  (items : list A) :
  (forall s x s', P s -> body s x = Returns s' -> P s') ->
  forall s s', P s -> for_each items body s = Returns s' -> P s'.
Proof.
  intros Hbody. induction items as [|x items IH]; simpl; intros s s' Hs Hrun.
  - inversion Hrun; subst; exact Hs.
  - destruct (body s x) as [s1|e] eqn:Hx; [|discriminate].
    eapply IH; [eapply Hbody; eauto | exact Hrun].
Qed.

Ltac bind_inv H :=
  let x := fresh "x" in
  let Hx := fresh "Hx" in
  apply bind_returns in H; destruct H as (x & Hx & H).

(** ** Pin activation *)

Section PinActivation.
Context {T : ExternalTypes} {E : Externals}.

Lemma counts_grow_refl (d : Connector.pin_dict) : counts_grow d d.
Proof. intros k p Hk. exists p. split; [exact Hk | lia]. Qed.

Lemma counts_grow_trans (d1 d2 d3 : Connector.pin_dict) :
  counts_grow d1 d2 -> counts_grow d2 d3 -> counts_grow d1 d3.
Proof.
  intros H12 H23 k p Hk.
  destruct (H12 k p Hk) as (p2 & Hk2 & Hle2).
  destruct (H23 k p2 Hk2) as (p3 & Hk3 & Hle3).
  exists p3. split; [exact Hk3 | lia].
Qed.

Lemma activate_pin_pins (self self' : Connector.t) pin_id side is_connection :
  Connector.activate_pin self pin_id side is_connection = Returns self' ->
  if is_connection
  then exists p, Connector.get_pin pin_id (Connector.pin_objects self) = Some p /\
         Connector.pin_objects self' =
           Dict.set (option_eq_dec PyId_eq_dec) pin_id (PinClass.connect p)
             (Connector.pin_objects self)
  else Connector.pin_objects self' = Connector.pin_objects self.
Proof.
  unfold Connector.activate_pin. intros Hrun.
  destruct is_connection.
  - bind_inv Hrun. bind_inv Hx. apply getitem_returns in Hx0.
    exists x0. split; [exact Hx0|].
    inversion Hx; subst x; clear Hx.
    destruct side as [[|]|]; inversion Hrun; reflexivity.
  - bind_inv Hrun. inversion Hx; subst x.
    destruct side as [[|]|]; inversion Hrun; reflexivity.
Qed.

Lemma set_connect_grows (d : Connector.pin_dict) pin_id p :
  Connector.get_pin pin_id d = Some p ->
  counts_grow d (Dict.set (option_eq_dec PyId_eq_dec) pin_id (PinClass.connect p) d).
Proof.
  intros Hp k q Hk. unfold Connector.get_pin in *.
  destruct (option_eq_dec PyId_eq_dec pin_id k) as [->|Hne].
  - rewrite get_set_same. exists (PinClass.connect p). split; [reflexivity|].
    assert (q = p) by congruence. subst q. simpl. lia.
  - rewrite get_set_other by exact Hne. exists q. split; [exact Hk | lia].
Qed.

Lemma activate_pin_grows (self self' : Connector.t) pin_id side is_connection :
  Connector.activate_pin self pin_id side is_connection = Returns self' ->
  counts_grow (Connector.pin_objects self) (Connector.pin_objects self').
Proof.
  intros Hrun. apply activate_pin_pins in Hrun. destruct is_connection.
  - destruct Hrun as (p & Hp & ->). apply set_connect_grows; exact Hp.
  - rewrite Hrun. apply counts_grow_refl.
Qed.

Lemma register_loops_grows (loops : list (list PyId)) (self self' : Connector.t) :
  Connector.register_loops loops self = Returns self' ->
  counts_grow (Connector.pin_objects self) (Connector.pin_objects self').
Proof.
  unfold Connector.register_loops. intros Hrun.
  refine (for_each_invariant
            (fun s => counts_grow (Connector.pin_objects self) (Connector.pin_objects s))
            _ loops _ self self' (counts_grow_refl _) Hrun).
  intros s loop s' Hs Hbody.
  destruct loop as [|a [|b [|]]]; try discriminate.
  bind_inv Hbody.
  eapply counts_grow_trans; [exact Hs|].
  eapply counts_grow_trans; eapply activate_pin_grows; eauto.
Qed.

End PinActivation.

Section ConnectionCounts.
Context {T : ExternalTypes} {E : Externals}.

Lemma counts_nonneg_grow (d d' : Connector.pin_dict) :
  Dict.keys d' = Dict.keys d -> counts_grow d d' -> counts_nonneg d ->
  counts_nonneg d'.
Proof.
  intros Hkeys Hgrow Hd k p' Hk.
  assert (Hin : In k (Dict.keys d)).
  { rewrite <- Hkeys. apply (get_in_keys (option_eq_dec PyId_eq_dec)).
    unfold Connector.get_pin in Hk. congruence. }
  apply (get_in_keys (option_eq_dec PyId_eq_dec)) in Hin.
  destruct (Dict.get (option_eq_dec PyId_eq_dec) k d) as [p|] eqn:Hp; [|congruence].
  destruct (Hgrow k p Hp) as (q & Hq & Hle).
  assert (q = p') by congruence. subst q.
  specialize (Hd k p Hp). lia.
Qed.

Lemma activate_pin_keys (self self' : Connector.t) pin_id side is_connection :
  Connector.activate_pin self pin_id side is_connection = Returns self' ->
  Dict.keys (Connector.pin_objects self') = Dict.keys (Connector.pin_objects self).
Proof.
  intros Hrun. apply activate_pin_pins in Hrun. destruct is_connection.
  - destruct Hrun as (p & Hp & ->). apply keys_set_present.
    apply (get_in_keys (option_eq_dec PyId_eq_dec)).
    unfold Connector.get_pin in Hp. congruence.
  - rewrite Hrun. reflexivity.
Qed.

Lemma register_loops_keys (loops : list (list PyId)) (self self' : Connector.t) :
  Connector.register_loops loops self = Returns self' ->
  Dict.keys (Connector.pin_objects self') = Dict.keys (Connector.pin_objects self).
Proof.
  unfold Connector.register_loops. intros Hrun.
  refine (for_each_invariant
            (fun s => Dict.keys (Connector.pin_objects s) =
                      Dict.keys (Connector.pin_objects self))
            _ loops _ self self' eq_refl Hrun).
  intros s loop s' Hs Hbody.
  destruct loop as [|a [|b [|]]]; try discriminate.
  bind_inv Hbody.
  apply activate_pin_keys in Hx, Hbody. congruence.
Qed.

Lemma create_pins_counts designator style pins pinlabels pincolors d :
  Connector.create_pins designator style pins pinlabels pincolors = Returns d ->
  counts_nonneg d.
Proof.
  unfold Connector.create_pins. intros Hrun.
  refine (for_each_invariant counts_nonneg _ _ _ Dict.empty d _ Hrun).
  - intros s [i [[pid l] c]] s' Hs Hbody.
    bind_inv Hbody. inversion Hbody; subst s'; clear Hbody.
    intros k p Hk. unfold Connector.get_pin in Hk.
    destruct (option_eq_dec PyId_eq_dec pid k) as [->|Hne].
    + rewrite get_set_same in Hk. inversion Hk; subst p. simpl. lia.
    + rewrite get_set_other in Hk by exact Hne. eapply Hs; exact Hk.
  - intros k p Hk. discriminate.
Qed.

(** What a successful [Connector.__post_init__] went through. *)
Lemma Connector_post_init_inv (a : Connector.Args.t) (self : Connector.t) :
  Connector.__post_init__ a = Returns self ->
  exists (declared : option Z) (pincount : Z) (d : Connector.pin_dict)
         (show_name : bool) (self0 : Connector.t)
         (acs : list AdditionalComponent.t),
    let pins := match Connector.Args.pins a with
                | [] => map IdInt (range 1 (pincount + 1))
                | _ => Connector.Args.pins a
                end in
    (if eq_str (Connector.Args.style a) "simple"
     then declared = Some 1 /\
          (forall n, truthy_int (Connector.Args.pincount a) = Some n -> n <= 1)
     else declared = Connector.Args.pincount a) /\
    (match truthy_int declared with
     | Some n => pincount = n
     | None => pincount = Z.max (len (Connector.Args.pins a))
                            (Z.max (len (Connector.Args.pinlabels a))
                                   (len (Connector.Args.pincolors a))) /\
               pincount <> 0
     end) /\
    List.length pins = List.length (nodup PyId_eq_dec pins) /\
    Connector.create_pins (Connector.Args.designator a) (Connector.Args.style a)
      pins (Connector.Args.pinlabels a) (Connector.Args.pincolors a) = Returns d /\
    (match Connector.Args.show_name a with
     | Some b => show_name = b
     | None =>
         if negb (eq_str (Connector.Args.style a) "simple")
         then exists autogenerated,
                is_autogenerated (Connector.Args.designator a) = Returns autogenerated /\
                show_name = negb autogenerated
         else show_name = false
     end) /\
    Connector.register_loops (Connector.Args.loops a)
      (Connector.mk
         (Component.mk (Connector.Args.component a)
            (Some (Component.fill_partnumbers (Connector.Args.component a)))
            (Some (NumberAndUnit.mk (Some (Number.PyInt 1)) None)) None None)
         (SingleColor_new (Connector.Args.bgcolor a)) (Connector.Args.designator a)
         (MultiColor_new (Connector.Args.color a)) []
         (SingleColor_new (Connector.Args.bgcolor_title a)) show_name
         (Connector.Args.style a) (Connector.Args.loops a) pincount pins
         (Connector.Args.pinlabels a) (Connector.Args.pincolors a) d
         (match Connector.Args.show_pincount a with
          | Some b => b
          | None => negb (eq_str (Connector.Args.style a) "simple")
          end)
         (Connector.Args.hide_disconnected_pins a) false false) = Returns self0 /\
    AdditionalComponent.expand (Connector.Args.additional_components a) = Returns acs /\
    self = Connector.set_additional_components acs self0.
Proof.
  unfold Connector.__post_init__. intros Hrun.
  bind_inv Hrun. rename x into declared, Hx into Hdeclared.
  bind_inv Hrun. rename x into pincount, Hx into Hpincount.
  match type of Hrun with
  | (if negb ?c then _ else _) = _ => destruct c eqn:Hunique; [|discriminate]
  end.
  simpl negb in Hrun. cbv iota in Hrun.
  bind_inv Hrun. rename x into d, Hx into Hd.
  bind_inv Hrun. rename x into show_name, Hx into Hshow.
  bind_inv Hrun. rename x into self0, Hx into Hloops.
  bind_inv Hrun. rename x into acs, Hx into Hacs.
  inversion Hrun; subst self; clear Hrun.
  exists declared, pincount, d, show_name, self0, acs. cbv zeta.
  repeat split; try assumption.
  - destruct (eq_str (Connector.Args.style a) "simple").
    + destruct (truthy_int (Connector.Args.pincount a)) as [n|] eqn:Hn.
      * destruct (n >? 1) eqn:Hgt; [discriminate|].
        inversion Hdeclared. split; [reflexivity|].
        intros n' Hn'. inversion Hn'; subst n'. lia.
      * inversion Hdeclared. split; [reflexivity | discriminate].
    + inversion Hdeclared. reflexivity.
  - destruct (truthy_int declared) as [n|].
    + inversion Hpincount. reflexivity.
    + match type of Hpincount with
      | (if ?c then _ else _) = _ => destruct c eqn:Hzero; [discriminate|]
      end.
      inversion Hpincount. split; [reflexivity|]. lia.
  - apply Nat.eqb_eq. exact Hunique.
  - destruct (Connector.Args.show_name a) as [b|].
    + inversion Hshow. reflexivity.
    + destruct (negb (eq_str (Connector.Args.style a) "simple")).
      * bind_inv Hshow. inversion Hshow. eauto.
      * inversion Hshow. reflexivity.
Qed.

Lemma activate_pin_frame (self self' : Connector.t) pin_id side is_connection :
  Connector.activate_pin self pin_id side is_connection = Returns self' ->
  same_frame self self'.
Proof.
  unfold same_frame.
  unfold Connector.activate_pin. intros Hrun.
  bind_inv Hrun.
  assert (Hsame : Connector.set_pin_objects (Connector.pin_objects x) self = x).
  { destruct is_connection.
    - bind_inv Hx. inversion Hx; subst x. reflexivity.
    - inversion Hx; subst x. destruct self; reflexivity. }
  rewrite <- Hsame in Hrun.
  destruct side as [[|]|]; inversion Hrun; subst self'; simpl; tauto.
Qed.

Lemma register_loops_frame (loops : list (list PyId)) (self self' : Connector.t) :
  Connector.register_loops loops self = Returns self' -> same_frame self self'.
Proof.
  unfold Connector.register_loops. intros Hrun.
  refine (for_each_invariant (same_frame self) _ loops _ self self' _ Hrun).
  - intros s loop s' Hs Hbody.
    destruct loop as [|x [|y [|]]]; try discriminate.
    bind_inv Hbody.
    apply activate_pin_frame in Hx, Hbody. unfold same_frame in *.
    intuition congruence.
  - unfold same_frame. tauto.
Qed.

Lemma post_init_pin_objects (a : Connector.Args.t) (self : Connector.t) :
  Connector.__post_init__ a = Returns self ->
  exists d, Connector.create_pins (Connector.Args.designator a)
              (Connector.Args.style a) (Connector.pins self)
              (Connector.Args.pinlabels a) (Connector.Args.pincolors a)
            = Returns d /\
    Dict.keys (Connector.pin_objects self) = Dict.keys d /\
    counts_grow d (Connector.pin_objects self).
Proof.
  intros Hrun. apply Connector_post_init_inv in Hrun.
  destruct Hrun as (declared & pincount & d & show_name & self0 & acs & Hrun).
  cbv zeta in Hrun.
  destruct Hrun as (_ & _ & _ & Hd & _ & Hloops & _ & ->).
  pose proof (register_loops_keys _ _ _ Hloops) as Hkeys.
  pose proof (register_loops_grows _ _ _ Hloops) as Hgrow.
  pose proof (register_loops_frame _ _ _ Hloops) as (Hpins & _).
  exists d. simpl in *. rewrite Hpins. auto.
Qed.

Lemma reachable_counts_nonneg (self : Connector.t) :
  Connector.reachable self -> counts_nonneg (Connector.pin_objects self).
Proof.
  induction 1 as [a self Hinit | self self' pid side conn _ IH Hact
                 | self self' _ IH Hcomp].
  - destruct (post_init_pin_objects a self Hinit) as (d & Hd & Hkeys & Hgrow).
    apply (counts_nonneg_grow d); [exact Hkeys | exact Hgrow |].
    eapply create_pins_counts; exact Hd.
  - apply (counts_nonneg_grow (Connector.pin_objects self)).
    + eapply activate_pin_keys; exact Hact.
    + eapply activate_pin_grows; exact Hact.
    + exact IH.
  - unfold Connector.compute_qty_multipliers in Hcomp.
    bind_inv Hcomp. inversion Hcomp; subst self'. exact IH.
Qed.

End ConnectionCounts.

(** ** Claim C9 *)

Section Visibility.
Context {T : ExternalTypes} {E : Externals}.

Lemma activate_pin_connects (self : Connector.t) pin_id side p :
  Connector.get_pin pin_id (Connector.pin_objects self) = Some p ->
  exists self',
    Connector.activate_pin self pin_id side true = Returns self' /\
    Connector.get_pin pin_id (Connector.pin_objects self') =
      Some (PinClass.connect p).
Proof.
  intros Hp. unfold Connector.activate_pin, Dict.getitem.
  unfold Connector.get_pin in Hp. rewrite Hp. simpl.
  destruct side as [[|]|]; eexists; (split; [reflexivity|]); simpl;
    apply get_set_same.
Qed.

Lemma should_show_pin_value (self : Connector.t) pin_id p :
  Connector.get_pin pin_id (Connector.pin_objects self) = Some p ->
  Connector.should_show_pin self pin_id =
    Returns (negb (Connector.hide_disconnected_pins self) ||
             (PinClass._num_connections p >? 0)).
Proof.
  intros Hp. unfold Connector.should_show_pin, Dict.getitem.
  unfold Connector.get_pin in Hp.
  destruct (Connector.hide_disconnected_pins self); simpl; [|reflexivity].
  rewrite Hp. reflexivity.
Qed.

(** C9. On every connector, [activate_pin] and the registration of loops
    never lower the connection count of any pin; an activation with
    [is_connection] set raises the count of the activated pin by one; and on
    every connector the harness can observe, [should_show_pin] of a pin
    returns false exactly when [hide_disconnected_pins] is set and the count
    of that pin is zero. *)
Theorem C9_connection_counts_and_visibility :
  (forall (self self' : Connector.t) pin_id side is_connection,
      Connector.activate_pin self pin_id side is_connection = Returns self' ->
      counts_grow (Connector.pin_objects self) (Connector.pin_objects self')) /\
  (forall (self : Connector.t) pin_id side p,
      Connector.get_pin pin_id (Connector.pin_objects self) = Some p ->
      exists self' p',
        Connector.activate_pin self pin_id side true = Returns self' /\
        Connector.get_pin pin_id (Connector.pin_objects self') = Some p' /\
        PinClass._num_connections p' = PinClass._num_connections p + 1) /\
  (forall (loops : list (list PyId)) (self self' : Connector.t),
      Connector.register_loops loops self = Returns self' ->
      counts_grow (Connector.pin_objects self) (Connector.pin_objects self')) /\
  (forall (self : Connector.t) pin_id p,
      Connector.reachable self ->
      Connector.get_pin pin_id (Connector.pin_objects self) = Some p ->
      exists shown,
        Connector.should_show_pin self pin_id = Returns shown /\
        (shown = false <->
         Connector.hide_disconnected_pins self = true /\
         PinClass._num_connections p = 0)).
Proof.
  split; [|split; [|split]].
  - intros self self' pin_id side is_connection.
    apply activate_pin_grows.
  - intros self pin_id side p Hp.
    destruct (activate_pin_connects self pin_id side p Hp) as (self' & Hrun & Hget).
    exists self', (PinClass.connect p). auto.
  - apply register_loops_grows.
  - intros self pin_id p Hreach Hp.
    pose proof (reachable_counts_nonneg self Hreach pin_id p Hp) as Hnonneg.
    eexists. split; [apply should_show_pin_value; exact Hp|].
    destruct (Connector.hide_disconnected_pins self); simpl.
    + rewrite Z.gtb_ltb, Z.ltb_ge. split; [intros; split; [reflexivity | lia] | lia].
    + split; [discriminate | intros [? _]; discriminate].
Qed.

End Visibility.

Lemma C9_witness :
  exists self,
    Connector.__post_init__
      (E := Sample.externals)
      (Examples.connector "X1" None (Some 4) [] [] []
         [[IdInt 1; IdInt 2]] [] true) = Returns self /\
    Connector.should_show_pin self (Some (IdInt 1)) = Returns true /\
    Connector.should_show_pin self (Some (IdInt 3)) = Returns false.
Proof.
  eexists. split; [vm_compute; reflexivity|].
  split; [vm_compute; reflexivity|].
  match goal with
  | |- Connector.should_show_pin ?s ?k = _ =>
      destruct (proj2 (proj2 (proj2 (C9_connection_counts_and_visibility
                                       (E := Sample.externals))))
                  s k
                  (PinClass.mk (T := Sample.types) 2 (Some (IdInt 3)) None ""
                     (Some "X1") 0 false false))
        as (shown & Hshown & Hiff)
  end.
  - apply (Connector.reach_init
             (Examples.connector "X1" None (Some 4) [] [] []
                [[IdInt 1; IdInt 2]] [] true)).
    vm_compute. reflexivity.
  - vm_compute. reflexivity.
  - rewrite Hshown. f_equal. apply Hiff. split; reflexivity.
Defined.

(** ** Keys of a dictionary filled by a loop *)

Section KeysFacts.
Context {K V : Type} (dec : forall a b : K, {a = b} + {a <> b}).

Lemma keys_set (k : K) (v : V) (d : Dict.t) :
  Dict.keys (Dict.set dec k v d) = insert_key dec (Dict.keys d) k.
Proof.
  unfold insert_key. destruct (in_dec dec k (Dict.keys d)) as [Hin|Hout].
  - apply keys_set_present; exact Hin.
  - apply keys_set_fresh; exact Hout.
Qed.

Lemma insert_keys_fresh (l acc : list K) :
  NoDup (acc ++ l) -> fold_left (insert_key dec) l acc = (acc ++ l)%list.
Proof.
  revert acc. induction l as [|k l IH]; intros acc Hnd; simpl.
  - rewrite app_nil_r. reflexivity.
  - unfold insert_key at 2.
    destruct (in_dec dec k acc) as [Hin|Hout].
    + apply NoDup_remove_2 in Hnd. exfalso. apply Hnd.
      apply in_or_app. left; exact Hin.
    + rewrite IH; rewrite <- app_assoc; simpl; [reflexivity | exact Hnd].
Qed.

Lemma insert_keys_repeat (k : K) (n : nat) (acc : list K) :
  ~ In k acc ->
  fold_left (insert_key dec) (repeat k n) acc =
    (acc ++ match n with O => [] | S _ => [k] end)%list.
Proof.
  intros Hout. destruct n as [|n]; simpl.
  - rewrite app_nil_r. reflexivity.
  - unfold insert_key at 2. destruct (in_dec dec k acc); [tauto|].
    induction n as [|n IH]; simpl; [reflexivity|].
    unfold insert_key at 2.
    destruct (in_dec dec k (acc ++ [k])) as [_|Hno]; [exact IH|].
    exfalso. apply Hno. apply in_or_app. right. left. reflexivity.
Qed.

Lemma nodup_length_NoDup (l : list K) :
  List.length l = List.length (nodup dec l) -> NoDup l.
Proof.
  induction l as [|a l IH]; simpl; intros Hlen; [constructor|].
  assert (Hle : forall l', (List.length (nodup dec l') <= List.length l')%nat).
  { induction l' as [|b l' IHl']; simpl; [lia|].
    destruct (in_dec dec b l'); simpl; lia. }
  destruct (in_dec dec a l) as [Hin|Hout].
  - specialize (Hle l). lia.
  - simpl in Hlen. constructor; [exact Hout | apply IH; lia].
Qed.

Lemma for_each_keys {A : Type} (key : A -> K)
  (body : @Dict.t K V -> A -> Py (@Dict.t K V)) (items : list A) :
  (forall d x d', body d x = Returns d' ->
     exists v, d' = Dict.set dec (key x) v d) ->
  forall d d', for_each items body d = Returns d' ->
    Dict.keys d' = fold_left (insert_key dec) (map key items) (Dict.keys d).
Proof.
  intros Hbody. induction items as [|x items IH]; simpl; intros d d' Hrun.
  - inversion Hrun. reflexivity.
  - bind_inv Hrun. destruct (Hbody _ _ _ Hx) as (v & ->).
    rewrite (IH _ _ Hrun), keys_set. reflexivity.
Qed.

End KeysFacts.

Lemma map_const_seq {A : Type} (x : A) (s m : nat) :
  map (fun _ => x) (seq s m) = repeat x m.
Proof.
  revert s. induction m as [|m IH]; intros s; simpl; [reflexivity|].
  f_equal. apply IH.
Qed.

Lemma nth_error_past {A : Type} (l : list A) (m : nat) :
  map (nth_error l) (seq 0 (List.length l + m)) =
    (map Some l ++ repeat None m)%list.
Proof.
  rewrite seq_app, map_app. f_equal.
  - induction l as [|a l IH]; simpl; [reflexivity|].
    f_equal. rewrite <- seq_shift, map_map. exact IH.
  - simpl. rewrite <- (map_const_seq None (List.length l) m).
    apply map_ext_in. intros i Hi. apply in_seq in Hi.
    apply nth_error_None. lia.
Qed.

(** ** Pins of a constructed connector *)

Section PinMapping.
Context {T : ExternalTypes} {E : Externals}.

Lemma zip_longest3_ids (pins pinlabels : list PyId) (pincolors : list string) :
  map (fun t : option PyId * option PyId * option string => fst (fst t))
      (zip_longest3 pins pinlabels pincolors) =
    (map Some pins ++
     repeat None (Nat.max (List.length pinlabels) (List.length pincolors)
                  - List.length pins))%list.
Proof.
  unfold zip_longest3. rewrite map_map. simpl.
  rewrite <- nth_error_past. f_equal. f_equal. lia.
Qed.

Lemma map_snd_combine_same {A B : Type} (xs : list A) (ys : list B) :
  List.length xs = List.length ys -> map snd (combine xs ys) = ys.
Proof.
  revert ys. induction xs as [|x xs IH]; intros [|y ys] Hlen; simpl in *;
    try discriminate; [reflexivity|].
  f_equal. apply IH. lia.
Qed.

Lemma map_snd_enumerate {A B : Type} (f : A -> B) (xs : list A) :
  map (fun x => f (snd x)) (enumerate xs) = map f xs.
Proof.
  unfold enumerate. rewrite <- (map_map snd f). f_equal.
  apply map_snd_combine_same. rewrite length_map, length_seq. reflexivity.
Qed.

Lemma NoDup_map_Some {A : Type} (l : list A) :
  NoDup l -> NoDup (map Some l).
Proof.
  induction 1 as [|x l Hout _ IH]; simpl; constructor; [|exact IH].
  intros Hin. apply in_map_iff in Hin. destruct Hin as (y & Hy & Hin).
  inversion Hy; subst y. exact (Hout Hin).
Qed.

Lemma create_pins_keys designator style pins pinlabels pincolors d :
  NoDup pins ->
  Connector.create_pins designator style pins pinlabels pincolors = Returns d ->
  Dict.keys d =
    (map Some pins ++
     match (Nat.max (List.length pinlabels) (List.length pincolors)
            - List.length pins)%nat with
     | O => []
     | S _ => [None]
     end)%list.
Proof.
  intros Hnd Hrun. unfold Connector.create_pins in Hrun.
  apply (for_each_keys pin_dec
           (fun x : Z * (option PyId * option PyId * option string) =>
              fst (fst (snd x))))
    in Hrun.
  - rewrite Hrun.
    rewrite (map_snd_enumerate
               (fun t : option PyId * option PyId * option string => fst (fst t))).
    rewrite zip_longest3_ids.
    rewrite fold_left_app. simpl Dict.keys.
    rewrite (insert_keys_fresh pin_dec (map Some pins) []).
    + simpl. apply insert_keys_repeat.
      intros Hin. apply in_map_iff in Hin. destruct Hin as (x & Hx & _).
      discriminate.
    + simpl. apply NoDup_map_Some. exact Hnd.
  - intros d0 [i [[pid l] c]] d' Hbody. simpl.
    bind_inv Hbody. inversion Hbody. eexists. reflexivity.
Qed.

Lemma create_pins_ids designator style pins pinlabels pincolors d :
  Connector.create_pins designator style pins pinlabels pincolors = Returns d ->
  ids_match d.
Proof.
  unfold Connector.create_pins. intros Hrun.
  refine (for_each_invariant ids_match _ _ _ Dict.empty d _ Hrun).
  - intros s [i [[pid l] c]] s' Hs Hbody.
    bind_inv Hbody. inversion Hbody; subst s'; clear Hbody.
    intros k p Hk. unfold Connector.get_pin in Hk.
    destruct (option_eq_dec PyId_eq_dec pid k) as [->|Hne].
    + rewrite get_set_same in Hk. inversion Hk; subst p. reflexivity.
    + rewrite get_set_other in Hk by exact Hne. eapply Hs; exact Hk.
  - intros k p Hk. discriminate.
Qed.

Lemma activate_pin_ids (self self' : Connector.t) pin_id side is_connection :
  Connector.activate_pin self pin_id side is_connection = Returns self' ->
  ids_match (Connector.pin_objects self) ->
  ids_match (Connector.pin_objects self').
Proof.
  intros Hrun Hids. apply activate_pin_pins in Hrun. destruct is_connection.
  - destruct Hrun as (p & Hp & ->). intros k q Hk. unfold Connector.get_pin in *.
    destruct (option_eq_dec PyId_eq_dec pin_id k) as [->|Hne].
    + rewrite get_set_same in Hk. inversion Hk; subst q. simpl.
      apply (Hids k p Hp).
    + rewrite get_set_other in Hk by exact Hne. apply (Hids k q Hk).
  - rewrite Hrun. exact Hids.
Qed.

Lemma register_loops_ids (loops : list (list PyId)) (self self' : Connector.t) :
  Connector.register_loops loops self = Returns self' ->
  ids_match (Connector.pin_objects self) ->
  ids_match (Connector.pin_objects self').
Proof.
  unfold Connector.register_loops. intros Hrun Hids.
  refine (for_each_invariant (fun s => ids_match (Connector.pin_objects s))
            _ loops _ self self' Hids Hrun).
  intros s loop s' Hs Hbody.
  destruct loop as [|a [|b [|]]]; try discriminate.
  bind_inv Hbody.
  eapply activate_pin_ids; [exact Hbody|].
  eapply activate_pin_ids; [exact Hx | exact Hs].
Qed.

(** The shape of the pin mapping of every constructed connector. *)
Lemma Connector_post_init_pins (a : Connector.Args.t) (self : Connector.t) :
  Connector.__post_init__ a = Returns self ->
  Connector.pinlabels self = Connector.Args.pinlabels a /\
  Connector.pincolors self = Connector.Args.pincolors a /\
  NoDup (Connector.pins self) /\
  Dict.keys (Connector.pin_objects self) =
    (map Some (Connector.pins self) ++
     match (Nat.max (List.length (Connector.pinlabels self))
              (List.length (Connector.pincolors self))
            - List.length (Connector.pins self))%nat with
     | O => []
     | S _ => [None]
     end)%list /\
  ids_match (Connector.pin_objects self).
Proof.
  intros Hrun. apply Connector_post_init_inv in Hrun.
  destruct Hrun as (declared & pincount & d & show_name & self0 & acs & Hrun).
  cbv zeta in Hrun.
  destruct Hrun as (_ & _ & Hunique & Hd & _ & Hloops & _ & ->).
  pose proof (register_loops_keys _ _ _ Hloops) as Hkeys.
  pose proof (register_loops_frame _ _ _ Hloops) as (Hpins & _ & Hlabels & Hcolors & _).
  pose proof (register_loops_ids _ _ _ Hloops) as Hids.
  simpl in *. rewrite Hpins, Hlabels, Hcolors, Hkeys.
  apply nodup_length_NoDup in Hunique.
  repeat split; try assumption.
  - eapply create_pins_keys; eassumption.
  - apply Hids. eapply create_pins_ids; eassumption.
Qed.

End PinMapping.

(** ** Claim C2 *)

Section PinCount.
Context {T : ExternalTypes} {E : Externals}.

(** When the pin count is not declared (and the style is not simple) it is
    the length of the longest of the pin-id list, [pinlabels] and
    [pincolors]. *)
Lemma derived_pincount_is_longest (a : Connector.Args.t) (self : Connector.t) :
  Connector.__post_init__ a = Returns self ->
  truthy_int (Connector.Args.pincount a) = None ->
  eq_str (Connector.Args.style a) "simple" = false ->
  Connector.pincount self =
    Z.max (len (Connector.pins self))
      (Z.max (len (Connector.pinlabels self)) (len (Connector.pincolors self))).
Proof.
  intros Hrun Hnone Hstyle. apply Connector_post_init_inv in Hrun.
  destruct Hrun as (declared & pincount & d & show_name & self0 & acs & Hrun).
  cbv zeta in Hrun.
  destruct Hrun as (Hdeclared & Hpincount & _ & _ & _ & Hloops & _ & ->).
  pose proof (register_loops_frame _ _ _ Hloops)
    as (Hpins & Hcount & Hlabels & Hcolors & _).
  simpl in *. rewrite Hpins, Hcount, Hlabels, Hcolors.
  rewrite Hstyle in Hdeclared. subst declared. rewrite Hnone in Hpincount.
  destruct Hpincount as [Hpincount Hnz].
  destruct (Connector.Args.pins a) as [|pin pins] eqn:Hp; [|exact Hpincount].
  unfold len, range in *. simpl in Hpincount.
  rewrite length_map, length_map, length_seq. lia.
Qed.

(** For every connector whose construction succeeds, each pin is stored
    under its own id and no key occurs twice; the mapping has exactly
    [pincount] entries whenever [pincount] is the length of the longest of
    the pin-id list (as given, or the default 1..pincount), [pinlabels] and
    [pincolors], and neither [pinlabels] nor [pincolors] is more than one
    element longer than the pin-id list. *)
Lemma Connector_pin_mapping (a : Connector.Args.t) (self : Connector.t) :
  Connector.__post_init__ a = Returns self ->
  NoDup (Dict.keys (Connector.pin_objects self)) /\
  ids_match (Connector.pin_objects self) /\
  (Connector.pincount self =
     Z.max (len (Connector.pins self))
       (Z.max (len (Connector.pinlabels self)) (len (Connector.pincolors self))) ->
   Z.max (len (Connector.pinlabels self)) (len (Connector.pincolors self))
     <= len (Connector.pins self) + 1 ->
   len (Connector.pin_objects self) = Connector.pincount self).
Proof.
  intros Hrun.
  destruct (Connector_post_init_pins a self Hrun)
    as (_ & _ & Hnd & Hkeys & Hids).
  split; [|split; [exact Hids|]].
  - rewrite Hkeys.
    pose proof (NoDup_map_Some _ Hnd) as Hsome.
    destruct (Nat.max _ _ - _)%nat; [rewrite app_nil_r; exact Hsome|].
    apply NoDup_app; [exact Hsome | repeat constructor; simpl; tauto |].
    intros k Hin [<-|[]]. apply in_map_iff in Hin.
    destruct Hin as (x & Hx & _). discriminate.
  - intros Hlongest Hshort.
    unfold len in *. rewrite <- (keys_length (Connector.pin_objects self)), Hkeys.
    rewrite length_app, length_map, Hlongest.
    destruct (Nat.max (List.length (Connector.pinlabels self))
                (List.length (Connector.pincolors self))
              - List.length (Connector.pins self))%nat eqn:Hm; simpl; lia.
Qed.

End PinCount.

(** C2. A connector given the pin ids [1] and the pin labels A, B, C is
    constructed with a pin count of 3 but with two pins only: the check for
    unique pins looks at the pin-id list, the zipping then pads the ids of
    the second and third position with [None], and the pin labelled C
    (index 2) replaces the pin labelled B under that key. *)
Theorem C2_padded_pin_ids_collide :
  exists self pin,
    Connector.__post_init__ (E := Sample.externals)
      (Examples.connector "X1" None None [IdInt 1]
         [IdStr "A"; IdStr "B"; IdStr "C"] [] [] [] false) = Returns self /\
    Connector.pincount self = 3 /\
    len (Connector.pin_objects self) = 2 /\
    Dict.keys (Connector.pin_objects self) = [Some (IdInt 1); None] /\
    Connector.get_pin None (Connector.pin_objects self) = Some pin /\
    PinClass.index pin = 2 /\
    PinClass.label pin = Some (IdStr "C") /\
    Forall (fun p => PinClass.label p <> Some (IdStr "B"))
      (Dict.values (Connector.pin_objects self)).
Proof.
  eexists _, _. split; [vm_compute; reflexivity|].
  split; [reflexivity|]. split; [reflexivity|]. split; [reflexivity|].
  split; [vm_compute; reflexivity|]. split; [reflexivity|].
  split; [reflexivity|].
  repeat constructor; discriminate.
Qed.

(** ** Claim C8 *)

Section SimpleConnector.
Context {T : ExternalTypes} {E : Externals}.

Lemma register_loops_on_single_pin (loops : list (list PyId)) :
  Forall (fun loop => loop = [IdInt 1; IdInt 1]) loops ->
  forall (self : Connector.t) (p : PinClass.t),
    Connector.pin_objects self = [(Some (IdInt 1), p)] ->
    exists self' p',
      Connector.register_loops loops self = Returns self' /\
      Connector.pin_objects self' = [(Some (IdInt 1), p')] /\
      PinClass.id p' = PinClass.id p /\
      same_frame self self'.
Proof.
  unfold Connector.register_loops.
  induction 1 as [|loop loops -> _ IH]; intros self p Hpins.
  - exists self, p. simpl. unfold same_frame. tauto.
  - simpl.
    destruct (activate_pin_connects self (Some (IdInt 1)) None p) as (s1 & Hs1 & _).
    { unfold Connector.get_pin. rewrite Hpins. reflexivity. }
    rewrite Hs1. simpl.
    pose proof (activate_pin_pins _ _ _ _ _ Hs1) as (q & Hq & Hp1). simpl in Hp1.
    unfold Connector.get_pin in Hq. rewrite Hpins in Hq, Hp1.
    simpl in Hq, Hp1. inversion Hq; subst q; clear Hq.
    destruct (activate_pin_connects s1 (Some (IdInt 1)) None (PinClass.connect p))
      as (s2 & Hs2 & _).
    { unfold Connector.get_pin. rewrite Hp1. reflexivity. }
    rewrite Hs2.
    pose proof (activate_pin_pins _ _ _ _ _ Hs2) as (q & Hq & Hp2). simpl in Hp2.
    unfold Connector.get_pin in Hq. rewrite Hp1 in Hq, Hp2.
    simpl in Hq, Hp2. inversion Hq; subst q; clear Hq.
    destruct (IH s2 _ Hp2) as (self' & p' & Hrun & Hpins' & Hid & Hframe).
    exists self', p'. split; [exact Hrun|]. split; [exact Hpins'|].
    split; [rewrite Hid; reflexivity|].
    apply activate_pin_frame in Hs1, Hs2. unfold same_frame in *.
    intuition congruence.
Qed.

(** C8 (amended). A connector of style "simple" whose declared pin count
    exceeds 1 fails construction.  One that declares no pin count above 1,
    has a designator, gives no pin ids, at most one pin label and one pin
    colour, only loops from pin 1 to pin 1, and additional components that
    can be built, is constructed with [pincount] 1 and exactly one pin, of
    id 1; [show_pincount] defaults to false and [show_name] defaults to
    false. *)
Theorem C8_simple_connector (a : Connector.Args.t) :
  Connector.Args.style a = Some "simple" ->
  (forall n, Connector.Args.pincount a = Some n -> 1 < n ->
     Connector.__post_init__ a =
       Raises (Exception
                 "Connectors with style set to simple may only have one pin")) /\
  ((forall n, Connector.Args.pincount a = Some n -> n <= 1) ->
   Connector.Args.designator a <> None ->
   Connector.Args.pins a = [] ->
   (List.length (Connector.Args.pinlabels a) <= 1)%nat ->
   (List.length (Connector.Args.pincolors a) <= 1)%nat ->
   Forall (fun loop => loop = [IdInt 1; IdInt 1]) (Connector.Args.loops a) ->
   returns (AdditionalComponent.expand (Connector.Args.additional_components a))
     = true ->
   exists self pin,
     Connector.__post_init__ a = Returns self /\
     Connector.pincount self = 1 /\
     Connector.pin_objects self = [(Some (IdInt 1), pin)] /\
     PinClass.id pin = Some (IdInt 1) /\
     (Connector.Args.show_pincount a = None ->
      Connector.show_pincount self = false) /\
     (Connector.Args.show_name a = None -> Connector.show_name self = false)).
Proof.
  intros Hstyle. split.
  - intros n Hn Hgt. unfold Connector.__post_init__.
    rewrite Hstyle, Hn. simpl. unfold truthy_int.
    destruct (Z.eqb_spec n 0) as [->|_]; [lia|].
    destruct (Z.gtb_spec n 1); [reflexivity | lia].
  - intros Hcount Hdes Hpins Hlabels Hcolors Hloops Hacs.
    destruct (Connector.Args.designator a) as [d|] eqn:Hd; [|congruence].
    destruct (AdditionalComponent.expand (Connector.Args.additional_components a))
      as [acs|] eqn:Hexp; [|discriminate].
    assert (Hdeclared :
      match truthy_int (Connector.Args.pincount a) with
      | Some n =>
          if n >? 1
          then Raises (Exception
                 "Connectors with style set to simple may only have one pin")
          else ret (Some 1)
      | None => ret (Some 1)
      end = Returns (Some 1)).
    { unfold truthy_int. destruct (Connector.Args.pincount a) as [n|]; [|reflexivity].
      specialize (Hcount n eq_refl).
      destruct (n =? 0); [reflexivity|].
      destruct (Z.gtb_spec n 1); [lia | reflexivity]. }
    set (label := nth_error (Connector.Args.pinlabels a) 0).
    set (color := nth_error (Connector.Args.pincolors a) 0).
    set (pin := PinClass.mk 0 (Some (IdInt 1)) label (MultiColor_new color)
                  (Some d) 0 (String.prefix AUTOGENERATED_PREFIX d) true).
    assert (Hcreate :
      Connector.create_pins (Some d) (Some "simple") [IdInt 1]
        (Connector.Args.pinlabels a) (Connector.Args.pincolors a)
      = Returns [(Some (IdInt 1), pin)]).
    { unfold Connector.create_pins, zip_longest3, enumerate.
      replace (Nat.max (List.length [IdInt 1])
                 (Nat.max (List.length (Connector.Args.pinlabels a))
                    (List.length (Connector.Args.pincolors a)))) with 1%nat
        by (simpl List.length; lia).
      reflexivity. }
    unfold Connector.__post_init__.
    rewrite Hstyle, Hd, Hpins, Hexp. simpl eq_str. cbv iota.
    rewrite Hdeclared. simpl.
    change (map IdInt (range 1 (1 + 1))) with [IdInt 1].
    simpl nodup. simpl List.length. simpl negb. cbv iota.
    rewrite Hcreate. simpl.
    destruct (Connector.Args.show_name a) as [b|] eqn:Hshow; simpl;
      match goal with
      | |- context [Connector.register_loops ?l ?s] =>
          destruct (register_loops_on_single_pin l Hloops s pin eq_refl)
            as (self' & pin' & Hrun & Hpins' & Hid & Hframe)
      end;
      rewrite Hrun; simpl;
      exists (Connector.set_additional_components acs self'), pin';
      destruct Hframe as (_ & Hpc & _ & _ & Hsn & Hsp & _);
      simpl in *; (repeat split; try assumption; try congruence).
    + intros Hnone. rewrite Hsp, Hnone. reflexivity.
    + intros Hnone. rewrite Hsp, Hnone. reflexivity.
Qed.

End SimpleConnector.

Lemma C8_counterexample :
  exists self,
    Connector.__post_init__ (E := Sample.externals)
      (Examples.connector "X1" (Some "simple") None [] [] [] [] [] false)
    = Returns self /\
    Connector.pincount self = 1 /\
    Connector.show_pincount self = false /\
    Connector.show_name self = false.
Proof.
  eexists. split; [vm_compute; reflexivity|]. repeat split.
Qed.

Lemma C8_witness :
  Connector.__post_init__ (E := Sample.externals)
    (Examples.connector "X1" (Some "simple") (Some 2) [] [] [] [] [] false)
  = Raises (Exception
              "Connectors with style set to simple may only have one pin") /\
  exists self pin,
    Connector.__post_init__ (E := Sample.externals)
      (Examples.connector "X1" (Some "simple") None [] [] []
         [[IdInt 1; IdInt 1]] [] false)
    = Returns self /\
    Connector.pincount self = 1 /\
    Connector.pin_objects self = [(Some (IdInt 1), pin)] /\
    PinClass.id pin = Some (IdInt 1) /\
    Connector.show_pincount self = false /\
    Connector.show_name self = false.
Proof.
  split.
  - apply (proj1 (C8_simple_connector (E := Sample.externals)
                    (Examples.connector "X1" (Some "simple") (Some 2) [] [] [] [] []
                       false) eq_refl) 2 eq_refl).
    lia.
  - destruct (proj2 (C8_simple_connector (E := Sample.externals)
                       (Examples.connector "X1" (Some "simple") None [] [] []
                          [[IdInt 1; IdInt 1]] [] false) eq_refl))
      as (self & pin & Hrun & Hcount & Hpins & Hid & Hsp & Hsn).
    + intros n Hn. discriminate.
    + discriminate.
    + reflexivity.
    + simpl. lia.
    + simpl. lia.
    + repeat constructor.
    + reflexivity.
    + exists self, pin. repeat split; auto.
Defined.

(** ** Wires of a constructed cable *)

Lemma map_fst_enumerate {A B : Type} (f : Z -> B) (xs : list A) :
  map (fun x => f (fst x)) (enumerate xs) =
    map (fun i => f (Z.of_nat i)) (seq 0 (List.length xs)).
Proof.
  unfold enumerate.
  generalize 0%nat. induction xs as [|x xs IH]; intros s; simpl; [reflexivity|].
  f_equal. apply IH.
Qed.

Lemma length_zip_longest {A B : Type} (xs : list A) (ys : list B) :
  List.length (zip_longest xs ys) = Nat.max (List.length xs) (List.length ys).
Proof.
  unfold zip_longest. rewrite length_map, length_seq. reflexivity.
Qed.

Lemma wire_ids_range (n : nat) :
  map (fun i => IdInt (Z.of_nat i + 1)) (seq 0 n) =
    map IdInt (range 1 (Z.of_nat n + 1)).
Proof.
  unfold range. rewrite map_map.
  replace (Z.to_nat (Z.of_nat n + 1 - 1)) with n by lia.
  apply map_ext. intros i. f_equal. lia.
Qed.

Lemma wire_ids_NoDup (n : nat) :
  NoDup (map (fun i => IdInt (Z.of_nat i + 1)) (seq 0 n)).
Proof.
  generalize 0%nat. induction n as [|n IH]; intros s; simpl; constructor.
  - intros Hin. apply in_map_iff in Hin. destruct Hin as (i & Hi & Hin).
    apply in_seq in Hin. inversion Hi. lia.
  - apply IH.
Qed.

Section WireMapping.
Context {T : ExternalTypes} {E : Externals}.

Lemma create_wires_keys attrs partnumbers designator gauge length colors
  wirelabels d :
  Cable.create_wires attrs partnumbers designator gauge length colors wirelabels
    = Returns d ->
  Dict.keys d =
    map IdInt
      (range 1 (Z.of_nat (Nat.max (List.length colors) (List.length wirelabels)) + 1)).
Proof.
  intros Hrun. unfold Cable.create_wires in Hrun.
  apply (for_each_keys PyId_eq_dec
           (fun x : Z * (option string * option PyId) => IdInt (fst x + 1)))
    in Hrun.
  - rewrite Hrun.
    rewrite (map_fst_enumerate (fun i => IdInt (i + 1))).
    rewrite length_zip_longest. simpl Dict.keys.
    rewrite insert_keys_fresh by (simpl; apply wire_ids_NoDup).
    simpl. apply wire_ids_range.
  - intros d0 [i [c l]] d' Hbody. simpl.
    bind_inv Hbody. inversion Hbody. eexists. reflexivity.
Qed.

Lemma derive_colors_length wirecount colors color_code colors' n :
  Cable.derive_colors wirecount colors color_code = Returns (colors', n) ->
  List.length colors' = Z.to_nat n.
Proof.
  unfold Cable.derive_colors, range, len. intros Hrun.
  destruct (truthy_int wirecount) as [w|].
  - destruct colors as [|c colors].
    + destruct (str_truthy color_code).
      * destruct (negb _); [discriminate|].
        inversion Hrun; subst. rewrite !length_map, length_seq. f_equal. lia.
      * inversion Hrun; subst. apply repeat_length.
    + inversion Hrun; subst. rewrite !length_map, length_seq. f_equal. lia.
  - destruct colors as [|c rest] eqn:Hcolors; [discriminate|].
    rewrite <- Hcolors in *. clear Hcolors.
    inversion Hrun; subst. symmetry. apply Nat2Z.id.
Qed.

(** What a successful [Cable.__post_init__] went through. *)
Lemma Cable_post_init_inv (a : Cable.Args.t) (self : Cable.t) :
  Cable.__post_init__ a = Returns self ->
  exists gauge length colors wirecount wires show_name acs,
    Component.parse_number_and_unit (Cable.Args.gauge a) (Some "mm2")
      = Returns gauge /\
    Component.parse_number_and_unit (Cable.Args.length a) (Some "m")
      = Returns length /\
    Cable.derive_colors (Cable.Args.wirecount a) (Cable.Args.colors a)
      (Cable.Args.color_code a) = Returns (colors, wirecount) /\
    Cable.check_part_lists (Cable.Args.component a) wirecount = Returns tt /\
    Cable.create_wires (Cable.Args.component a)
      (Component.fill_partnumbers (Cable.Args.component a))
      (Cable.Args.designator a) gauge length colors (Cable.Args.wirelabels a)
      = Returns wires /\
    AdditionalComponent.expand (Cable.Args.additional_components a)
      = Returns acs /\
    self =
      Cable.mk
        (Component.mk (Cable.Args.component a)
           (Some (Component.fill_partnumbers (Cable.Args.component a)))
           (Some (Cable.Args.qty a)) length None)
        (SingleColor_new (Cable.Args.bgcolor a)) (Cable.Args.designator a)
        (MultiColor_new (Cable.Args.color a)) acs
        (SingleColor_new (Cable.Args.bgcolor_title a)) gauge length
        (Cable.Args.color_code a) wirecount (Cable.Args.shield a) colors
        (Cable.Args.wirelabels a)
        (Cable.add_shield (Cable.Args.designator a) (Cable.Args.shield a) wires)
        [] show_name (Cable.Args.show_equiv a) (Cable.Args.show_wirecount a)
        (match Cable.Args.show_wirenumbers a with
         | Some b => b
         | None =>
             negb (eq_str (Component.category (Cable.Args.component a)) "bundle")
         end).
Proof.
  unfold Cable.__post_init__. intros Hrun.
  bind_inv Hrun. rename x into gauge, Hx into Hgauge.
  bind_inv Hrun. rename x into length, Hx into Hlength.
  bind_inv Hrun. destruct x as [colors wirecount]. rename Hx into Hcolors.
  match type of Hrun with
  | (if ?c then _ else _) = _ => destruct c; [discriminate|]
  end.
  bind_inv Hrun. destruct x. rename Hx into Hparts.
  bind_inv Hrun. rename x into wires, Hx into Hwires.
  bind_inv Hrun. rename x into show_name, Hx into Hshow.
  bind_inv Hrun. rename x into acs, Hx into Hacs.
  inversion Hrun; subst self; clear Hrun.
  exists gauge, length, colors, wirecount, wires, show_name, acs.
  repeat split; assumption.
Qed.

Lemma add_shield_keys designator shield (wires : Cable.wire_dict) :
  (forall k, In k (Dict.keys wires) -> exists z, k = IdInt z) ->
  Dict.keys (Cable.add_shield designator shield wires) =
    (Dict.keys wires ++ if Cable.shielded shield then [IdStr "s"] else [])%list.
Proof.
  intros Hints. unfold Cable.add_shield.
  destruct (Cable.shielded shield); [|rewrite app_nil_r; reflexivity].
  apply keys_set_fresh. intros Hin. destruct (Hints _ Hin) as (z & Hz).
  discriminate.
Qed.

End WireMapping.

(** ** Claim C1 *)

Section WireCount.
Context {T : ExternalTypes} {E : Externals}.

(** The wire mapping of every constructed cable: one entry per position of
    the longer of the colour list and [wirelabels], then the shield. *)
Lemma Cable_post_init_wires (a : Cable.Args.t) (self : Cable.t) :
  Cable.__post_init__ a = Returns self ->
  Cable.wirelabels self = Cable.Args.wirelabels a /\
  Cable.shield self = Cable.Args.shield a /\
  List.length (Cable.colors self) = Z.to_nat (Cable.wirecount self) /\
  exists wires : Cable.wire_dict,
    Dict.keys wires =
      map IdInt
        (range 1 (Z.of_nat (Nat.max (List.length (Cable.colors self))
                              (List.length (Cable.wirelabels self))) + 1)) /\
    Cable.wire_objects self =
      Cable.add_shield (Cable.designator self) (Cable.shield self) wires.
Proof.
  intros Hrun. apply Cable_post_init_inv in Hrun.
  destruct Hrun as (gauge & length & colors & wirecount & wires & show_name
                    & acs & _ & _ & Hcolors & _ & Hwires & _ & ->).
  simpl. repeat split.
  - eapply derive_colors_length; exact Hcolors.
  - exists wires. split; [|reflexivity].
    eapply create_wires_keys; exact Hwires.
Qed.

(** The keys of the wire mapping when the labels do not outnumber the
    wires. *)
Lemma Cable_wire_keys (a : Cable.Args.t) (self : Cable.t) :
  Cable.__post_init__ a = Returns self ->
  len (Cable.wirelabels self) <= Cable.wirecount self ->
  Dict.keys (Cable.wire_objects self) =
    (map IdInt (range 1 (Cable.wirecount self + 1)) ++
     if Cable.shielded (Cable.shield self) then [IdStr "s"] else [])%list.
Proof.
  intros Hrun Hlabels.
  destruct (Cable_post_init_wires a self Hrun)
    as (_ & _ & Hcolors & wires & Hkeys & Hobjects).
  assert (Hmax : Z.of_nat (Nat.max (List.length (Cable.colors self))
                             (List.length (Cable.wirelabels self)))
                 = Cable.wirecount self).
  { unfold len in Hlabels. lia. }
  rewrite Hmax in Hkeys.
  rewrite Hobjects, add_shield_keys, Hkeys; [reflexivity|].
  intros k Hin. rewrite Hkeys in Hin. apply in_map_iff in Hin.
  destruct Hin as (z & <- & _). eauto.
Qed.

Lemma Cable_wire_objects_len (a : Cable.Args.t) (self : Cable.t) :
  Cable.__post_init__ a = Returns self ->
  len (Cable.wirelabels self) <= Cable.wirecount self ->
  len (Cable.wire_objects self) =
    Cable.wirecount self + (if Cable.shielded (Cable.shield self) then 1 else 0).
Proof.
  intros Hrun Hlabels.
  unfold len at 1.
  rewrite <- (keys_length (Cable.wire_objects self)).
  rewrite (Cable_wire_keys a self Hrun Hlabels).
  rewrite length_app. unfold range. rewrite !length_map, length_seq.
  unfold len in Hlabels.
  destruct (Cable.shielded (Cable.shield self)); simpl; lia.
Qed.

(** For every cable or bundle whose construction succeeds and whose
    [wirelabels] list is no longer than the wire count (given or derived
    from the colours), the wire mapping has exactly [wirecount] entries plus
    one when shielded, its ids are the integers 1..wirecount in order,
    followed by the reserved id "s" when shielded, and the entry of id "s"
    is labelled "Shield" and has the index after the last wire. *)
Lemma Cable_wire_mapping (a : Cable.Args.t) (self : Cable.t) :
  Cable.__post_init__ a = Returns self ->
  len (Cable.wirelabels self) <= Cable.wirecount self ->
  len (Cable.wire_objects self) =
    Cable.wirecount self + (if Cable.shielded (Cable.shield self) then 1 else 0) /\
  Dict.keys (Cable.wire_objects self) =
    (map IdInt (range 1 (Cable.wirecount self + 1)) ++
     if Cable.shielded (Cable.shield self) then [IdStr "s"] else [])%list /\
  (Cable.shielded (Cable.shield self) = true ->
   exists shield,
     Cable.get_wire (IdStr "s") (Cable.wire_objects self) = Some shield /\
     WireClass.id shield = IdStr "s" /\
     WireClass.label shield = Some (IdStr "Shield") /\
     WireClass.index shield = Cable.wirecount self).
Proof.
  intros Hrun Hlabels.
  split; [apply (Cable_wire_objects_len a self Hrun Hlabels)|].
  split; [apply (Cable_wire_keys a self Hrun Hlabels)|].
  intros Hshield.
  pose proof (Cable_wire_objects_len a self Hrun Hlabels) as Hlen.
  destruct (Cable_post_init_wires a self Hrun)
    as (_ & _ & _ & wires & Hkeys & Hobjects).
  rewrite Hobjects in *. unfold Cable.add_shield, Cable.get_wire in *.
  rewrite Hshield in *. rewrite get_set_same. eexists. split; [reflexivity|].
  simpl. repeat split.
  unfold len in Hlen. rewrite <- (keys_length (Dict.set _ _ _ _)) in Hlen.
  rewrite keys_set_fresh in Hlen.
  - rewrite length_app, keys_length in Hlen. simpl in Hlen. unfold len. lia.
  - rewrite Hkeys. intros Hin. apply in_map_iff in Hin.
    destruct Hin as (z & Hz & _). discriminate.
Qed.

End WireCount.

(** C1. A cable of two wires given three colours and three wire labels
    gets three wires: the colour list is cut to the wire count, the wire
    count stays 2 and the description counts two wires, but the wire mapping
    holds the ids 1, 2 and 3, the third wire labelled C and without colour.
    On a bundle whose part numbers are a list of two, which the check
    against the wire count accepts, the same labels make the construction
    fail with [IndexError]. *)
Theorem C1_surplus_labels_make_surplus_wires :
  (exists self wire,
      Cable.__post_init__ (E := Sample.externals)
        (Examples.cable "W1" None (Some 2) ["RD"; "BK"; "BU"] None
           [IdStr "A"; IdStr "B"; IdStr "C"] (Cable.ShieldFlag false)
           Component.InNone []) = Returns self /\
      Cable.wirecount self = 2 /\
      Cable.colors self = ["RD"; "BK"] /\
      Cable.description (E := Sample.externals) self
        = Returns "Cable, 2 wires" /\
      len (Cable.wire_objects self) = 3 /\
      Dict.keys (Cable.wire_objects self) = [IdInt 1; IdInt 2; IdInt 3] /\
      Cable.get_wire (IdInt 3) (Cable.wire_objects self) = Some wire /\
      WireClass.label wire = Some (IdStr "C") /\
      WireClass.color wire = MultiColor_new (Externals := Sample.externals) None) /\
  Cable.__post_init__ (E := Sample.externals)
    (Cable.Args.mk
       (Component.mk_attrs (Some "bundle") None None (PartList ["P1"; "P2"])
          PartNone PartNone PartNone PartNone true false)
       Examples.one None (Some "W1") None [] None Component.InNone
       Component.InNone None (Some 2) (Cable.ShieldFlag false) []
       [IdStr "A"; IdStr "B"; IdStr "C"] None false true None)
  = Raises IndexError.
Proof.
  split; [|vm_compute; reflexivity].
  eexists _, _. split; [vm_compute; reflexivity|].
  split; [reflexivity|]. split; [reflexivity|].
  split; [vm_compute; reflexivity|]. split; [reflexivity|].
  split; [reflexivity|]. split; [vm_compute; reflexivity|].
  split; reflexivity.
Qed.

(** ** Claim C5 *)

Lemma split_first_space_none (s : string) :
  contains_space s = false -> split_first_space s = None.
Proof.
  induction s as [|c s IH]; simpl; [reflexivity|].
  destruct (Ascii.eqb c " "); simpl; [discriminate|].
  intros Hs. rewrite (IH Hs). reflexivity.
Qed.

Lemma split_first_space_some (number unit : string) :
  contains_space number = false ->
  split_first_space (number ++ " " ++ unit) = Some (number, unit).
Proof.
  induction number as [|c number IH]; simpl in *; [reflexivity|].
  destruct (Ascii.eqb c " "); simpl; [discriminate|].
  intros Hs. rewrite (IH Hs). reflexivity.
Qed.

(** Every string is of one of the two forms: it has no space, or it is a
    token without space, a space, and the rest. *)
Lemma first_space_decomposition (s : string) :
  contains_space s = false \/
  exists number unit,
    s = number ++ " " ++ unit /\ contains_space number = false.
Proof.
  induction s as [|c s IH]; simpl; [left; reflexivity|].
  destruct (Ascii.eqb_spec c " ") as [->|Hc]; simpl.
  - right. exists "", s. split; reflexivity.
  - destruct IH as [Hs | (number & unit & -> & Hn)]; [left; exact Hs|].
    right. exists (String c number), unit. split; [reflexivity|].
    simpl. destruct (Ascii.eqb_spec c " "); [contradiction | exact Hn].
Qed.

Section QuantityParsing.
Context {T : ExternalTypes} {E : Externals}.

(** C5 (amended). [parse_number_and_unit] returns [None] for [None]; a
    string with a space is split at its first space into the numeric token
    and the unit; a string without a space is the numeric token and takes the
    default unit.  The call fails exactly in two cases: when [float] rejects
    the numeric token of a string, where the error raised is a plain
    [Exception] (raised in place of the [ValueError] of [float]); and when
    the input is an int too large for a float, where the [OverflowError] of
    [float] passes through.  No failure is of class [ValueError]. *)
Theorem C5_parse_number_and_unit :
  (forall default_unit,
      Component.parse_number_and_unit Component.InNone default_unit
        = Returns None) /\
  (forall number unit default_unit,
      contains_space number = false ->
      Component.parse_number_and_unit
        (Component.InStr (number ++ " " ++ unit)) default_unit =
        match float_of_str number with
        | Some f =>
            Returns (Some (NumberAndUnit.mk (Some (Number.PyFloat f)) (Some unit)))
        | None =>
            Raises (Exception (not_a_number_and_unit (number ++ " " ++ unit)))
        end) /\
  (forall number default_unit,
      contains_space number = false ->
      Component.parse_number_and_unit (Component.InStr number) default_unit =
        match float_of_str number with
        | Some f =>
            Returns (Some (NumberAndUnit.mk (Some (Number.PyFloat f)) default_unit))
        | None => Raises (Exception (not_a_number_and_unit number))
        end) /\
  (forall z default_unit,
      Component.parse_number_and_unit (Component.InNumber (Number.PyInt z))
        default_unit =
        match float_of_int z with
        | Some f =>
            Returns (Some (NumberAndUnit.mk (Some (Number.PyFloat f)) default_unit))
        | None => Raises OverflowError
        end) /\
  (forall inp default_unit e,
      Component.parse_number_and_unit inp default_unit = Raises e ->
      is_ValueError e = false /\
      ((exists s, inp = Component.InStr s /\
                  e = Exception (not_a_number_and_unit s)) \/
       (exists z, inp = Component.InNumber (Number.PyInt z) /\
                  float_of_int z = None /\ e = OverflowError))).
Proof.
  split; [|split; [|split; [|split]]].
  - reflexivity.
  - intros number unit default_unit Hns. unfold Component.parse_number_and_unit.
    rewrite (split_first_space_some number unit Hns).
    destruct (float_of_str number); reflexivity.
  - intros number default_unit Hns. unfold Component.parse_number_and_unit.
    rewrite (split_first_space_none number Hns).
    destruct (float_of_str number); reflexivity.
  - intros z default_unit. simpl. destruct (float_of_int z); reflexivity.
  - intros inp default_unit e Hrun.
    destruct inp as [|nu|n|s]; simpl in Hrun; try discriminate.
    + destruct n as [z|f]; simpl in Hrun; [|discriminate].
      destruct (float_of_int z) eqn:Hz; simpl in Hrun; [discriminate|].
      inversion Hrun; subst e. split; [reflexivity|].
      right. exists z. auto.
    + assert (He : e = Exception (not_a_number_and_unit s)).
      { destruct (split_first_space s) as [[number unit]|];
          destruct (float_of_str _); inversion Hrun; reflexivity. }
      subst e. split; [reflexivity|]. left. exists s. auto.
Qed.

End QuantityParsing.

Lemma C5_counterexample :
  (exists e,
      Component.parse_number_and_unit (E := Sample.externals)
        (Component.InStr "abc m") None = Raises e /\
      is_ValueError e = false) /\
  Component.parse_number_and_unit (E := Sample.externals)
    (Component.InNumber (Number.PyInt (10 ^ 400))) None = Raises OverflowError.
Proof.
  split; [eexists; split; [vm_compute; reflexivity | reflexivity]|].
  vm_compute. reflexivity.
Qed.

Lemma C5_witness :
  Component.parse_number_and_unit (E := Sample.externals)
    (Component.InStr "1.5 m") None =
    Returns (Some (NumberAndUnit.mk (Some (Number.PyFloat (T := Sample.types) 1.5%float)) (Some "m"))) /\
  Component.parse_number_and_unit (E := Sample.externals)
    (Component.InStr "0.25") (Some "mm2") =
    Returns (Some (NumberAndUnit.mk (Some (Number.PyFloat (T := Sample.types) 0.25%float))
                     (Some "mm2"))) /\
  Component.parse_number_and_unit (E := Sample.externals)
    (Component.InStr "abc m") None =
    Raises (Exception (not_a_number_and_unit "abc m")) /\
  Component.parse_number_and_unit (E := Sample.externals)
    (Component.InNumber (Number.PyInt 3)) (Some "m") =
    Returns (Some (NumberAndUnit.mk (Some (Number.PyFloat (T := Sample.types) 3%float))
                     (Some "m"))).
Proof.
  pose proof (C5_parse_number_and_unit (E := Sample.externals))
    as (_ & Hsplit & Hwhole & Hint & _).
  split; [|split; [|split]].
  - apply (Hsplit "1.5" "m" None). reflexivity.
  - apply (Hwhole "0.25" (Some "mm2")). reflexivity.
  - apply (Hsplit "abc" "m" None). reflexivity.
  - rewrite (Hint 3 (Some "m")). vm_compute. reflexivity.
Defined.

(** ** Claim C3 *)

Section BomHash.
Context {T : ExternalTypes} {E : Externals}.


(** The hash of the concrete component classes is the hash above, taken with
    their own description. *)
Lemma Connector_bom_hash (self : Connector.t) :
  Connector.bom_hash self =
    Component.bom_hash (Returns (Connector.description self))
      (Connector.component self).
Proof. reflexivity. Qed.

Lemma AdditionalComponent_bom_hash (self : AdditionalComponent.t) :
  AdditionalComponent.bom_hash self =
    Component.bom_hash (Returns (AdditionalComponent.description self))
      (AdditionalComponent.component self).
Proof. reflexivity. Qed.

End BomHash.



(** ** Claim C10 *)


Section BundleHash.
Context {T : ExternalTypes} {E : Externals}.


End BundleHash.


(** ** Resolution of quantity multipliers *)

Section MapEach.
Context {A B : Type} (f : A -> Py B).

Lemma map_each_returns (items : list A) (out : list B) :
  map_each f items = Returns out ->
  Forall2 (fun x y => f x = Returns y) items out.
Proof.
  revert out. induction items as [|x items IH]; simpl; intros out Hrun.
  - inversion Hrun. constructor.
  - bind_inv Hrun. bind_inv Hrun. inversion Hrun; subst out.
    constructor; [exact Hx | apply IH; exact Hx0].
Qed.

Lemma map_each_total (items : list A) :
  Forall (fun x => exists y, f x = Returns y) items ->
  exists out, map_each f items = Returns out.
Proof.
  induction 1 as [|x items (y & Hy) _ (out & Hout)]; simpl; [eauto|].
  rewrite Hy. simpl. rewrite Hout. simpl. eauto.
Qed.

Lemma map_each_raises (items : list A) (x : A) (e : PyExc) :
  In x items -> f x = Raises e -> exists e', map_each f items = Raises e'.
Proof.
  induction items as [|y items IH]; simpl; [tauto|].
  intros [->|Hin] Hx.
  - rewrite Hx. simpl. eauto.
  - destruct (f y) as [b|e0]; simpl; [|eauto].
    destruct (IH Hin Hx) as (e' & ->). simpl. eauto.
Qed.

(** When every failure of [f] is the same exception, that is the one the
    loop raises. *)
Lemma map_each_raises_only (items : list A) (x : A) (e : PyExc) :
  (forall y e', f y = Raises e' -> e' = e) ->
  In x items -> f x = Raises e -> map_each f items = Raises e.
Proof.
  intros Honly Hin Hx.
  destruct (map_each_raises items x e Hin Hx) as (e' & Hrun).
  rewrite Hrun. f_equal.
  clear Hin Hx. revert Hrun.
  induction items as [|y items IH]; simpl; [discriminate|].
  destruct (f y) as [b|e0] eqn:Hy; simpl.
  - destruct (map_each f items) as [bs|e1]; simpl; [discriminate|].
    intros Hrun. inversion Hrun; subst e1. apply IH. reflexivity.
  - intros Hrun. inversion Hrun; subst e0. eapply Honly; exact Hy.
Qed.

End MapEach.

Section Multipliers.
Context {T : ExternalTypes} {E : Externals}.

Lemma Connector_compute_unfold (self : Connector.t) :
  Connector.compute_qty_multipliers self =
    (additional_components <-
       map_each (Connector.resolve (connector_table self))
         (Connector.additional_components self) ;;
     ret (Connector.set_additional_components additional_components self)).
Proof. reflexivity. Qed.

Lemma Connector_resolve_cases (self : Connector.t)
  (subitem : AdditionalComponent.t) :
  match AdditionalComponent.qty_multiplier subitem with
  | AdditionalComponent.OfCable _ =>
      Connector.resolve (connector_table self) subitem =
        Raises (Exception "Used a cable multiplier in a connector!")
  | AdditionalComponent.Numeric n =>
      Connector.resolve (connector_table self) subitem =
        Returns (AdditionalComponent.set_computed (Some n) subitem)
  | AdditionalComponent.OfConnector m =>
      exists factor,
        Dict.get string_dec (QtyMultiplierConnector_name m)
          (connector_table self) = Some factor /\
        Connector.resolve (connector_table self) subitem =
          Returns (AdditionalComponent.set_computed factor subitem)
  end.
Proof.
  unfold Connector.resolve.
  destruct (AdditionalComponent.qty_multiplier subitem) as [n|m|m];
    try reflexivity.
  destruct m; eexists; split; reflexivity.
Qed.

Lemma Cable_resolve_numeric length table (subitem : AdditionalComponent.t) n :
  AdditionalComponent.qty_multiplier subitem = AdditionalComponent.Numeric n ->
  Cable.resolve length table subitem =
    Returns (AdditionalComponent.set_computed (Some n) subitem).
Proof. intros Hn. unfold Cable.resolve. rewrite Hn. reflexivity. Qed.

Lemma Cable_compute_inv (self self' : Cable.t) :
  Cable.compute_qty_multipliers self = Returns self' ->
  exists total_length table,
    Number.sum
      (map (fun wire =>
              match WireClass.length wire with
              | Some l => NumberAndUnit.number l
              | None => Some (Number.PyInt 0)
              end)
         (Dict.values (Cable.wire_objects self))) = Returns total_length /\
    table =
      [("WIRECOUNT", Some (Number.PyInt (len (Cable.wire_objects self))));
       ("TERMINATIONS", Some (Number.PyInt 999));
       ("LENGTH", match Cable.length self with
                  | Some l => NumberAndUnit.number l
                  | None => Some (Number.PyInt 0)
                  end);
       ("TOTAL_LENGTH", Some total_length)] /\
    exists out,
      map_each (Cable.resolve (Cable.length self) table)
        (Cable.additional_components self) = Returns out /\
      self' = Cable.set_additional_components out self.
Proof.
  unfold Cable.compute_qty_multipliers. intros Hrun.
  bind_inv Hrun. bind_inv Hrun. inversion Hrun; subst self'.
  eexists _, _. split; [exact Hx|]. split; [reflexivity|].
  exists x0. split; [exact Hx0 | reflexivity].
Qed.

(** C6. Resolving the multipliers of a connector fails when one of its
    additional components carries a cable-scoped multiplier, and resolving
    those of a cable fails when one carries a connector-scoped multiplier.  A
    plain number never makes the resolution of a subitem fail, on either
    kind of owner, and is passed on unchanged as the computed factor. *)
Theorem C6_multiplier_scope :
  (forall (self : Connector.t) subitem m,
      In subitem (Connector.additional_components self) ->
      AdditionalComponent.qty_multiplier subitem = AdditionalComponent.OfCable m ->
      Connector.compute_qty_multipliers self =
        Raises (Exception "Used a cable multiplier in a connector!")) /\
  (forall (self : Cable.t) subitem m,
      In subitem (Cable.additional_components self) ->
      AdditionalComponent.qty_multiplier subitem =
        AdditionalComponent.OfConnector m ->
      exists e, Cable.compute_qty_multipliers self = Raises e) /\
  (forall (subitem : AdditionalComponent.t) n,
      AdditionalComponent.qty_multiplier subitem = AdditionalComponent.Numeric n ->
      (forall table,
          Connector.resolve table subitem =
            Returns (AdditionalComponent.set_computed (Some n) subitem)) /\
      (forall length table,
          Cable.resolve length table subitem =
            Returns (AdditionalComponent.set_computed (Some n) subitem))) /\
  (forall (self self' : Connector.t),
      Connector.compute_qty_multipliers self = Returns self' ->
      Forall2
        (fun subitem subitem' =>
           forall n,
             AdditionalComponent.qty_multiplier subitem =
               AdditionalComponent.Numeric n ->
             subitem' = AdditionalComponent.set_computed (Some n) subitem)
        (Connector.additional_components self)
        (Connector.additional_components self')) /\
  (forall (self self' : Cable.t),
      Cable.compute_qty_multipliers self = Returns self' ->
      Forall2
        (fun subitem subitem' =>
           forall n,
             AdditionalComponent.qty_multiplier subitem =
               AdditionalComponent.Numeric n ->
             subitem' = AdditionalComponent.set_computed (Some n) subitem)
        (Cable.additional_components self)
        (Cable.additional_components self')).
Proof.
  split; [|split; [|split; [|split]]].
  - intros self subitem m Hin Hm. rewrite Connector_compute_unfold.
    rewrite (map_each_raises_only _ _ subitem
               (Exception "Used a cable multiplier in a connector!"));
      [reflexivity | | exact Hin |].
    + intros y e' Hy. pose proof (Connector_resolve_cases self y) as Hcases.
      destruct (AdditionalComponent.qty_multiplier y) as [n|c|c].
      * congruence.
      * destruct Hcases as (factor & _ & Hr). congruence.
      * congruence.
    + pose proof (Connector_resolve_cases self subitem) as Hcases.
      rewrite Hm in Hcases. exact Hcases.
  - intros self subitem m Hin Hm.
    destruct (Cable.compute_qty_multipliers self) as [self'|e] eqn:Hrun; [|eauto].
    exfalso. apply Cable_compute_inv in Hrun.
    destruct Hrun as (total & table & _ & _ & out & Hout & _).
    destruct (map_each_raises (Cable.resolve (Cable.length self) table)
                (Cable.additional_components self) subitem
                (Exception "Used a connector multiplier in a cable!") Hin)
      as (e & He).
    + unfold Cable.resolve. rewrite Hm. reflexivity.
    + congruence.
  - intros subitem n Hn. split.
    + intros table. unfold Connector.resolve. rewrite Hn. reflexivity.
    + intros length table. apply Cable_resolve_numeric. exact Hn.
  - intros self self' Hrun. rewrite Connector_compute_unfold in Hrun.
    bind_inv Hrun. inversion Hrun; subst self'. simpl.
    apply map_each_returns in Hx.
    eapply Forall2_impl; [|exact Hx]. simpl.
    intros a b Hab n Hn. unfold Connector.resolve in Hab. rewrite Hn in Hab.
    inversion Hab. reflexivity.
  - intros self self' Hrun. apply Cable_compute_inv in Hrun.
    destruct Hrun as (total & table & _ & _ & out & Hout & ->). simpl.
    apply map_each_returns in Hout.
    eapply Forall2_impl; [|exact Hout]. simpl.
    intros a b Hab n Hn. rewrite (Cable_resolve_numeric _ _ _ n Hn) in Hab.
    inversion Hab. reflexivity.
Qed.

End Multipliers.

Lemma C6_witness :
  (exists self,
      Connector.__post_init__ (E := Sample.externals)
        (Examples.connector "X1" None (Some 4) [] [] [] []
           [Examples.additional "Crimp"
              (Component.InNumberAndUnit Examples.one)
              (AdditionalComponent.GivenName "wirecount")] false)
      = Returns self /\
      Connector.compute_qty_multipliers self =
        Raises (Exception "Used a cable multiplier in a connector!")) /\
  (exists self,
      Cable.__post_init__ (E := Sample.externals)
        (Examples.cable "W1" None (Some 2) [] None [] (Cable.ShieldFlag false)
           Component.InNone
           [Examples.additional "Ferrule"
              (Component.InNumberAndUnit Examples.one)
              (AdditionalComponent.GivenName "pincount")])
      = Returns self /\
      exists e,
        Cable.compute_qty_multipliers (E := Sample.externals) self = Raises e) /\
  (exists self self',
      Cable.__post_init__ (E := Sample.externals)
        (Examples.cable "W1" None (Some 2) [] None [] (Cable.ShieldFlag false)
           Component.InNone
           [Examples.additional "Label"
              (Component.InNumberAndUnit Examples.one)
              (AdditionalComponent.GivenNumber (Number.PyInt 3))])
      = Returns self /\
      Cable.compute_qty_multipliers (E := Sample.externals) self = Returns self' /\
      Forall2
        (fun subitem subitem' =>
           AdditionalComponent._qty_multiplier_computed subitem' =
             Some (Number.PyInt 3))
        (Cable.additional_components self)
        (Cable.additional_components self')).
Proof.
  pose proof (C6_multiplier_scope (E := Sample.externals))
    as (Hconnector & Hcable & _ & _ & Hnumeric).
  split; [|split].
  - eexists. split; [vm_compute; reflexivity|].
    eapply Hconnector; [left; reflexivity | reflexivity].
  - eexists. split; [vm_compute; reflexivity|].
    eapply Hcable; [left; reflexivity | reflexivity].
  - eexists _, _. split; [vm_compute; reflexivity|].
    split; [vm_compute; reflexivity|].
    match goal with
    | |- Forall2 _ (Cable.additional_components ?s)
           (Cable.additional_components ?s') =>
        assert (Hall := Hnumeric s s' ltac:(vm_compute; reflexivity))
    end.
    simpl in Hall. inversion Hall as [|a b la lb Hab Hrest]; subst.
    inversion Hrest; subst.
    constructor; [|constructor].
    rewrite (Hab _ eq_refl). reflexivity.
Defined.

(** ** Claims C4 and C7: multipliers of a cable *)

Section CableMultipliers.
Context {T : ExternalTypes} {E : Externals}.

(** The factor of WIRECOUNT is the number of entries of the wire mapping. *)
Lemma Cable_wirecount_factor (self self' : Cable.t) :
  Cable.compute_qty_multipliers self = Returns self' ->
  Forall2
    (fun subitem subitem' =>
       AdditionalComponent.qty_multiplier subitem =
         AdditionalComponent.OfCable WIRECOUNT ->
       AdditionalComponent._qty_multiplier_computed subitem' =
         Some (Number.PyInt (len (Cable.wire_objects self))))
    (Cable.additional_components self) (Cable.additional_components self').
Proof.
  intros Hrun. apply Cable_compute_inv in Hrun.
  destruct Hrun as (total & table & _ & -> & out & Hout & ->). simpl.
  apply map_each_returns in Hout.
  eapply Forall2_impl; [|exact Hout]. simpl.
  intros a b Hab Hm. unfold Cable.resolve in Hab. rewrite Hm in Hab.
  simpl in Hab. inversion Hab. reflexivity.
Qed.

(** On a constructed cable whose labels do not outnumber its wires, that
    number is the wire count plus one for the shield. *)
Lemma Cable_wirecount_factor_shielded (a : Cable.Args.t) (self self' : Cable.t) :
  Cable.__post_init__ a = Returns self ->
  len (Cable.wirelabels self) <= Cable.wirecount self ->
  Cable.compute_qty_multipliers self = Returns self' ->
  Forall2
    (fun subitem subitem' =>
       AdditionalComponent.qty_multiplier subitem =
         AdditionalComponent.OfCable WIRECOUNT ->
       AdditionalComponent._qty_multiplier_computed subitem' =
         Some (Number.PyInt
                 (Cable.wirecount self +
                  if Cable.shielded (Cable.shield self) then 1 else 0)))
    (Cable.additional_components self) (Cable.additional_components self').
Proof.
  intros Hinit Hlabels Hrun.
  rewrite <- (Cable_wire_objects_len a self Hinit Hlabels).
  apply Cable_wirecount_factor. exact Hrun.
Qed.

(** A subitem multiplied by LENGTH or TOTAL_LENGTH whose [qty] has a unit
    makes the resolution fail. *)
Lemma Cable_resolve_length_with_unit length table
  (subitem : AdditionalComponent.t) m number unit factor :
  AdditionalComponent.qty_multiplier subitem = AdditionalComponent.OfCable m ->
  m = LENGTH \/ m = TOTAL_LENGTH ->
  Dict.get string_dec (QtyMultiplierCable_name m) table = Some factor ->
  Component.qty (AdditionalComponent.component subitem) =
    Some (NumberAndUnit.mk number (Some unit)) ->
  Cable.resolve length table subitem =
    Raises (Exception
              ("No unit may be specified when using" ++
               QtyMultiplierCable_str m ++ " as a multiplier")).
Proof.
  intros Hm Hlength Hfactor Hqty. unfold Cable.resolve, Dict.getitem.
  rewrite Hm, Hfactor, Hqty. destruct Hlength as [-> | ->]; reflexivity.
Qed.

(** Without a unit, and on a cable that has a length, the subitem takes the
    unit of that length and the factor of the table. *)
Lemma Cable_resolve_length_inherits cable_length table
  (subitem : AdditionalComponent.t) m number factor :
  AdditionalComponent.qty_multiplier subitem = AdditionalComponent.OfCable m ->
  m = LENGTH \/ m = TOTAL_LENGTH ->
  Dict.get string_dec (QtyMultiplierCable_name m) table = Some factor ->
  Component.qty (AdditionalComponent.component subitem) =
    Some (NumberAndUnit.mk number None) ->
  Cable.resolve (Some cable_length) table subitem =
    Returns (AdditionalComponent.set_computed factor
               (AdditionalComponent.set_qty
                  (Some (NumberAndUnit.mk number
                           (NumberAndUnit.unit cable_length)))
                  subitem)).
Proof.
  intros Hm Hlength Hfactor Hqty. unfold Cable.resolve, Dict.getitem.
  rewrite Hm, Hfactor, Hqty. destruct Hlength as [-> | ->]; reflexivity.
Qed.

(** On a cable without a length the same subitem makes the resolution fail
    on the access to [self.length.unit]. *)
Lemma Cable_resolve_length_without_length table
  (subitem : AdditionalComponent.t) m number factor :
  AdditionalComponent.qty_multiplier subitem = AdditionalComponent.OfCable m ->
  m = LENGTH \/ m = TOTAL_LENGTH ->
  Dict.get string_dec (QtyMultiplierCable_name m) table = Some factor ->
  Component.qty (AdditionalComponent.component subitem) =
    Some (NumberAndUnit.mk number None) ->
  Cable.resolve None table subitem = Raises AttributeError.
Proof.
  intros Hm Hlength Hfactor Hqty. unfold Cable.resolve, Dict.getitem.
  rewrite Hm, Hfactor, Hqty. destruct Hlength as [-> | ->]; reflexivity.
Qed.

End CableMultipliers.

(** C4. On a shielded cable of two wires the WIRECOUNT multiplier resolves
    to three: the factor is the size of the wire mapping, which holds the
    shield, and not the wire count. *)
Theorem C4_wirecount_counts_the_shield :
  exists self self',
    Cable.__post_init__ (E := Sample.externals)
      (Examples.cable "W1" None (Some 2) [] None [] (Cable.ShieldFlag true)
         Component.InNone
         [Examples.additional "Ferrule"
            (Component.InNumberAndUnit Examples.one)
            (AdditionalComponent.GivenName "wirecount")])
    = Returns self /\
    Cable.wirecount self = 2 /\
    Cable.compute_qty_multipliers (E := Sample.externals) self = Returns self' /\
    map AdditionalComponent._qty_multiplier_computed
      (Cable.additional_components self') = [Some (Number.PyInt 3)].
Proof.
  eexists _, _. split; [vm_compute; reflexivity|].
  split; [reflexivity|].
  split; [vm_compute; reflexivity|]. reflexivity.
Qed.

(** C7. On a cable that has no length, a subitem multiplied by LENGTH whose
    [qty] has no unit makes the resolution fail with [AttributeError],
    although the table of factors provides 0 for LENGTH on such a cable. *)
Theorem C7_length_multiplier_without_cable_length :
  exists self,
    Cable.__post_init__ (E := Sample.externals)
      (Examples.cable "W1" None (Some 2) [] None [] (Cable.ShieldFlag false)
         Component.InNone
         [Examples.additional "Sleeve"
            (Component.InNumberAndUnit Examples.one)
            (AdditionalComponent.GivenName "length")])
    = Returns self /\
    Cable.length self = None /\
    Cable.compute_qty_multipliers (E := Sample.externals) self
      = Raises AttributeError.
Proof.
  eexists. split; [vm_compute; reflexivity|].
  split; [reflexivity | vm_compute; reflexivity].
Qed.

(** The part of C7 that holds: with a unit on [qty] the resolution fails;
    on a bundle of length 2 m the subitem takes the unit "m", and LENGTH
    gives 2; with wires of 1 m, 2 m and 3 m TOTAL_LENGTH gives 6. *)
Example length_multipliers_on_a_bundle :
  exists self,
    Cable.__post_init__ (E := Sample.externals)
      (Examples.cable "W1" (Some "bundle") None ["RD"; "BK"; "BU"] None []
         (Cable.ShieldFlag false) (Component.InStr "2 m")
         [Examples.additional "Sleeve"
            (Component.InNumberAndUnit Examples.one)
            (AdditionalComponent.GivenName "length");
          Examples.additional "Tape"
            (Component.InNumberAndUnit Examples.one)
            (AdditionalComponent.GivenName "total_length")])
    = Returns self /\
    (exists self',
        Cable.compute_qty_multipliers (E := Sample.externals) self
          = Returns self' /\
        map (fun subitem =>
               (AdditionalComponent._qty_multiplier_computed subitem,
                unit_if_any
                  (Component.qty (AdditionalComponent.component subitem))))
          (Cable.additional_components self') =
          [(Some (Number.PyFloat (T := Sample.types) 2%float), Some "m");
           (Some (Number.PyFloat (T := Sample.types) 6%float), Some "m")]) /\
    (exists self',
        Cable.compute_qty_multipliers (E := Sample.externals)
          (Examples.with_wire_lengths
             [Examples.metres 1; Examples.metres 2; Examples.metres 3] self)
          = Returns self' /\
        map (fun subitem =>
               (AdditionalComponent._qty_multiplier_computed subitem,
                unit_if_any
                  (Component.qty (AdditionalComponent.component subitem))))
          (Cable.additional_components self') =
          [(Some (Number.PyFloat (T := Sample.types) 2%float), Some "m");
           (Some (Number.PyFloat (T := Sample.types) 6%float), Some "m")]).
Proof.
  eexists. split; [vm_compute; reflexivity|].
  split; eexists; (split; [vm_compute; reflexivity|]); reflexivity.
Qed.

Example length_multiplier_with_unit :
  exists self,
    Cable.__post_init__ (E := Sample.externals)
      (Examples.cable "W1" None (Some 2) [] None [] (Cable.ShieldFlag false)
         (Component.InStr "2 m")
         [Examples.additional "Sleeve" (Component.InStr "1 m")
            (AdditionalComponent.GivenName "length")])
    = Returns self /\
    Cable.compute_qty_multipliers (E := Sample.externals) self
      = Raises (Exception
                  ("No unit may be specified when using" ++
                   "QtyMultiplierCable.LENGTH as a multiplier")).
Proof.
  eexists. split; vm_compute; reflexivity.
Qed.


(** * Further properties of the code *)

(** ** Pin activation and visibility at the edges *)

Section ActivationEdges.
Context {T : ExternalTypes} {E : Externals}.

Lemma constructed_pin_known (a : Connector.Args.t) (self : Connector.t) k :
  Connector.__post_init__ a = Returns self ->
  (In k (Connector.pins self) <->
   Connector.get_pin (Some k) (Connector.pin_objects self) <> None).
Proof.
  intros Hrun.
  destruct (Connector_post_init_pins a self Hrun) as (_ & _ & _ & Hkeys & _).
  unfold Connector.get_pin. rewrite <- (get_in_keys pin_dec), Hkeys.
  rewrite in_app_iff, in_map_iff. split.
  - intros Hin. left. exists k. auto.
  - intros [(x & Hx & Hin) | Hin]; [inversion Hx; subst; exact Hin|].
    destruct (Nat.max _ _ - _)%nat; simpl in Hin; [tauto|].
    destruct Hin as [Hin|[]]. discriminate.
Qed.

Lemma activate_pin_missing (self : Connector.t) pin_id side :
  Connector.get_pin pin_id (Connector.pin_objects self) = None ->
  Connector.activate_pin self pin_id side true = Raises KeyError.
Proof.
  intros Hmissing. unfold Connector.activate_pin, Dict.getitem.
  unfold Connector.get_pin in Hmissing. rewrite Hmissing. reflexivity.
Qed.

Lemma constructed_key_known (a : Connector.Args.t) (self : Connector.t)
  (pin_id : option PyId) :
  Connector.__post_init__ a = Returns self ->
  (known_pin self pin_id <->
   Connector.get_pin pin_id (Connector.pin_objects self) <> None).
Proof.
  intros Hrun. destruct pin_id as [k|]; [apply (constructed_pin_known a self k Hrun)|].
  destruct (Connector_post_init_pins a self Hrun) as (_ & _ & _ & Hkeys & _).
  unfold Connector.get_pin. rewrite <- (get_in_keys pin_dec), Hkeys.
  rewrite in_app_iff, in_map_iff. unfold known_pin, len. split.
  - intros Hlonger. right.
    destruct (Nat.max _ _ - _)%nat eqn:Hpad; [lia | left; reflexivity].
  - intros [(x & Hx & _) | Hin]; [discriminate|].
    destruct (Nat.max _ _ - _)%nat eqn:Hpad; simpl in Hin; [tauto | lia].
Qed.

(** X1. On a constructed connector, activating a pin as a connection
    returns for the ids under which a pin is stored (the ids of the pin
    list, and [None] when the pin labels or pin colours outnumber the pin
    list) and raises [KeyError] for any other id; an activation that is not
    a connection returns for every id and leaves the pins as they are. *)
Theorem activate_pin_known_ids (a : Connector.Args.t) (self : Connector.t)
  (pin_id : option PyId) side :
  Connector.__post_init__ a = Returns self ->
  (known_pin self pin_id ->
   exists self', Connector.activate_pin self pin_id side true = Returns self') /\
  (~ known_pin self pin_id ->
   Connector.activate_pin self pin_id side true = Raises KeyError) /\
  (exists self',
      Connector.activate_pin self pin_id side false = Returns self' /\
      Connector.pin_objects self' = Connector.pin_objects self).
Proof.
  intros Hrun. pose proof (constructed_key_known a self pin_id Hrun) as Hknown.
  split; [|split].
  - intros Hin. apply Hknown in Hin.
    destruct (Connector.get_pin pin_id (Connector.pin_objects self))
      as [p|] eqn:Hp; [|congruence].
    destruct (activate_pin_connects self pin_id side p Hp) as (self' & Hact & _).
    eauto.
  - intros Hout. apply activate_pin_missing.
    destruct (Connector.get_pin pin_id (Connector.pin_objects self))
      as [p|] eqn:Hp; [|reflexivity].
    exfalso. apply Hout, Hknown. congruence.
  - unfold Connector.activate_pin. simpl.
    destruct side as [[|]|]; eexists; split; reflexivity.
Qed.

Lemma activate_pin_ports (self self' : Connector.t) pin_id side is_connection :
  Connector.activate_pin self pin_id side is_connection = Returns self' ->
  Connector.ports_left self' =
    match side with
    | Some LEFT => true
    | _ => Connector.ports_left self
    end /\
  Connector.ports_right self' =
    match side with
    | Some RIGHT => true
    | _ => Connector.ports_right self
    end.
Proof.
  unfold Connector.activate_pin. intros Hrun. bind_inv Hrun.
  assert (Hports : Connector.ports_left x = Connector.ports_left self /\
                   Connector.ports_right x = Connector.ports_right self).
  { destruct is_connection.
    - bind_inv Hx. inversion Hx; subst x. split; reflexivity.
    - inversion Hx; subst x. split; reflexivity. }
  destruct Hports as [Hl Hr].
  destruct side as [[|]|]; inversion Hrun; subst self'; simpl; auto.
Qed.

Lemma register_loops_ports (loops : list (list PyId)) (self self' : Connector.t) :
  Connector.register_loops loops self = Returns self' ->
  Connector.ports_left self' = Connector.ports_left self /\
  Connector.ports_right self' = Connector.ports_right self.
Proof.
  unfold Connector.register_loops. intros Hrun.
  refine (for_each_invariant
            (fun s => Connector.ports_left s = Connector.ports_left self /\
                      Connector.ports_right s = Connector.ports_right self)
            _ loops _ self self' (conj eq_refl eq_refl) Hrun).
  intros s loop s' [Hl Hr] Hbody.
  destruct loop as [|x [|y [|]]]; try discriminate.
  bind_inv Hbody.
  apply activate_pin_ports in Hx, Hbody. simpl in *.
  destruct Hx, Hbody. split; congruence.
Qed.

(** X2. A freshly constructed connector has neither port flag set, whatever
    loops it registers (a loop decides no side); afterwards an activation
    sets the flag of its side and no activation ever clears a flag. *)
Theorem port_flags_only_get_set :
  (forall (a : Connector.Args.t) (self : Connector.t),
      Connector.__post_init__ a = Returns self ->
      Connector.ports_left self = false /\ Connector.ports_right self = false) /\
  (forall (self self' : Connector.t) pin_id side is_connection,
      Connector.activate_pin self pin_id side is_connection = Returns self' ->
      Connector.ports_left self' =
        (Connector.ports_left self ||
         match side with Some LEFT => true | _ => false end) /\
      Connector.ports_right self' =
        (Connector.ports_right self ||
         match side with Some RIGHT => true | _ => false end)).
Proof.
  split.
  - intros a self Hrun. apply Connector_post_init_inv in Hrun.
    destruct Hrun as (declared & pincount & d & show_name & self0 & acs & Hrun).
    cbv zeta in Hrun.
    destruct Hrun as (_ & _ & _ & _ & _ & Hloops & _ & ->).
    apply register_loops_ports in Hloops. simpl in *. exact Hloops.
  - intros self self' pin_id side is_connection Hrun.
    apply activate_pin_ports in Hrun. destruct Hrun as [-> ->].
    destruct side as [[|]|]; rewrite ?orb_true_r, ?orb_false_r; auto.
Qed.

(** X3. Without [hide_disconnected_pins] every pin id is shown, also one
    the connector does not have; with it, asking a constructed connector
    about an id under which it stores no pin (an id outside the pin list,
    or [None] unless the pin labels or pin colours outnumber the pin list)
    raises [KeyError]. *)
Theorem should_show_pin_unknown_id (a : Connector.Args.t) (self : Connector.t)
  (pin_id : option PyId) :
  Connector.__post_init__ a = Returns self ->
  ~ known_pin self pin_id ->
  Connector.should_show_pin self pin_id =
    if Connector.hide_disconnected_pins self
    then Raises KeyError
    else Returns true.
Proof.
  intros Hrun Hout.
  unfold Connector.should_show_pin, Dict.getitem.
  destruct (Connector.hide_disconnected_pins self); simpl; [|reflexivity].
  pose proof (constructed_key_known a self pin_id Hrun) as Hknown.
  unfold Connector.get_pin in Hknown.
  destruct (Dict.get (option_eq_dec PyId_eq_dec) pin_id
              (Connector.pin_objects self)) as [p|] eqn:Hp; [|reflexivity].
  exfalso. apply Hout, Hknown. congruence.
Qed.

End ActivationEdges.

(** ** What the constructor of a connector refuses *)

Section ConnectorRefusals.
Context {T : ExternalTypes} {E : Externals}.




Lemma activate_pin_loops_field (self self' : Connector.t) pin_id side
  is_connection :
  Connector.activate_pin self pin_id side is_connection = Returns self' ->
  Connector.loops self' = Connector.loops self /\
  Connector.designator self' = Connector.designator self /\
  Connector.additional_components self' = Connector.additional_components self /\
  Connector.component self' = Connector.component self.
Proof.
  unfold Connector.activate_pin. intros Hrun. bind_inv Hrun.
  assert (Hsame : Connector.set_pin_objects (Connector.pin_objects x) self = x).
  { destruct is_connection.
    - bind_inv Hx. inversion Hx; subst x. reflexivity.
    - inversion Hx; subst x. destruct self; reflexivity. }
  rewrite <- Hsame in Hrun.
  destruct side as [[|]|]; inversion Hrun; subst self'; simpl; tauto.
Qed.

Lemma register_loops_fields (loops : list (list PyId))
  (self self' : Connector.t) :
  Connector.register_loops loops self = Returns self' ->
  Connector.loops self' = Connector.loops self /\
  Connector.designator self' = Connector.designator self /\
  Connector.additional_components self' = Connector.additional_components self /\
  Connector.component self' = Connector.component self.
Proof.
  unfold Connector.register_loops. intros Hrun.
  refine (for_each_invariant
            (fun s =>
               Connector.loops s = Connector.loops self /\
               Connector.designator s = Connector.designator self /\
               Connector.additional_components s =
                 Connector.additional_components self /\
               Connector.component s = Connector.component self)
            _ loops _ self self' _ Hrun); [|tauto].
  intros s loop s' Hs Hbody.
  destruct loop as [|x [|y [|]]]; try discriminate.
  bind_inv Hbody.
  apply activate_pin_loops_field in Hx, Hbody.
  intuition congruence.
Qed.

Lemma register_loops_checks (loops : list (list PyId)) :
  forall self self' : Connector.t,
    Connector.register_loops loops self = Returns self' ->
    Forall
      (fun loop =>
         exists x y,
           loop = [x; y] /\
           In (Some x) (Dict.keys (Connector.pin_objects self)) /\
           In (Some y) (Dict.keys (Connector.pin_objects self)))
      loops.
Proof.
  unfold Connector.register_loops.
  induction loops as [|loop loops IH]; intros self self' Hrun; [constructor|].
  simpl in Hrun. bind_inv Hrun.
  destruct loop as [|u [|v [|]]]; try discriminate.
  bind_inv Hx.
  pose proof (activate_pin_keys _ _ _ _ _ Hx0) as Hk1.
  pose proof (activate_pin_keys _ _ _ _ _ Hx) as Hk2.
  pose proof (activate_pin_pins _ _ _ _ _ Hx0) as (p & Hp & _).
  pose proof (activate_pin_pins _ _ _ _ _ Hx) as (q & Hq & _).
  constructor.
  - exists u, v. split; [reflexivity|].
    unfold Connector.get_pin in *. split.
    + apply (get_in_keys pin_dec). unfold pin_dec. congruence.
    + rewrite <- Hk1. apply (get_in_keys pin_dec). unfold pin_dec. congruence.
  - specialize (IH _ _ Hrun). rewrite Hk2, Hk1 in IH. exact IH.
Qed.

Lemma Connector_loops_field (a : Connector.Args.t) (self : Connector.t) :
  Connector.__post_init__ a = Returns self ->
  Connector.loops self = Connector.Args.loops a.
Proof.
  intros Hrun. apply Connector_post_init_inv in Hrun.
  destruct Hrun as (declared & pincount & d & show_name & self0 & acs & Hinv).
  cbv zeta in Hinv.
  destruct Hinv as (_ & _ & _ & _ & _ & Hloops & _ & Hself).
  match type of Hloops with
  | Connector.register_loops _ ?s0 = _ =>
      assert (Hinit : Connector.loops s0 = Connector.Args.loops a)
        by reflexivity;
      remember s0 as init eqn:Heqinit; clear Heqinit
  end.
  subst self. simpl.
  destruct (register_loops_fields _ _ _ Hloops) as (-> & _). exact Hinit.
Qed.

(** X6. On every constructed connector each loop names exactly two ids and
    both are ids of the pin list: a loop of another length, or through a pin
    the connector does not have, makes the construction fail. *)
Theorem Connector_loops_join_known_pins (a : Connector.Args.t)
  (self : Connector.t) :
  Connector.__post_init__ a = Returns self ->
  Connector.loops self = Connector.Args.loops a /\
  Forall
    (fun loop =>
       exists x y,
         loop = [x; y] /\ In x (Connector.pins self) /\
         In y (Connector.pins self))
    (Connector.loops self).
Proof.
  intros Hrun. pose proof Hrun as Hinv. apply Connector_post_init_inv in Hinv.
  destruct Hinv as (declared & pincount & d & show_name & self0 & acs & Hinv).
  cbv zeta in Hinv.
  destruct Hinv as (_ & _ & _ & _ & _ & Hloops & _ & Hself).
  match type of Hloops with
  | Connector.register_loops _ ?s0 = _ =>
      assert (Hinit : Connector.loops s0 = Connector.Args.loops a)
        by reflexivity;
      remember s0 as init eqn:Heqinit; clear Heqinit
  end.
  pose proof (Connector_loops_field a self Hrun) as Hfield.
  split; [exact Hfield|]. rewrite Hfield.
  pose proof (register_loops_checks _ _ _ Hloops) as Hchecks.
  pose proof (register_loops_keys _ _ _ Hloops) as Hkeys.
  eapply Forall_impl; [|exact Hchecks]. simpl.
  intros loop (x & y & -> & Hinx & Hiny).
  exists x, y. split; [reflexivity|].
  rewrite <- Hkeys in Hinx, Hiny.
  assert (Hpo : Connector.pin_objects self = Connector.pin_objects self0)
    by (subst self; reflexivity).
  rewrite <- Hpo in Hinx, Hiny.
  split; apply (constructed_pin_known a self _ Hrun); unfold Connector.get_pin;
    apply (get_in_keys pin_dec); assumption.
Qed.

End ConnectorRefusals.

(** ** Values stored by a loop that fills a dictionary *)

Section StoredValues.
Context {K V A : Type} (dec : forall a b : K, {a = b} + {a <> b}).
Context (key : A -> K) (value : A -> V).
Context (body : @Dict.t K V -> A -> Py (@Dict.t K V)).
Hypothesis body_sets :
  forall d x d', body d x = Returns d' -> d' = Dict.set dec (key x) (value x) d.

Lemma for_each_get_other (items : list A) (k : K) :
  (forall y, In y items -> key y <> k) ->
  forall d d', for_each items body d = Returns d' ->
    Dict.get dec k d' = Dict.get dec k d.
Proof.
  induction items as [|x items IH]; simpl; intros Hother d d' Hrun.
  - inversion Hrun. reflexivity.
  - bind_inv Hrun. rewrite (IH (fun y Hy => Hother y (or_intror Hy)) _ _ Hrun).
    rewrite (body_sets _ _ _ Hx). apply get_set_other. apply Hother. left.
    reflexivity.
Qed.

(** The value found under a key is the one of the last item of that key. *)
Lemma for_each_get_at (items : list A) (i : nat) (x : A) :
  nth_error items i = Some x ->
  (forall j y, (i < j)%nat -> nth_error items j = Some y -> key y <> key x) ->
  forall d d', for_each items body d = Returns d' ->
    Dict.get dec (key x) d' = Some (value x).
Proof.
  revert i. induction items as [|y items IH]; intros i Hnth Hlater d d' Hrun.
  - destruct i; discriminate.
  - simpl in Hrun. bind_inv Hrun. destruct i as [|i]; simpl in Hnth.
    + inversion Hnth; subst y.
      rewrite (for_each_get_other items (key x)) with (d := x0) (d' := d').
      * rewrite (body_sets _ _ _ Hx). apply get_set_same.
      * intros z Hz. apply In_nth_error in Hz. destruct Hz as (j & Hj).
        apply (Hlater (S j) z); [lia | exact Hj].
      * exact Hrun.
    + apply (IH i Hnth) with (d := x0); [|exact Hrun].
      intros j z Hij Hj. apply (Hlater (S j) z); [lia | exact Hj].
Qed.

End StoredValues.

Lemma nth_error_enumerate {A : Type} (xs : list A) (i : nat) (x : A) :
  nth_error xs i = Some x ->
  nth_error (enumerate xs) i = Some (Z.of_nat i, x).
Proof.
  unfold enumerate. intros Hnth.
  assert (Hgen : forall s, nth_error (combine (map Z.of_nat (seq s (List.length xs))) xs) i
                           = Some (Z.of_nat (s + i), x)).
  { revert i Hnth. induction xs as [|y xs IH]; intros i Hnth s.
    - destruct i; discriminate.
    - destruct i as [|i]; simpl in *.
      + inversion Hnth. rewrite Nat.add_0_r. reflexivity.
      + rewrite (IH i Hnth (S s)). do 2 f_equal. lia. }
  apply (Hgen 0%nat).
Qed.

Lemma nth_error_enumerate_inv {A : Type} (xs : list A) (i : nat) (y : Z * A) :
  nth_error (enumerate xs) i = Some y ->
  fst y = Z.of_nat i /\ nth_error xs i = Some (snd y).
Proof.
  intros Hnth.
  destruct (nth_error xs i) as [x|] eqn:Hx.
  - rewrite (nth_error_enumerate xs i x Hx) in Hnth. inversion Hnth. auto.
  - exfalso. apply nth_error_None in Hx.
    assert (Hlen : (i < List.length (enumerate xs))%nat)
      by (apply nth_error_Some; congruence).
    unfold enumerate in Hlen.
    rewrite length_combine, length_map, length_seq in Hlen. lia.
Qed.

Lemma nth_error_zip_longest3 {A B C : Type} (xs : list A) (ys : list B)
  (zs : list C) (i : nat) :
  (i < Nat.max (List.length xs) (Nat.max (List.length ys) (List.length zs)))%nat ->
  nth_error (zip_longest3 xs ys zs) i =
    Some (nth_error xs i, nth_error ys i, nth_error zs i).
Proof.
  intros Hi. unfold zip_longest3.
  rewrite nth_error_map, nth_error_seq.
  destruct (Nat.ltb_spec i (Nat.max (List.length xs)
              (Nat.max (List.length ys) (List.length zs)))); [reflexivity | lia].
Qed.

Lemma nth_error_zip_longest3_inv {A B C : Type} (xs : list A) (ys : list B)
  (zs : list C) (i : nat) t :
  nth_error (zip_longest3 xs ys zs) i = Some t ->
  t = (nth_error xs i, nth_error ys i, nth_error zs i).
Proof.
  intros Hnth.
  assert (Hi : (i < List.length (zip_longest3 xs ys zs))%nat)
    by (apply nth_error_Some; congruence).
  unfold zip_longest3 in Hi. rewrite length_map, length_seq in Hi.
  rewrite nth_error_zip_longest3 in Hnth by exact Hi. congruence.
Qed.

(** ** The pins of a constructed connector, one by one *)

Section PinsOneByOne.
Context {T : ExternalTypes} {E : Externals}.

Lemma connect_fields (n : nat) (p : PinClass.t) :
  let q := Nat.iter n PinClass.connect p in
  PinClass.index q = PinClass.index p /\
  PinClass.id q = PinClass.id p /\
  PinClass.label q = PinClass.label p /\
  PinClass.color q = PinClass.color p /\
  PinClass.parent q = PinClass.parent p /\
  PinClass._anonymous q = PinClass._anonymous p /\
  PinClass._simple q = PinClass._simple p /\
  PinClass._num_connections q = PinClass._num_connections p + Z.of_nat n.
Proof.
  induction n as [|n IH]; simpl.
  - repeat split. lia.
  - destruct IH as (? & ? & ? & ? & ? & ? & ? & Hc). simpl in *.
    repeat split; try assumption. rewrite Hc. lia.
Qed.

Lemma create_pins_at designator style pins pinlabels pincolors d i k :
  Connector.create_pins designator style pins pinlabels pincolors = Returns d ->
  NoDup pins ->
  nth_error pins i = Some k ->
  exists anonymous,
    is_autogenerated designator = Returns anonymous /\
    Connector.get_pin (Some k) d =
      Some (PinClass.mk (Z.of_nat i) (Some k) (nth_error pinlabels i)
              (MultiColor_new (nth_error pincolors i)) designator 0 anonymous
              (eq_str style "simple")).
Proof.
  intros Hrun Hnd Hnth. unfold Connector.create_pins in Hrun.
  assert (Hi : (i < List.length pins)%nat) by (apply nth_error_Some; congruence).
  destruct (is_autogenerated designator) as [anonymous|e] eqn:Hauto.
  - exists anonymous. split; [reflexivity|].
    pose (key := fun x : Z * (option PyId * option PyId * option string) =>
                   fst (fst (snd x))).
    pose (value := fun x : Z * (option PyId * option PyId * option string) =>
                     PinClass.mk (fst x) (fst (fst (snd x))) (snd (fst (snd x)))
                       (MultiColor_new (snd (snd x))) designator 0 anonymous
                       (eq_str style "simple")).
    pose (x := (Z.of_nat i, (Some k, nth_error pinlabels i, nth_error pincolors i))).
    change (Dict.get pin_dec (key x) d = Some (value x)).
    eapply (for_each_get_at pin_dec key value) with (i := i); [| | |exact Hrun].
    + intros d0 [j [[pid l] c]] d' Hbody. simpl in Hbody.
      inversion Hbody. reflexivity.
    + apply nth_error_enumerate. rewrite nth_error_zip_longest3 by lia.
      rewrite Hnth. reflexivity.
    + intros j y Hij Hy. apply nth_error_enumerate_inv in Hy.
      destruct Hy as (_ & Hy). apply nth_error_zip_longest3_inv in Hy.
      unfold key. rewrite Hy. simpl. intros Heq.
      rewrite <- Hnth in Heq.
      assert (i = j); [|lia].
      apply (proj1 (NoDup_nth_error pins) Hnd); [exact Hi | congruence].
  - exfalso.
    destruct (zip_longest3 pins pinlabels pincolors) as [|t ts] eqn:Hzip.
    + apply (f_equal (@List.length _)) in Hzip. unfold zip_longest3 in Hzip.
      rewrite length_map, length_seq in Hzip. simpl in Hzip. lia.
    + unfold enumerate in Hrun. simpl in Hrun. destruct t as [[? ?] ?].
      simpl in Hrun. discriminate.
Qed.

Lemma activate_pin_get (self self' : Connector.t) pin_id side key p :
  Connector.activate_pin self pin_id side true = Returns self' ->
  Connector.get_pin key (Connector.pin_objects self) = Some p ->
  Connector.get_pin key (Connector.pin_objects self') =
    Some (if pin_dec pin_id key then PinClass.connect p else p).
Proof.
  intros Hrun Hkey. apply activate_pin_pins in Hrun.
  destruct Hrun as (q & Hq & ->). unfold Connector.get_pin in *.
  destruct (pin_dec pin_id key) as [->|Hne].
  - rewrite get_set_same. congruence.
  - rewrite get_set_other by exact Hne. exact Hkey.
Qed.

Lemma register_loops_get (loops : list (list PyId)) (k : PyId) :
  forall (self self' : Connector.t) (p : PinClass.t),
    Connector.register_loops loops self = Returns self' ->
    Connector.get_pin (Some k) (Connector.pin_objects self) = Some p ->
    Connector.get_pin (Some k) (Connector.pin_objects self') =
      Some (Nat.iter (count_occ PyId_eq_dec (List.concat loops) k) PinClass.connect p).
Proof.
  unfold Connector.register_loops.
  induction loops as [|loop loops IH]; intros self self' p Hrun Hp.
  - inversion Hrun; subst self'. exact Hp.
  - simpl in Hrun. bind_inv Hrun.
    destruct loop as [|u [|v [|]]]; try discriminate.
    bind_inv Hx.
    pose proof (activate_pin_get _ _ _ _ _ _ Hx0 Hp) as Hp1.
    pose proof (activate_pin_get _ _ _ _ _ _ Hx Hp1) as Hp2.
    rewrite (IH _ _ _ Hrun Hp2). f_equal.
    simpl List.concat. simpl count_occ.
    destruct (PyId_eq_dec u k) as [->|Hu]; destruct (PyId_eq_dec v k) as [->|Hv];
      destruct (pin_dec (Some k) (Some k)) as [_|Hc]; try congruence;
      try (destruct (pin_dec (Some u) (Some k)) as [Hc|_]; [congruence|]);
      try (destruct (pin_dec (Some v) (Some k)) as [Hc|_]; [congruence|]);
      rewrite <- ?Nat.iter_succ_r; reflexivity.
Qed.

(** The pin stored for the id at position [i] of the pin list. *)
Lemma Connector_pin_at (a : Connector.Args.t) (self : Connector.t) i k :
  Connector.__post_init__ a = Returns self ->
  nth_error (Connector.pins self) i = Some k ->
  exists anonymous,
    is_autogenerated (Connector.designator self) = Returns anonymous /\
    Connector.get_pin (Some k) (Connector.pin_objects self) =
      Some (Nat.iter (count_occ PyId_eq_dec (List.concat (Connector.loops self)) k)
              PinClass.connect
              (PinClass.mk (Z.of_nat i) (Some k)
                 (nth_error (Connector.pinlabels self) i)
                 (MultiColor_new (nth_error (Connector.pincolors self) i))
                 (Connector.designator self) 0 anonymous
                 (eq_str (Connector.style self) "simple"))).
Proof.
  intros Hrun Hnth.
  destruct (Connector_post_init_pins a self Hrun) as (_ & _ & Hnd & _ & _).
  apply Connector_post_init_inv in Hrun.
  destruct Hrun as (declared & pincount & d & show_name & self0 & acs & Hrun).
  cbv zeta in Hrun.
  destruct Hrun as (_ & _ & _ & Hd & _ & Hloops & _ & ->).
  pose proof (register_loops_frame _ _ _ Hloops)
    as (Hpins & _ & Hlabels & Hcolors & _ & _ & Hstyle & _).
  pose proof (register_loops_fields _ _ _ Hloops) as (Hl & Hdes & _).
  simpl in *. rewrite Hpins in Hnth, Hnd.
  destruct (create_pins_at _ _ _ _ _ _ i k Hd Hnd Hnth) as (anonymous & Hauto & Hget).
  exists anonymous. rewrite Hdes, Hl, Hlabels, Hcolors, Hstyle.
  split; [exact Hauto|].
  apply (register_loops_get _ k _ _ _ Hloops). exact Hget.
Qed.

(** X7. On a constructed connector the id at position [i] of the pin list
    names a pin of index [i], labelled with the [i]-th pin label and
    coloured with the [i]-th pin colour (or with none where those lists are
    shorter), whose parent is the connector's designator and which is
    anonymous exactly when the connector is autogenerated and simple exactly
    when the style is "simple". *)
Theorem Connector_pins_follow_the_lists (a : Connector.Args.t)
  (self : Connector.t) (i : nat) (k : PyId) :
  Connector.__post_init__ a = Returns self ->
  nth_error (Connector.pins self) i = Some k ->
  exists pin,
    Connector.get_pin (Some k) (Connector.pin_objects self) = Some pin /\
    PinClass.index pin = Z.of_nat i /\
    PinClass.id pin = Some k /\
    PinClass.label pin = nth_error (Connector.pinlabels self) i /\
    PinClass.color pin = MultiColor_new (nth_error (Connector.pincolors self) i) /\
    PinClass.parent pin = Connector.designator self /\
    is_autogenerated (Connector.designator self)
      = Returns (PinClass._anonymous pin) /\
    PinClass._simple pin = eq_str (Connector.style self) "simple".
Proof.
  intros Hrun Hnth.
  destruct (Connector_pin_at a self i k Hrun Hnth) as (anonymous & Hauto & Hget).
  eexists. split; [exact Hget|].
  match goal with
  | |- context [Nat.iter ?n PinClass.connect ?p] =>
      destruct (connect_fields n p) as (-> & -> & -> & -> & -> & -> & -> & _)
  end.
  simpl. repeat split. exact Hauto.
Qed.

(** X8. On a constructed connector the connection count of a pin is the
    number of times its id occurs as an endpoint of the loops. *)
Theorem Connector_counts_loop_endpoints (a : Connector.Args.t)
  (self : Connector.t) (k : PyId) :
  Connector.__post_init__ a = Returns self ->
  In k (Connector.pins self) ->
  exists pin,
    Connector.get_pin (Some k) (Connector.pin_objects self) = Some pin /\
    PinClass._num_connections pin =
      Z.of_nat (count_occ PyId_eq_dec (List.concat (Connector.loops self)) k).
Proof.
  intros Hrun Hin. apply In_nth_error in Hin. destruct Hin as (i & Hnth).
  destruct (Connector_pin_at a self i k Hrun Hnth) as (anonymous & _ & Hget).
  eexists. split; [exact Hget|].
  match goal with
  | |- context [Nat.iter ?n PinClass.connect ?p] =>
      destruct (connect_fields n p) as (_ & _ & _ & _ & _ & _ & _ & ->)
  end.
  reflexivity.
Qed.

End PinsOneByOne.

(** ** Multipliers of a connector *)

Section ConnectorMultipliers.
Context {T : ExternalTypes} {E : Externals}.

Lemma Connector_resolve_factor (self : Connector.t)
  (subitem : AdditionalComponent.t) :
  (forall m, AdditionalComponent.qty_multiplier subitem
             <> AdditionalComponent.OfCable m) ->
  Connector.resolve (connector_table self) subitem =
    Returns (AdditionalComponent.set_computed
               (connector_factor self (AdditionalComponent.qty_multiplier subitem))
               subitem).
Proof.
  intros Hscope. unfold Connector.resolve.
  destruct (AdditionalComponent.qty_multiplier subitem) as [n|m|m].
  - reflexivity.
  - destruct m; reflexivity.
  - exfalso. apply (Hscope m). reflexivity.
Qed.

Lemma map_each_pointwise {A B : Type} (f : A -> Py B) (g : A -> B)
  (items : list A) :
  Forall (fun x => f x = Returns (g x)) items ->
  map_each f items = Returns (map g items).
Proof.
  induction 1 as [|x items Hx _ IH]; simpl; [reflexivity|].
  rewrite Hx. simpl. rewrite IH. reflexivity.
Qed.

Lemma Connector_compute_factors (self : Connector.t) :
  Forall
    (fun subitem =>
       forall m, AdditionalComponent.qty_multiplier subitem
                 <> AdditionalComponent.OfCable m)
    (Connector.additional_components self) ->
  Connector.compute_qty_multipliers self =
    Returns
      (Connector.set_additional_components
         (map (fun subitem =>
                 AdditionalComponent.set_computed
                   (connector_factor self
                      (AdditionalComponent.qty_multiplier subitem))
                   subitem)
            (Connector.additional_components self))
         self).
Proof.
  intros Hscope. rewrite Connector_compute_unfold.
  rewrite (map_each_pointwise _
             (fun subitem =>
                AdditionalComponent.set_computed
                  (connector_factor self
                     (AdditionalComponent.qty_multiplier subitem))
                  subitem)); [reflexivity|].
  eapply Forall_impl; [|exact Hscope].
  intros subitem Hsub. apply Connector_resolve_factor. exact Hsub.
Qed.

Lemma Connector_compute_scope (self self' : Connector.t) :
  Connector.compute_qty_multipliers self = Returns self' ->
  Forall
    (fun subitem =>
       forall m, AdditionalComponent.qty_multiplier subitem
                 <> AdditionalComponent.OfCable m)
    (Connector.additional_components self).
Proof.
  intros Hrun. apply Forall_forall. intros subitem Hin m Hm.
  rewrite Connector_compute_unfold in Hrun. bind_inv Hrun.
  destruct (map_each_raises (Connector.resolve (connector_table self))
              (Connector.additional_components self) subitem
              (Exception "Used a cable multiplier in a connector!") Hin)
    as (e & He); [|congruence].
  unfold Connector.resolve. rewrite Hm. reflexivity.
Qed.

(** X9. Resolving the multipliers of a connector succeeds exactly when no
    additional component carries a cable-scoped multiplier.  Every subitem
    then gets its factor (the number itself, the pin count, the number of
    pins with a connection, or the total of the connection counts) and
    nothing else of the connector or of the subitems changes. *)
Theorem Connector_resolution_succeeds (self self' : Connector.t) :
  Connector.compute_qty_multipliers self = Returns self' <->
  Forall
    (fun subitem =>
       forall m, AdditionalComponent.qty_multiplier subitem
                 <> AdditionalComponent.OfCable m)
    (Connector.additional_components self) /\
  self' =
    Connector.set_additional_components
      (map (fun subitem =>
              AdditionalComponent.set_computed
                (connector_factor self
                   (AdditionalComponent.qty_multiplier subitem))
                subitem)
         (Connector.additional_components self))
      self.
Proof.
  split.
  - intros Hrun. pose proof (Connector_compute_scope self self' Hrun) as Hscope.
    split; [exact Hscope|].
    rewrite (Connector_compute_factors self Hscope) in Hrun.
    inversion Hrun. reflexivity.
  - intros (Hscope & ->). apply Connector_compute_factors. exact Hscope.
Qed.

(** X10. Resolving the multipliers of a connector a second time changes
    nothing: the second run returns the connector the first one returned. *)
Theorem Connector_resolution_is_idempotent (self self' : Connector.t) :
  Connector.compute_qty_multipliers self = Returns self' ->
  Connector.compute_qty_multipliers self' = Returns self'.
Proof.
  intros Hrun.
  pose proof (Connector_compute_scope self self' Hrun) as Hscope.
  rewrite (Connector_compute_factors self Hscope) in Hrun.
  inversion Hrun; subst self'; clear Hrun.
  rewrite Connector_compute_factors.
  - f_equal. unfold Connector.set_additional_components. simpl. f_equal.
    rewrite map_map. apply map_ext. intros subitem.
    unfold AdditionalComponent.set_computed. simpl. reflexivity.
  - simpl. apply Forall_forall. intros subitem' Hin.
    apply in_map_iff in Hin. destruct Hin as (subitem & <- & Hin).
    simpl. rewrite Forall_forall in Hscope. apply Hscope. exact Hin.
Qed.

End ConnectorMultipliers.

(** ** Statistics of the pins *)

Section ValuesFacts.
Context {K V : Type} (dec : forall a b : K, {a = b} + {a <> b}).

Lemma get_in_values (k : K) (v : V) (d : Dict.t) :
  Dict.get dec k d = Some v -> In v (Dict.values d).
Proof.
  induction d as [|[k' v'] d IH]; simpl; [discriminate|].
  destruct (dec k k'); intros Hget.
  - inversion Hget. left. reflexivity.
  - right. apply IH. exact Hget.
Qed.

Lemma values_set_Forall (P : V -> Prop) (k : K) (v : V) (d : Dict.t) :
  P v -> Forall P (Dict.values d) -> Forall P (Dict.values (Dict.set dec k v d)).
Proof.
  intros Hv. induction d as [|[k' v'] d IH]; simpl; intros Hd.
  - constructor; [exact Hv | constructor].
  - inversion Hd; subst. destruct (dec k k'); simpl; constructor; auto.
Qed.

Lemma values_set_length (k : K) (v v0 : V) (d : Dict.t) :
  Dict.get dec k d = Some v0 ->
  List.length (Dict.set dec k v d) = List.length d.
Proof.
  induction d as [|[k' v'] d IH]; simpl; [discriminate|].
  destruct (dec k k'); simpl; intros Hget; [reflexivity|].
  f_equal. apply IH. exact Hget.
Qed.

End ValuesFacts.

Lemma fold_left_add_from (l : list Z) (a : Z) :
  fold_left Z.add l a = a + fold_left Z.add l 0.
Proof.
  revert a. induction l as [|x l IH]; intros a; simpl; [lia|].
  rewrite (IH (a + x)), (IH x). lia.
Qed.

Section PinStatistics.
Context {T : ExternalTypes} {E : Externals}.

Lemma connections_cons k (p : PinClass.t) (d : Connector.pin_dict) :
  connections ((k, p) :: d) = PinClass._num_connections p + connections d.
Proof.
  unfold connections. simpl. rewrite fold_left_add_from. reflexivity.
Qed.

Lemma connections_set_connect (d : Connector.pin_dict) k p :
  Connector.get_pin k d = Some p ->
  connections (Dict.set (option_eq_dec PyId_eq_dec) k (PinClass.connect p) d)
    = connections d + 1.
Proof.
  unfold Connector.get_pin.
  induction d as [|[k' p'] d IH]; simpl; [discriminate|].
  destruct (option_eq_dec PyId_eq_dec k k'); intros Hget.
  - inversion Hget; subst p'. rewrite !connections_cons. simpl. lia.
  - rewrite !connections_cons, (IH Hget). lia.
Qed.

Lemma populated_bounds (d : Connector.pin_dict) :
  0 <= populated d <= len d.
Proof.
  unfold populated, len. rewrite <- (values_length d).
  pose proof (filter_length_le
                (fun pin : PinClass.t => PinClass._num_connections pin >? 0)
                (Dict.values d)).
  lia.
Qed.

Lemma populated_le_connections (d : Connector.pin_dict) :
  all_counts_nonneg d -> populated d <= connections d.
Proof.
  unfold all_counts_nonneg, populated, connections, len.
  induction d as [|[k p] d IH]; simpl; intros Hall; [lia|].
  inversion Hall; subst. specialize (IH H2).
  rewrite fold_left_add_from.
  destruct (Z.gtb_spec (PinClass._num_connections p) 0); simpl List.length; lia.
Qed.

Lemma activate_pin_all_counts (self self' : Connector.t) pin_id side
  is_connection :
  Connector.activate_pin self pin_id side is_connection = Returns self' ->
  all_counts_nonneg (Connector.pin_objects self) ->
  all_counts_nonneg (Connector.pin_objects self').
Proof.
  intros Hrun Hall. apply activate_pin_pins in Hrun. destruct is_connection.
  - destruct Hrun as (p & Hp & ->). apply values_set_Forall; [|exact Hall].
    unfold all_counts_nonneg in Hall. rewrite Forall_forall in Hall.
    specialize (Hall p (get_in_values _ _ _ _ Hp)). simpl. lia.
  - rewrite Hrun. exact Hall.
Qed.

Lemma create_pins_all_zero designator style pins pinlabels pincolors d :
  Connector.create_pins designator style pins pinlabels pincolors = Returns d ->
  Forall (fun pin => PinClass._num_connections pin = 0) (Dict.values d).
Proof.
  unfold Connector.create_pins. intros Hrun.
  refine (for_each_invariant
            (fun d => Forall (fun pin => PinClass._num_connections pin = 0)
                        (Dict.values d))
            _ _ _ Dict.empty d _ Hrun).
  - intros s [i [[pid l] c]] s' Hs Hbody.
    bind_inv Hbody. inversion Hbody; subst s'.
    apply values_set_Forall; [reflexivity | exact Hs].
  - constructor.
Qed.

Lemma all_zero_connections (d : Connector.pin_dict) :
  Forall (fun pin => PinClass._num_connections pin = 0) (Dict.values d) ->
  connections d = 0 /\ all_counts_nonneg d.
Proof.
  unfold all_counts_nonneg.
  induction d as [|[k p] d IH]; simpl; intros Hall.
  - split; [reflexivity | constructor].
  - inversion Hall; subst. destruct (IH H2) as [Hc Hn].
    rewrite connections_cons. split; [lia|]. constructor; [lia | exact Hn].
Qed.

Lemma register_loops_statistics (loops : list (list PyId)) :
  forall self self' : Connector.t,
    Connector.register_loops loops self = Returns self' ->
    all_counts_nonneg (Connector.pin_objects self) ->
    all_counts_nonneg (Connector.pin_objects self') /\
    connections (Connector.pin_objects self') =
      connections (Connector.pin_objects self) + 2 * len loops.
Proof.
  unfold Connector.register_loops, len.
  induction loops as [|loop loops IH]; intros self self' Hrun Hall.
  - inversion Hrun; subst self'. split; [exact Hall | simpl; lia].
  - simpl in Hrun. bind_inv Hrun.
    destruct loop as [|u [|v [|]]]; try discriminate.
    bind_inv Hx.
    pose proof (activate_pin_all_counts _ _ _ _ _ Hx0 Hall) as Hall1.
    pose proof (activate_pin_all_counts _ _ _ _ _ Hx Hall1) as Hall2.
    pose proof (activate_pin_pins _ _ _ _ _ Hx0) as (p & Hp & Hd1).
    pose proof (activate_pin_pins _ _ _ _ _ Hx) as (q & Hq & Hd2).
    destruct (IH _ _ Hrun Hall2) as (Hall' & Hsum).
    split; [exact Hall'|].
    rewrite Hsum, Hd2, (connections_set_connect _ _ _ Hq).
    rewrite Hd1, (connections_set_connect _ _ _ Hp).
    simpl List.length. lia.
Qed.

Lemma reachable_all_counts (self : Connector.t) :
  Connector.reachable self -> all_counts_nonneg (Connector.pin_objects self).
Proof.
  induction 1 as [a self Hinit | self self' pid side conn _ IH Hact
                 | self self' _ IH Hcomp].
  - apply Connector_post_init_inv in Hinit.
    destruct Hinit as (declared & pincount & d & show_name & self0 & acs & Hinit).
    cbv zeta in Hinit.
    destruct Hinit as (_ & _ & _ & Hd & _ & Hloops & _ & ->).
    apply create_pins_all_zero, all_zero_connections in Hd.
    destruct Hd as [_ Hall].
    apply (register_loops_statistics _ _ _ Hloops). exact Hall.
  - eapply activate_pin_all_counts; eauto.
  - unfold Connector.compute_qty_multipliers in Hcomp.
    bind_inv Hcomp. inversion Hcomp; subst self'. exact IH.
Qed.

(** X11. On every connector the harness can observe, the POPULATED figure
    lies between 0 and the number of pins and does not exceed the
    CONNECTIONS figure. *)
Theorem Connector_populated_bounds (self : Connector.t) :
  Connector.reachable self ->
  0 <= populated (Connector.pin_objects self)
    <= len (Connector.pin_objects self) /\
  populated (Connector.pin_objects self)
    <= connections (Connector.pin_objects self).
Proof.
  intros Hreach. split; [apply populated_bounds|].
  apply populated_le_connections, reachable_all_counts, Hreach.
Qed.

(** X12. On a freshly constructed connector the CONNECTIONS figure is twice
    the number of loops: each loop connects its two endpoints. *)
Theorem Connector_connections_after_construction (a : Connector.Args.t)
  (self : Connector.t) :
  Connector.__post_init__ a = Returns self ->
  connections (Connector.pin_objects self) = 2 * len (Connector.loops self).
Proof.
  intros Hrun.
  pose proof (Connector_loops_field a self Hrun) as Hloops_field.
  rewrite Hloops_field.
  apply Connector_post_init_inv in Hrun.
  destruct Hrun as (declared & pincount & d & show_name & self0 & acs & Hrun).
  cbv zeta in Hrun.
  destruct Hrun as (_ & _ & _ & Hd & _ & Hloops & _ & ->).
  apply create_pins_all_zero, all_zero_connections in Hd.
  destruct Hd as [Hzero Hall].
  destruct (register_loops_statistics _ _ _ Hloops Hall) as (_ & Hsum).
  simpl in *. rewrite Hsum, Hzero. lia.
Qed.

End PinStatistics.

(** ** Quantity of a connector in the bill of materials *)

Section ConnectorQuantity.
Context {T : ExternalTypes} {E : Externals} {M : MoreExternals}.

Lemma reachable_qty_and_amount (self : Connector.t) :
  Connector.reachable self ->
  Component.qty (Connector.component self)
    = Some (NumberAndUnit.mk (Some (Number.PyInt 1)) None) /\
  Component.amount (Connector.component self) = None.
Proof.
  induction 1 as [a self Hinit | self self' pid side conn _ IH Hact
                 | self self' _ IH Hcomp].
  - apply Connector_post_init_inv in Hinit.
    destruct Hinit as (declared & pincount & d & show_name & self0 & acs & Hinit).
    cbv zeta in Hinit.
    destruct Hinit as (_ & _ & _ & _ & _ & Hloops & _ & ->).
    destruct (register_loops_fields _ _ _ Hloops) as (_ & _ & _ & Hcomp).
    simpl. rewrite Hcomp. simpl. split; reflexivity.
  - destruct (activate_pin_loops_field _ _ _ _ _ Hact) as (_ & _ & _ & ->).
    exact IH.
  - unfold Connector.compute_qty_multipliers in Hcomp.
    bind_inv Hcomp. inversion Hcomp; subst self'. exact IH.
Qed.

(** X13. A connector counts once in the bill of materials: on every
    connector the harness can observe, [bom_qty] returns the int 1, whether
    or not amounts are summed. *)
Theorem Connector_bom_qty_is_one (self : Connector.t) :
  Connector.reachable self ->
  Connector.bom_qty self = Returns (Some (Number.PyInt 1)).
Proof.
  intros Hreach. destruct (reachable_qty_and_amount self Hreach) as [Hqty Hamount].
  unfold Connector.bom_qty, Component.bom_qty. rewrite Hqty, Hamount.
  destruct (Component.sum_amounts_in_bom _); reflexivity.
Qed.

End ConnectorQuantity.

(** ** Additional components *)

Lemma QtyMultiplierConnector_members_name (name : string)
  (m : QtyMultiplierConnector) :
  QtyMultiplierConnector_members name = Some m ->
  QtyMultiplierConnector_name m = name.
Proof.
  unfold QtyMultiplierConnector_members. intros Hfind.
  apply find_some in Hfind. destruct Hfind as [_ Heq].
  apply String.eqb_eq. exact Heq.
Qed.

Lemma QtyMultiplierCable_members_name (name : string) (m : QtyMultiplierCable) :
  QtyMultiplierCable_members name = Some m ->
  QtyMultiplierCable_name m = name.
Proof.
  unfold QtyMultiplierCable_members. intros Hfind.
  apply find_some in Hfind. destruct Hfind as [_ Heq].
  apply String.eqb_eq. exact Heq.
Qed.

Lemma unknown_multiplier_name (name : string) :
  ~ In name multiplier_names ->
  QtyMultiplierConnector_members name = None /\
  QtyMultiplierCable_members name = None.
Proof.
  intros Hout. split.
  - destruct (QtyMultiplierConnector_members name) as [m|] eqn:Hm; [|reflexivity].
    exfalso. apply Hout. apply QtyMultiplierConnector_members_name in Hm.
    subst name. destruct m; simpl; tauto.
  - destruct (QtyMultiplierCable_members name) as [m|] eqn:Hm; [|reflexivity].
    exfalso. apply Hout. apply QtyMultiplierCable_members_name in Hm.
    subst name. destruct m; simpl; tauto.
Qed.

Section AdditionalComponents.
Context {T : ExternalTypes} {E : Externals}.

(** X14. An additional component whose construction succeeds holds the
    multiplier it was given: a number as it is, a name as the connector or
    cable multiplier whose name is the upper-cased text.  Its quantity and
    amount are the parsed ones (without a default unit), and its computed
    factor starts at the int 1. *)
Theorem AdditionalComponent_construction (a : AdditionalComponent.Args.t)
  (self : AdditionalComponent.t) :
  AdditionalComponent.__post_init__ a = Returns self ->
  names_multiplier (AdditionalComponent.Args.qty_multiplier a)
    (AdditionalComponent.qty_multiplier self) /\
  AdditionalComponent._qty_multiplier_computed self = Some (Number.PyInt 1) /\
  Component.parse_number_and_unit (AdditionalComponent.Args.qty a) None
    = Returns (Component.qty (AdditionalComponent.component self)) /\
  Component.parse_number_and_unit (AdditionalComponent.Args.amount a) None
    = Returns (Component.amount (AdditionalComponent.component self)).
Proof.
  unfold AdditionalComponent.__post_init__. intros Hrun.
  bind_inv Hrun. rename x into qty, Hx into Hqty.
  bind_inv Hrun. rename x into amount, Hx into Hamount.
  bind_inv Hrun. rename x into m, Hx into Hm.
  inversion Hrun; subst self; clear Hrun. simpl.
  split; [|repeat split; assumption].
  destruct (AdditionalComponent.Args.qty_multiplier a) as [n|s].
  - inversion Hm. reflexivity.
  - destruct (QtyMultiplierConnector_members (str_upper s)) as [c|] eqn:Hc.
    + inversion Hm. simpl. apply QtyMultiplierConnector_members_name. exact Hc.
    + destruct (QtyMultiplierCable_members (str_upper s)) as [c|] eqn:Hc';
        [|discriminate].
      inversion Hm. simpl. apply QtyMultiplierCable_members_name. exact Hc'.
Qed.

(** X15. A multiplier given by a name that, upper-cased, is none of
    PINCOUNT, POPULATED, CONNECTIONS, WIRECOUNT, TERMINATIONS, LENGTH and
    TOTAL_LENGTH is refused: once the quantity and the amount have been
    parsed, the construction raises [Exception] with the message
    "Unknown qty multiplier: " followed by the upper-cased name. *)
Theorem AdditionalComponent_unknown_multiplier (a : AdditionalComponent.Args.t)
  (s : string) (qty amount : option NumberAndUnit.t) :
  AdditionalComponent.Args.qty_multiplier a = AdditionalComponent.GivenName s ->
  ~ In (str_upper s) multiplier_names ->
  Component.parse_number_and_unit (AdditionalComponent.Args.qty a) None
    = Returns qty ->
  Component.parse_number_and_unit (AdditionalComponent.Args.amount a) None
    = Returns amount ->
  AdditionalComponent.__post_init__ a =
    Raises (Exception ("Unknown qty multiplier: " ++ str_upper s)).
Proof.
  intros Hname Hout Hqty Hamount. unfold AdditionalComponent.__post_init__.
  destruct (unknown_multiplier_name _ Hout) as [Hc Hc'].
  rewrite Hqty, Hamount, Hname. simpl. rewrite Hc, Hc'. reflexivity.
Qed.

Lemma expand_pointwise (items : list AdditionalComponent.entry)
  (cs : list AdditionalComponent.t) :
  AdditionalComponent.expand items = Returns cs <-> Forall2 expanded items cs.
Proof.
  split.
  - revert cs. induction items as [|item items IH]; simpl; intros cs Hrun.
    + inversion Hrun. constructor.
    + destruct item as [a|c].
      * bind_inv Hrun. bind_inv Hrun. inversion Hrun; subst cs.
        constructor; [exact Hx | apply IH; exact Hx0].
      * bind_inv Hrun. inversion Hrun; subst cs.
        constructor; [reflexivity | apply IH; exact Hx].
  - induction 1 as [|item c items cs Hitem _ IH]; simpl; [reflexivity|].
    destruct item as [a|c0]; simpl in Hitem.
    + rewrite Hitem. simpl. rewrite IH. reflexivity.
    + subst c0. rewrite IH. reflexivity.
Qed.

(** X16. The additional components of a constructed connector and of a
    constructed cable are the given entries, position by position: an
    object is kept as it is and a raw mapping is replaced by the additional
    component constructed from it. *)
Theorem additional_components_are_expanded :
  (forall (a : Connector.Args.t) (self : Connector.t),
      Connector.__post_init__ a = Returns self ->
      Forall2 expanded (Connector.Args.additional_components a)
        (Connector.additional_components self)) /\
  (forall (a : Cable.Args.t) (self : Cable.t),
      Cable.__post_init__ a = Returns self ->
      Forall2 expanded (Cable.Args.additional_components a)
        (Cable.additional_components self)).
Proof.
  split; intros a self Hrun.
  - apply Connector_post_init_inv in Hrun.
    destruct Hrun as (declared & pincount & d & show_name & self0 & acs & Hrun).
    cbv zeta in Hrun. destruct Hrun as (_ & _ & _ & _ & _ & _ & Hacs & ->).
    simpl. apply expand_pointwise. exact Hacs.
  - apply Cable_post_init_inv in Hrun.
    destruct Hrun as (gauge & length & colors & wirecount & wires & show_name
                      & acs & _ & _ & _ & _ & _ & Hacs & ->).
    simpl. apply expand_pointwise. exact Hacs.
Qed.

End AdditionalComponents.

(** ** What the construction of a cable refuses *)

Section CableRefusals.
Context {T : ExternalTypes} {E : Externals}.



Lemma existsb_is_s (labels : list PyId) :
  existsb (fun l => if PyId_eq_dec l (IdStr "s") then true else false) labels
    = false ->
  ~ In (IdStr "s") labels.
Proof.
  intros Hnone Hin.
  assert (Hsome : existsb
            (fun l => if PyId_eq_dec l (IdStr "s") then true else false)
            labels = true).
  { apply existsb_exists. exists (IdStr "s"). split; [exact Hin|].
    destruct (PyId_eq_dec (IdStr "s") (IdStr "s")); congruence. }
  congruence.
Qed.

Lemma check_part_lists_inv (attrs : Component.attrs) (wirecount : Z)
  (l : list string) :
  Cable.check_part_lists attrs wirecount = Returns tt ->
  In (PartList l)
    [Component.pn attrs; Component.manufacturer attrs; Component.mpn attrs;
     Component.supplier attrs; Component.spn attrs] ->
  Component.category attrs = Some "bundle" /\ len l = wirecount.
Proof.
  unfold Cable.check_part_lists. intros Hrun Hin.
  assert (Hbody : forall idfield,
             In idfield
               [Component.manufacturer attrs; Component.mpn attrs;
                Component.supplier attrs; Component.spn attrs;
                Component.pn attrs] ->
             idfield = PartList l ->
             Component.category attrs = Some "bundle" /\ len l = wirecount).
  { revert Hrun.
    generalize [Component.manufacturer attrs; Component.mpn attrs;
                Component.supplier attrs; Component.spn attrs;
                Component.pn attrs].
    intros fields. induction fields as [|f fields IH]; simpl; [tauto|].
    intros Hrun idfield [<-|Hin'] Hlist.
    - subst f. bind_inv Hrun.
      destruct (eq_str (Component.category attrs) "bundle") eqn:Hcat;
        [|discriminate].
      destruct (len l =? wirecount) eqn:Hlen; [|discriminate].
      split; [|apply Z.eqb_eq; exact Hlen].
      destruct (Component.category attrs) as [c|]; [|discriminate].
      simpl in Hcat. apply String.eqb_eq in Hcat. congruence.
    - bind_inv Hrun. destruct x. eapply IH; eauto. }
  simpl in Hin.
  destruct Hin as [H|[H|[H|[H|[H|[]]]]]];
    (eapply Hbody; [|exact H]); simpl; tauto.
Qed.

(** X19. Two invariants of every constructed cable: a shielded cable has no
    wire labelled "s", and a part-number attribute given as a list occurs
    only on a bundle and has one entry per wire. *)
Theorem Cable_construction_invariants (a : Cable.Args.t) (self : Cable.t) :
  Cable.__post_init__ a = Returns self ->
  (Cable.shielded (Cable.shield self) = true ->
   ~ In (IdStr "s") (Cable.wirelabels self)) /\
  (forall l,
      In (PartList l)
        (let attrs := Component.attributes (Cable.component self) in
         [Component.pn attrs; Component.manufacturer attrs;
          Component.mpn attrs; Component.supplier attrs;
          Component.spn attrs]) ->
      Cable.category self = Some "bundle" /\ len l = Cable.wirecount self).
Proof.
  intros Hrun. split.
  - unfold Cable.__post_init__ in Hrun.
    bind_inv Hrun. bind_inv Hrun. bind_inv Hrun. destruct x1 as [colors n].
    match type of Hrun with
    | (if ?c then _ else _) = _ => destruct c eqn:Hcheck; [discriminate|]
    end.
    bind_inv Hrun. bind_inv Hrun. bind_inv Hrun. bind_inv Hrun.
    inversion Hrun; subst self; clear Hrun. simpl. intros Hshield.
    destruct (Cable.Args.wirelabels a) as [|l0 labels] eqn:Hlabels;
      [intros []|].
    rewrite Hshield in Hcheck. simpl andb in Hcheck.
    apply existsb_is_s. exact Hcheck.
  - apply Cable_post_init_inv in Hrun.
    destruct Hrun as (gauge & length & colors & wirecount & wires & show_name
                      & acs & _ & _ & _ & Hparts & _ & _ & ->).
    unfold Cable.category. simpl. intros l Hin.
    eapply check_part_lists_inv; eauto.
Qed.

End CableRefusals.

(** ** The colours and the wires of a constructed cable, one by one *)

Lemma nth_error_range (lo hi i : Z) :
  0 <= i < hi - lo ->
  nth_error (range lo hi) (Z.to_nat i) = Some (lo + i).
Proof.
  intros Hi. unfold range. rewrite nth_error_map, nth_error_seq.
  destruct (Nat.ltb_spec (Z.to_nat i) (Z.to_nat (hi - lo))); [|lia].
  simpl. f_equal. lia.
Qed.

Lemma nth_error_zip_longest {A B : Type} (xs : list A) (ys : list B) (i : nat) :
  (i < Nat.max (List.length xs) (List.length ys))%nat ->
  nth_error (zip_longest xs ys) i = Some (nth_error xs i, nth_error ys i).
Proof.
  intros Hi. unfold zip_longest.
  rewrite nth_error_map, nth_error_seq.
  destruct (Nat.ltb_spec i (Nat.max (List.length xs) (List.length ys)));
    [reflexivity | lia].
Qed.

Lemma nth_error_zip_longest_inv {A B : Type} (xs : list A) (ys : list B)
  (i : nat) t :
  nth_error (zip_longest xs ys) i = Some t ->
  t = (nth_error xs i, nth_error ys i).
Proof.
  intros Hnth.
  assert (Hi : (i < List.length (zip_longest xs ys))%nat)
    by (apply nth_error_Some; congruence).
  rewrite length_zip_longest in Hi.
  rewrite nth_error_zip_longest in Hnth by exact Hi. congruence.
Qed.

(** Every iteration of a loop that returns has returned. *)
Lemma for_each_body_returns {S A : Type} (body : S -> A -> Py S)
  (items : list A) (i : nat) (x : A) :
  nth_error items i = Some x ->
  forall s s', for_each items body s = Returns s' ->
    exists s0 s1, body s0 x = Returns s1.
Proof.
  revert i. induction items as [|y items IH]; intros i Hnth s s' Hrun.
  - destruct i; discriminate.
  - simpl in Hrun. bind_inv Hrun. destruct i as [|i]; simpl in Hnth.
    + inversion Hnth; subst y. eauto.
    + eapply IH; eauto.
Qed.

Section WiresOneByOne.
Context {T : ExternalTypes} {E : Externals}.

(** X20. The colours of a constructed cable.  Without a wire count the
    given colours are kept and their number is the wire count.  With a wire
    count [n] there are [n] colours: the given ones, repeated in a cycle
    when there are fewer; or, when none is given, those of the colour code
    by position; or the empty text when there is no colour code either. *)
Theorem Cable_colors_follow_the_wire_count (a : Cable.Args.t) (self : Cable.t) :
  Cable.__post_init__ a = Returns self ->
  match truthy_int (Cable.Args.wirecount a) with
  | None =>
      Cable.Args.colors a <> [] /\
      Cable.colors self = Cable.Args.colors a /\
      Cable.wirecount self = len (Cable.Args.colors a)
  | Some n =>
      Cable.wirecount self = n /\
      len (Cable.colors self) = Z.max 0 n /\
      forall i, 0 <= i < n ->
        nth_error (Cable.colors self) (Z.to_nat i) =
          match Cable.Args.colors a with
          | [] =>
              Some (if str_truthy (Cable.Args.color_code a)
                    then get_color_by_colorcode_index
                           (str_of_optional (Cable.Args.color_code a)) i
                    else "")
          | _ :: _ =>
              nth_error (Cable.Args.colors a)
                (Z.to_nat (i mod len (Cable.Args.colors a)))
          end
  end.
Proof.
  intros Hrun. apply Cable_post_init_inv in Hrun.
  destruct Hrun as (gauge & length & colors & wirecount & wires & show_name
                    & acs & _ & _ & Hcolors & _ & _ & _ & ->).
  simpl. unfold Cable.derive_colors in Hcolors.
  destruct (truthy_int (Cable.Args.wirecount a)) as [n|].
  - destruct (Cable.Args.colors a) as [|c cs] eqn:Hgiven.
    + destruct (str_truthy (Cable.Args.color_code a)).
      * destruct (negb _); [discriminate|].
        inversion Hcolors; subst colors wirecount; clear Hcolors.
        split; [reflexivity|]. split.
        -- unfold len, range. rewrite !length_map, length_seq. lia.
        -- intros i Hi. rewrite nth_error_map, nth_error_range by lia.
           reflexivity.
      * inversion Hcolors; subst colors wirecount; clear Hcolors.
        split; [reflexivity|]. split.
        -- unfold len. rewrite repeat_length. lia.
        -- intros i Hi. rewrite nth_error_repeat by lia. reflexivity.
    + inversion Hcolors; subst colors wirecount; clear Hcolors.
      split; [reflexivity|]. split.
      * unfold len, range. rewrite !length_map, length_seq. lia.
      * intros i Hi. rewrite nth_error_map, nth_error_range by lia.
        unfold option_map. symmetry. rewrite ?Z.add_0_l.
        transitivity (Some (nth (Z.to_nat (i mod len (c :: cs))) (c :: cs) ""));
          [|reflexivity].
        apply nth_error_nth'.
        assert (Hpos : 0 < len (c :: cs)) by (unfold len; simpl; lia).
        pose proof (Z.mod_pos_bound i _ Hpos) as Hmod.
        unfold len in *. lia.
  - destruct (Cable.Args.colors a) as [|c cs] eqn:Hgiven; [discriminate|].
    inversion Hcolors; subst colors wirecount; clear Hcolors.
    split; [discriminate|]. split; reflexivity.
Qed.

Lemma create_wires_at attrs partnumbers designator gauge length colors
  wirelabels d i :
  Cable.create_wires attrs partnumbers designator gauge length colors wirelabels
    = Returns d ->
  (i < Nat.max (List.length colors) (List.length wirelabels))%nat ->
  exists pn,
    Cable._get_wire_partnumber (Component.category attrs) partnumbers
      (Z.of_nat i) = Returns pn /\
    Cable.get_wire (IdInt (Z.of_nat i + 1)) d =
      Some (WireClass.mk designator (Z.of_nat i) (IdInt (Z.of_nat i + 1))
              (nth_error wirelabels i) (MultiColor_new (nth_error colors i))
              None (Component.type attrs) (Component.subtype attrs) gauge
              length (Component.ignore_in_bom attrs)
              (Component.sum_amounts_in_bom attrs) pn).
Proof.
  intros Hrun Hi. unfold Cable.create_wires in Hrun.
  pose (x := (Z.of_nat i, (nth_error colors i, nth_error wirelabels i))).
  assert (Hnth : nth_error (enumerate (zip_longest colors wirelabels)) i = Some x).
  { apply nth_error_enumerate. apply nth_error_zip_longest. exact Hi. }
  destruct (for_each_body_returns _ _ _ _ Hnth _ _ Hrun) as (s0 & s1 & Hbody).
  simpl in Hbody. bind_inv Hbody. rename x0 into pn, Hx into Hpn.
  exists pn. split; [exact Hpn|].
  pose (key := fun x : Z * (option string * option PyId) => IdInt (fst x + 1)).
  pose (value := fun x : Z * (option string * option PyId) =>
                   WireClass.mk designator (fst x) (IdInt (fst x + 1))
                     (snd (snd x)) (MultiColor_new (fst (snd x))) None
                     (Component.type attrs) (Component.subtype attrs) gauge
                     length (Component.ignore_in_bom attrs)
                     (Component.sum_amounts_in_bom attrs)
                     (match Cable._get_wire_partnumber
                              (Component.category attrs) partnumbers (fst x) with
                      | Returns p => p
                      | Raises _ => None
                      end)).
  assert (Hvalue : Cable.get_wire (key x) d = Some (value x)).
  { eapply (for_each_get_at PyId_eq_dec key value) with (i := i);
      [| exact Hnth | | exact Hrun].
    - intros d0 [j [c l]] d' Hb. simpl in Hb. bind_inv Hb.
      inversion Hb. unfold key, value. simpl. rewrite Hx. reflexivity.
    - intros j y Hij Hy. apply nth_error_enumerate_inv in Hy.
      destruct Hy as (Hfst & _). unfold key. rewrite Hfst. simpl.
      intros Heq. inversion Heq. lia. }
  unfold key, value, x in Hvalue. simpl in Hvalue. rewrite Hpn in Hvalue.
  exact Hvalue.
Qed.

Lemma add_shield_get_wire designator shield (wires : Cable.wire_dict) (z : Z) :
  Cable.get_wire (IdInt z) (Cable.add_shield designator shield wires) =
    Cable.get_wire (IdInt z) wires.
Proof.
  unfold Cable.add_shield, Cable.get_wire.
  destruct (Cable.shielded shield); [|reflexivity].
  apply get_set_other. discriminate.
Qed.

(** X21. On a constructed cable, position [i] of the longer of the colour
    list and the label list gives the wire of id [i + 1]: its index is [i],
    its label and colour are the [i]-th of the lists (none where a list is
    shorter), and it inherits the designator, type, subtype, gauge, length
    and BOM flags of the cable.  Its part numbers are those that
    [_get_wire_partnumber] picks at [i] from the cable's part numbers, which
    is [None] unless the cable is a bundle. *)
Theorem Cable_wires_follow_the_lists (a : Cable.Args.t) (self : Cable.t)
  (i : nat) :
  Cable.__post_init__ a = Returns self ->
  (i < Nat.max (List.length (Cable.colors self))
               (List.length (Cable.wirelabels self)))%nat ->
  exists wire partnumbers,
    Cable.get_wire (IdInt (Z.of_nat i + 1)) (Cable.wire_objects self)
      = Some wire /\
    WireClass.index wire = Z.of_nat i /\
    WireClass.id wire = IdInt (Z.of_nat i + 1) /\
    WireClass.label wire = nth_error (Cable.wirelabels self) i /\
    WireClass.color wire = MultiColor_new (nth_error (Cable.colors self) i) /\
    WireClass.parent wire = Cable.designator self /\
    WireClass.type wire
      = Component.type (Component.attributes (Cable.component self)) /\
    WireClass.subtype wire
      = Component.subtype (Component.attributes (Cable.component self)) /\
    WireClass.gauge wire = Cable.gauge self /\
    WireClass.length wire = Cable.length self /\
    WireClass.ignore_in_bom wire
      = Component.ignore_in_bom (Component.attributes (Cable.component self)) /\
    WireClass.sum_amounts_in_bom wire
      = Component.sum_amounts_in_bom
          (Component.attributes (Cable.component self)) /\
    WireClass.bom_id wire = None /\
    Component.partnumbers (Cable.component self) = Some partnumbers /\
    Cable._get_wire_partnumber (Cable.category self) partnumbers (Z.of_nat i)
      = Returns (WireClass.partnumbers wire) /\
    (Cable.category self <> Some "bundle" -> WireClass.partnumbers wire = None).
Proof.
  intros Hrun Hi. apply Cable_post_init_inv in Hrun.
  destruct Hrun as (gauge & length & colors & wirecount & wires & show_name
                    & acs & _ & _ & _ & _ & Hwires & _ & ->).
  simpl in Hi. unfold Cable.category. simpl.
  destruct (create_wires_at _ _ _ _ _ _ _ _ i Hwires Hi) as (pn & Hpn & Hget).
  eexists _, _. rewrite add_shield_get_wire.
  split; [exact Hget|]. simpl.
  repeat (split; [reflexivity|]).
  split; [exact Hpn|].
  intros Hcategory. unfold Cable._get_wire_partnumber in Hpn.
  destruct (eq_str (Component.category (Cable.Args.component a)) "bundle")
    eqn:Hbundle.
  - exfalso. apply Hcategory.
    destruct (Component.category (Cable.Args.component a)) as [c|];
      [|discriminate].
    simpl in Hbundle. apply String.eqb_eq in Hbundle. congruence.
  - inversion Hpn. reflexivity.
Qed.

End WiresOneByOne.

(** ** Connections through a cable *)

Lemma in_range (lo hi k : Z) : In k (range lo hi) <-> lo <= k < hi.
Proof.
  unfold range. rewrite in_map_iff. split.
  - intros (i & <- & Hin). apply in_seq in Hin. lia.
  - intros Hk. exists (Z.to_nat (k - lo)). split; [lia|].
    apply in_seq. lia.
Qed.

Section CableConnections.
Context {T : ExternalTypes} {E : Externals}.

Lemma constructed_wire_known (a : Cable.Args.t) (self : Cable.t) (via : PyId) :
  Cable.__post_init__ a = Returns self ->
  (Cable.get_wire via (Cable.wire_objects self) <> None <->
   (exists k, via = IdInt k /\
              1 <= k <= Z.max (Cable.wirecount self) (len (Cable.wirelabels self))) \/
   (via = IdStr "s" /\ Cable.shielded (Cable.shield self) = true)).
Proof.
  intros Hrun.
  destruct (Cable_post_init_wires a self Hrun)
    as (_ & _ & Hcolors & wires & Hkeys & Hobjects).
  unfold Cable.get_wire. rewrite <- (get_in_keys PyId_eq_dec).
  rewrite Hobjects, add_shield_keys.
  - rewrite Hkeys, in_app_iff, in_map_iff.
    assert (Hmax : Z.of_nat (Nat.max (List.length (Cable.colors self))
                               (List.length (Cable.wirelabels self)))
                   = Z.max (Cable.wirecount self) (len (Cable.wirelabels self))).
    { unfold len. lia. }
    rewrite Hmax. split.
    + intros [(k & <- & Hin) | Hin].
      * left. exists k. split; [reflexivity|]. apply in_range in Hin. lia.
      * right. destruct (Cable.shielded (Cable.shield self)); simpl in Hin;
          [|tauto].
        destruct Hin as [<-|[]]. auto.
    + intros [(k & -> & Hk) | (-> & Hshield)].
      * left. exists k. split; [reflexivity|]. apply in_range. lia.
      * right. rewrite Hshield. left. reflexivity.
  - intros k Hin. rewrite Hkeys in Hin. apply in_map_iff in Hin.
    destruct Hin as (z & <- & _). eauto.
Qed.

(** X22. Connecting through a constructed cable.  The wire ids that
    [_connect] accepts are the integers from 1 to the larger of the wire
    count and the number of wire labels, and "s" when the cable is shielded;
    any other id raises [KeyError].  A connection that is accepted is added
    as the only connection of the cable, holding the given pins and the
    stored wire of that id, and the wires stay as they are. *)
Theorem Cable_connect_known_wires (a : Cable.Args.t) (self : Cable.t)
  (from_pin_obj to_pin_obj : list PinClass.t) (via : PyId) :
  Cable.__post_init__ a = Returns self ->
  ((exists k, via = IdInt k /\
              1 <= k <= Z.max (Cable.wirecount self) (len (Cable.wirelabels self))) \/
   (via = IdStr "s" /\ Cable.shielded (Cable.shield self) = true) ->
   exists self' wire,
     Cable._connect self from_pin_obj via to_pin_obj = Returns self' /\
     Cable.get_wire via (Cable.wire_objects self) = Some wire /\
     Cable._connections self' = [Connection.mk from_pin_obj wire to_pin_obj] /\
     Cable.wire_objects self' = Cable.wire_objects self) /\
  (~ ((exists k, via = IdInt k /\
                 1 <= k <= Z.max (Cable.wirecount self)
                                 (len (Cable.wirelabels self))) \/
      (via = IdStr "s" /\ Cable.shielded (Cable.shield self) = true)) ->
   Cable._connect self from_pin_obj via to_pin_obj = Raises KeyError).
Proof.
  intros Hrun. pose proof (constructed_wire_known a self via Hrun) as Hknown.
  assert (Hnone : Cable._connections self = []).
  { apply Cable_post_init_inv in Hrun.
    destruct Hrun as (gauge & length & colors & wirecount & wires & show_name
                      & acs & _ & _ & _ & _ & _ & _ & ->).
    reflexivity. }
  unfold Cable._connect, Dict.getitem. unfold Cable.get_wire in *.
  split.
  - intros Hin. apply Hknown in Hin.
    destruct (Dict.get PyId_eq_dec via (Cable.wire_objects self)) as [wire|];
      [|congruence].
    simpl. eexists _, wire. split; [reflexivity|]. split; [reflexivity|].
    simpl. rewrite Hnone. split; reflexivity.
  - intros Hout.
    destruct (Dict.get PyId_eq_dec via (Cable.wire_objects self)) as [wire|];
      [|reflexivity].
    exfalso. apply Hout, Hknown. congruence.
Qed.

(** A connection keeps the wires and the other connections of any cable. *)
Lemma Cable_connect_appends (self self' : Cable.t)
  (from_pin_obj to_pin_obj : list PinClass.t) (via : PyId) :
  Cable._connect self from_pin_obj via to_pin_obj = Returns self' ->
  exists wire,
    Cable.get_wire via (Cable.wire_objects self) = Some wire /\
    Cable._connections self' =
      (Cable._connections self ++ [Connection.mk from_pin_obj wire to_pin_obj])%list /\
    Cable.wire_objects self' = Cable.wire_objects self.
Proof.
  unfold Cable._connect. intros Hrun. bind_inv Hrun.
  apply getitem_returns in Hx. inversion Hrun; subst self'.
  exists x. repeat split. exact Hx.
Qed.

End CableConnections.

(** ** Multipliers of a cable, subitem by subitem *)

Lemma map_each_raises_in {A B : Type} (f : A -> Py B) (P : PyExc -> Prop)
  (items : list A) (x : A) (e : PyExc) :
  (forall y e', In y items -> f y = Raises e' -> P e') ->
  In x items -> f x = Raises e ->
  exists e', map_each f items = Raises e' /\ P e'.
Proof.
  induction items as [|y items IH]; simpl; [tauto|].
  intros Honly Hin Hx.
  destruct (f y) as [b|e0] eqn:Hy; simpl.
  - destruct Hin as [->|Hin]; [congruence|].
    destruct (IH (fun z e' Hz => Honly z e' (or_intror Hz)) Hin Hx)
      as (e' & -> & He').
    simpl. eauto.
  - exists e0. split; [reflexivity|]. apply (Honly y e0); auto.
Qed.

Lemma Forall2_in_left {A B : Type} (R : A -> B -> Prop) (xs : list A)
  (ys : list B) (x : A) :
  Forall2 R xs ys -> In x xs -> exists y, In y ys /\ R x y.
Proof.
  induction 1 as [|x0 y0 xs ys Hxy _ IH]; simpl; [tauto|].
  intros [->|Hin]; [eauto|].
  destruct (IH Hin) as (y & Hy & Hr). eauto.
Qed.

Lemma Forall2_in_right {A B : Type} (R : A -> B -> Prop) (xs : list A)
  (ys : list B) (y : B) :
  Forall2 R xs ys -> In y ys -> exists x, In x xs /\ R x y.
Proof.
  induction 1 as [|x0 y0 xs ys Hxy _ IH]; simpl; [tauto|].
  intros [->|Hin]; [eauto|].
  destruct (IH Hin) as (x & Hx & Hr). eauto.
Qed.

Section CableSubitems.
Context {T : ExternalTypes} {E : Externals}.

Lemma Cable_resolve_inv (self : Cable.t) (total_length : Number.t)
  (subitem subitem' : AdditionalComponent.t) :
  Cable.resolve (Cable.length self) (cable_table self total_length) subitem
    = Returns subitem' ->
  resolved self total_length subitem subitem'.
Proof.
  unfold Cable.resolve, resolved. intros Hrun.
  destruct (AdditionalComponent.qty_multiplier subitem) as [n|m|m] eqn:Hm.
  - split; [discriminate|]. inversion Hrun. reflexivity.
  - discriminate.
  - split; [discriminate|].
    bind_inv Hrun. bind_inv Hrun. inversion Hrun; subst subitem'; clear Hrun.
    destruct m; simpl in *.
    + inversion Hx; inversion Hx0; reflexivity.
    + inversion Hx; inversion Hx0; reflexivity.
    + inversion Hx; subst x; clear Hx.
      bind_inv Hx0. destruct x as [u|]; [discriminate|].
      bind_inv Hx0. bind_inv Hx0. inversion Hx0; subst x0; clear Hx0.
      destruct (Component.qty (AdditionalComponent.component subitem))
        as [[number unit]|]; [|discriminate].
      destruct (Cable.length self) as [l|]; [|discriminate].
      simpl in *. inversion Hx; inversion Hx1; inversion Hx2; subst.
      eexists _, _. split; [reflexivity|]. split; reflexivity.
    + inversion Hx; subst x; clear Hx.
      bind_inv Hx0. destruct x as [u|]; [discriminate|].
      bind_inv Hx0. bind_inv Hx0. inversion Hx0; subst x0; clear Hx0.
      destruct (Component.qty (AdditionalComponent.component subitem))
        as [[number unit]|]; [|discriminate].
      destruct (Cable.length self) as [l|]; [|discriminate].
      simpl in *. inversion Hx; inversion Hx1; inversion Hx2; subst.
      eexists _, _. split; [reflexivity|]. split; reflexivity.
Qed.

Lemma Cable_compute_unfold (self : Cable.t) :
  Cable.compute_qty_multipliers self =
    (total_length <- Number.sum (wire_lengths self) ;;
     additional_components <-
       map_each (Cable.resolve (Cable.length self)
                   (cable_table self total_length))
         (Cable.additional_components self) ;;
     ret (Cable.set_additional_components additional_components self)).
Proof. reflexivity. Qed.

(** X23. What a successful resolution of the multipliers of a cable has
    done.  The lengths of the wires add up; no subitem carries a connector
    multiplier; every subitem has received its factor (the number itself,
    the size of the wire mapping for WIRECOUNT, 999 for TERMINATIONS, the
    cable's length for LENGTH, the total of the wire lengths for
    TOTAL_LENGTH); a subitem multiplied by LENGTH or TOTAL_LENGTH had a
    quantity without a unit and has taken the unit of the cable's length;
    and nothing else of the cable or of the subitems has changed. *)
Theorem Cable_resolution_factors (self self' : Cable.t) :
  Cable.compute_qty_multipliers self = Returns self' ->
  exists total_length,
    Number.sum (wire_lengths self) = Returns total_length /\
    self' =
      Cable.set_additional_components (Cable.additional_components self') self /\
    Forall2 (resolved self total_length)
      (Cable.additional_components self) (Cable.additional_components self').
Proof.
  rewrite Cable_compute_unfold. intros Hrun.
  bind_inv Hrun. bind_inv Hrun. inversion Hrun; subst self'; clear Hrun.
  exists x. split; [exact Hx|]. split; [reflexivity|]. simpl.
  apply map_each_returns in Hx0.
  eapply Forall2_impl; [|exact Hx0].
  intros subitem subitem'. apply Cable_resolve_inv.
Qed.

Lemma resolved_again (self : Cable.t) (total_length : Number.t)
  (subitem subitem' : AdditionalComponent.t) (acs : list AdditionalComponent.t) :
  resolved self total_length subitem subitem' ->
  if is_length_multiplier (AdditionalComponent.qty_multiplier subitem) then
    forall l u,
      Cable.length self = Some l -> NumberAndUnit.unit l = Some u ->
      exists m,
        (m = LENGTH \/ m = TOTAL_LENGTH) /\
        Cable.resolve (Cable.length self)
          (cable_table (Cable.set_additional_components acs self) total_length)
          subitem' = Raises (Exception (no_unit_message m))
  else
    Cable.resolve (Cable.length self)
      (cable_table (Cable.set_additional_components acs self) total_length)
      subitem' = Returns subitem'.
Proof.
  unfold resolved. intros (Hscope & Hres).
  destruct (AdditionalComponent.qty_multiplier subitem) as [n|m|m] eqn:Hm.
  - simpl in *. subst subitem'. unfold Cable.resolve. simpl. rewrite Hm.
    reflexivity.
  - exfalso. apply (Hscope m). reflexivity.
  - destruct m; simpl in *.
    + subst subitem'. unfold Cable.resolve. simpl. rewrite Hm. reflexivity.
    + subst subitem'. unfold Cable.resolve. simpl. rewrite Hm. reflexivity.
    + destruct Hres as (number & l0 & Hl0 & Hqty & ->).
      intros l u Hl Hu. exists LENGTH. split; [left; reflexivity|].
      rewrite Hl in Hl0. inversion Hl0; subst l0.
      unfold Cable.resolve. simpl. rewrite Hm. simpl. rewrite Hu. reflexivity.
    + destruct Hres as (number & l0 & Hl0 & Hqty & ->).
      intros l u Hl Hu. exists TOTAL_LENGTH. split; [right; reflexivity|].
      rewrite Hl in Hl0. inversion Hl0; subst l0.
      unfold Cable.resolve. simpl. rewrite Hm. simpl. rewrite Hu. reflexivity.
Qed.

(** X24. The multipliers of a cable cannot be resolved twice when a subitem
    is multiplied by LENGTH or TOTAL_LENGTH and the cable's length has a
    unit: the first run gives that unit to the subitem's quantity, and the
    second run raises the exception about a unit on a quantity multiplied by
    a length. *)
Theorem Cable_resolution_is_not_repeatable (self self' : Cable.t)
  (subitem : AdditionalComponent.t) (l : NumberAndUnit.t) (u : string) :
  Cable.compute_qty_multipliers self = Returns self' ->
  In subitem (Cable.additional_components self) ->
  is_length_multiplier (AdditionalComponent.qty_multiplier subitem) = true ->
  Cable.length self = Some l ->
  NumberAndUnit.unit l = Some u ->
  exists m,
    (m = LENGTH \/ m = TOTAL_LENGTH) /\
    Cable.compute_qty_multipliers self' =
      Raises (Exception (no_unit_message m)).
Proof.
  intros Hrun Hin Hlen Hl Hu.
  rewrite Cable_compute_unfold in Hrun.
  bind_inv Hrun. rename x into total, Hx into Htotal.
  bind_inv Hrun. rename x into out, Hx into Hout.
  inversion Hrun; subst self'; clear Hrun.
  apply map_each_returns in Hout.
  assert (Hres : Forall2 (resolved self total)
                   (Cable.additional_components self) out).
  { eapply Forall2_impl; [|exact Hout].
    intros x y. apply Cable_resolve_inv. }
  clear Hout.
  rewrite Cable_compute_unfold.
  replace (wire_lengths (Cable.set_additional_components out self))
    with (wire_lengths self) by reflexivity.
  rewrite Htotal. simpl bind.
  change (Cable.length (Cable.set_additional_components out self))
    with (Cable.length self).
  change (Cable.additional_components (Cable.set_additional_components out self))
    with out.
  destruct (Forall2_in_left _ _ _ _ Hres Hin) as (y & Hy & Hxy).
  pose proof (resolved_again self total subitem y out Hxy) as Hagain.
  rewrite Hlen in Hagain. destruct (Hagain l u Hl Hu) as (m & Hm & Hraise).
  destruct (map_each_raises_in
              (Cable.resolve (Cable.length self)
                 (cable_table (Cable.set_additional_components out self) total))
              (fun e => exists m, (m = LENGTH \/ m = TOTAL_LENGTH) /\
                                  e = Exception (no_unit_message m))
              out y (Exception (no_unit_message m)))
    as (e' & He' & m' & Hm' & ->).
  - intros z e' Hz Hze.
    destruct (Forall2_in_right _ _ _ _ Hres Hz) as (x & Hx & Hxz).
    pose proof (resolved_again self total x z out Hxz) as Hz_again.
    destruct (is_length_multiplier (AdditionalComponent.qty_multiplier x)).
    + destruct (Hz_again l u Hl Hu) as (m0 & Hm0 & Hr0).
      exists m0. split; [exact Hm0 | congruence].
    + congruence.
  - exact Hy.
  - exact Hraise.
  - exists m'. split; [exact Hm'|]. rewrite He'. reflexivity.
Qed.

End CableSubitems.

(** ** How the pins of a connector print *)

Lemma append_empty (s : string) : s ++ "" = s.
Proof. induction s as [|c s IH]; simpl; [|rewrite IH]; reflexivity. Qed.

Section PinsPrinted.
Context {T : ExternalTypes} {E : Externals}.

Lemma label_snippet (label : option PyId) :
  (if PinClass.label_truthy label then PinClass.str_of_id label else "")
    = label_text label.
Proof.
  destruct label as [[z|s]|]; simpl; try reflexivity.
  - destruct (z =? 0); reflexivity.
  - destruct (s =? "")%string eqn:Hs; simpl; [|reflexivity].
    apply String.eqb_eq in Hs. congruence.
Qed.

Lemma str_after_connections (n : nat) (p : PinClass.t) :
  PinClass.__str__ (Nat.iter n PinClass.connect p) = PinClass.__str__ p.
Proof.
  destruct (connect_fields n p) as (_ & Hid & Hlabel & _ & Hparent & Hanon & Hsimple & _).
  cbv zeta in *. unfold PinClass.__str__.
  rewrite Hid, Hlabel, Hparent, Hanon, Hsimple. reflexivity.
Qed.

(** X25. How the pins of a constructed connector print.  The connector has
    a designator.  A pin of an autogenerated connector prints as its label
    alone (as nothing when the label is [None], [0] or empty).  Otherwise,
    with a designator that is not empty, a pin of a simple connector prints
    as the designator, and a pin of another connector as the designator
    followed by a colon and the pin id (left out, with its colon, when the
    id prints as the empty text); both are followed by a colon and the
    label when there is one. *)
Theorem Connector_pins_print (a : Connector.Args.t) (self : Connector.t)
  (i : nat) (k : PyId) :
  Connector.__post_init__ a = Returns self ->
  nth_error (Connector.pins self) i = Some k ->
  exists designator pin,
    Connector.designator self = Some designator /\
    Connector.get_pin (Some k) (Connector.pin_objects self) = Some pin /\
    let label := label_text (nth_error (Connector.pinlabels self) i) in
    if String.prefix AUTOGENERATED_PREFIX designator
    then PinClass.__str__ pin = label
    else
      designator <> "" ->
      if eq_str (Connector.style self) "simple"
      then PinClass.__str__ pin = designator ++ after_colon label
      else
        PinClass.__str__ pin =
          designator ++ after_colon (PinClass.str_of_id (Some k))
          ++ after_colon label.
Proof.
  intros Hrun Hnth.
  destruct (Connector_pin_at a self i k Hrun Hnth) as (anonymous & Hauto & Hget).
  destruct (Connector.designator self) as [d|] eqn:Hd; [|discriminate].
  simpl in Hauto. inversion Hauto; subst anonymous; clear Hauto.
  eexists d, _. split; [reflexivity|]. split; [exact Hget|].
  cbv zeta. rewrite str_after_connections. unfold PinClass.__str__.
  cbn [PinClass._anonymous PinClass._simple PinClass.parent PinClass.id
       PinClass.label].
  rewrite label_snippet.
  set (label := label_text (nth_error (Connector.pinlabels self) i)).
  set (id_text := PinClass.str_of_id (Some k)).
  unfold after_colon.
  destruct (String.prefix AUTOGENERATED_PREFIX d).
  - simpl. destruct (label =? "")%string eqn:Hlabel; simpl; [|reflexivity].
    apply String.eqb_eq in Hlabel. congruence.
  - intros Hdes. apply String.eqb_neq in Hdes.
    cbn [negb andb str_of_optional filter]. rewrite Hdes. cbn [negb].
    destruct (eq_str (Connector.style self) "simple").
    + cbn [negb filter]. simpl (("" =? "")%string).
      cbn [negb]. destruct (label =? "")%string; simpl;
        rewrite ?append_empty; reflexivity.
    + cbn [negb filter].
      destruct (id_text =? "")%string; cbn [negb];
        destruct (label =? "")%string; simpl; rewrite ?append_empty;
        reflexivity.
Qed.

End PinsPrinted.

(** ** Quantity of a cable in the bill of materials *)

Section CableQuantity.
Context {T : ExternalTypes} {E : Externals} {M : MoreExternals}.

(** X26. The amount of a constructed cable is its length, parsed with the
    default unit "m" (the gauge is parsed with the default unit "mm2").
    The BOM quantity of the cable is therefore its quantity multiplied by
    the number of its length when amounts are summed and the cable has a
    length, and its quantity alone otherwise. *)
Theorem Cable_bom_qty_uses_the_length (a : Cable.Args.t) (self : Cable.t) :
  Cable.__post_init__ a = Returns self ->
  Component.parse_number_and_unit (Cable.Args.gauge a) (Some "mm2")
    = Returns (Cable.gauge self) /\
  Component.parse_number_and_unit (Cable.Args.length a) (Some "m")
    = Returns (Cable.length self) /\
  Component.amount (Cable.component self) = Cable.length self /\
  Cable.bom_qty self =
    match Cable.length self with
    | Some length =>
        if Component.sum_amounts_in_bom (Cable.Args.component a)
        then Number.mul_values (NumberAndUnit.number (Cable.Args.qty a))
               (NumberAndUnit.number length)
        else Returns (NumberAndUnit.number (Cable.Args.qty a))
    | None => Returns (NumberAndUnit.number (Cable.Args.qty a))
    end.
Proof.
  intros Hrun. apply Cable_post_init_inv in Hrun.
  destruct Hrun as (gauge & length & colors & wirecount & wires & show_name
                    & acs & Hgauge & Hlength & _ & _ & _ & _ & ->).
  simpl. repeat (split; [assumption || reflexivity|]).
  unfold Cable.bom_qty, Component.bom_qty. simpl.
  destruct (Component.sum_amounts_in_bom (Cable.Args.component a));
    destruct length as [l|]; reflexivity.
Qed.

End CableQuantity.

(** ** Background colours of the options *)

Section OptionsBackgrounds.
Context {T : ExternalTypes} {E : Externals} {M : MoreExternals}.

(** X27. The backgrounds of the options fall back on one another: a colour
    that is given and true is kept; the node background falls back on the
    global background, the connector and cable backgrounds on the node
    background, and the bundle background on the cable background.  When
    the global background is a true colour, so are the other four. *)
Theorem Options_backgrounds_fall_back (a : Options.Args.t) :
  let self := Options.__post_init__ a in
  let given := fun color => SingleColor_new color in
  Options.bgcolor self = given (Options.Args.bgcolor a) /\
  Options.bgcolor_node self =
    (if SingleColor_bool (given (Options.Args.bgcolor_node a))
     then given (Options.Args.bgcolor_node a) else Options.bgcolor self) /\
  Options.bgcolor_connector self =
    (if SingleColor_bool (given (Options.Args.bgcolor_connector a))
     then given (Options.Args.bgcolor_connector a)
     else Options.bgcolor_node self) /\
  Options.bgcolor_cable self =
    (if SingleColor_bool (given (Options.Args.bgcolor_cable a))
     then given (Options.Args.bgcolor_cable a) else Options.bgcolor_node self) /\
  Options.bgcolor_bundle self =
    (if SingleColor_bool (given (Options.Args.bgcolor_bundle a))
     then given (Options.Args.bgcolor_bundle a)
     else Options.bgcolor_cable self) /\
  (SingleColor_bool (Options.bgcolor self) = true ->
   SingleColor_bool (Options.bgcolor_node self) = true /\
   SingleColor_bool (Options.bgcolor_connector self) = true /\
   SingleColor_bool (Options.bgcolor_cable self) = true /\
   SingleColor_bool (Options.bgcolor_bundle self) = true).
Proof.
  cbv zeta. unfold Options.__post_init__. simpl.
  destruct (SingleColor_bool (SingleColor_new (Options.Args.bgcolor_node a)))
    eqn:Hnode;
    destruct (SingleColor_bool
                (SingleColor_new (Options.Args.bgcolor_connector a)))
      eqn:Hconnector;
    destruct (SingleColor_bool (SingleColor_new (Options.Args.bgcolor_cable a)))
      eqn:Hcable;
    destruct (SingleColor_bool (SingleColor_new (Options.Args.bgcolor_bundle a)))
      eqn:Hbundle;
    simpl; repeat split; auto.
Qed.

End OptionsBackgrounds.

(** ** Quantity of an additional component after the resolution *)

Section SubitemQuantity.
Context {T : ExternalTypes} {E : Externals} {M : MoreExternals}.

(** X28. Once the multipliers of a connector or of a cable have been
    resolved, the BOM quantity of each additional component is the number
    of its quantity multiplied by the factor its owner gives to its
    multiplier. *)
Theorem AdditionalComponent_bom_qty_after_resolution :
  (forall self self' : Connector.t,
      Connector.compute_qty_multipliers self = Returns self' ->
      Forall2
        (fun subitem subitem' =>
           AdditionalComponent.bom_qty subitem' =
             (qty_number <-
                Component.number_of
                  (Component.qty (AdditionalComponent.component subitem)) ;;
              Number.mul_values qty_number
                (connector_factor self
                   (AdditionalComponent.qty_multiplier subitem))))
        (Connector.additional_components self)
        (Connector.additional_components self')) /\
  (forall self self' : Cable.t,
      Cable.compute_qty_multipliers self = Returns self' ->
      exists total_length,
        Number.sum (wire_lengths self) = Returns total_length /\
        Forall2
          (fun subitem subitem' =>
             AdditionalComponent.bom_qty subitem' =
               (qty_number <-
                  Component.number_of
                    (Component.qty (AdditionalComponent.component subitem)) ;;
                Number.mul_values qty_number
                  (cable_factor self total_length
                     (AdditionalComponent.qty_multiplier subitem))))
          (Cable.additional_components self)
          (Cable.additional_components self')).
Proof.
  split; intros self self' Hrun.
  - rewrite Connector_compute_unfold in Hrun.
    bind_inv Hrun. inversion Hrun; subst self'; clear Hrun. simpl.
    apply map_each_returns in Hx.
    eapply Forall2_impl; [|exact Hx]. simpl.
    intros subitem subitem' Hres.
    rewrite Connector_resolve_factor in Hres.
    + inversion Hres. reflexivity.
    + intros m Hm. unfold Connector.resolve in Hres. rewrite Hm in Hres.
      discriminate.
  - rewrite Cable_compute_unfold in Hrun.
    bind_inv Hrun. rename x into total, Hx into Htotal.
    bind_inv Hrun. inversion Hrun; subst self'; clear Hrun. simpl.
    exists total. split; [exact Htotal|].
    apply map_each_returns in Hx.
    eapply Forall2_impl; [|exact Hx]. simpl.
    intros subitem subitem' Hres. apply Cable_resolve_inv in Hres.
    destruct Hres as (_ & Hres).
    destruct (is_length_multiplier (AdditionalComponent.qty_multiplier subitem)).
    + destruct Hres as (number & l & _ & Hqty & ->).
      unfold AdditionalComponent.bom_qty. simpl. rewrite Hqty. reflexivity.
    + subst subitem'. reflexivity.
Qed.

End SubitemQuantity.

(** ** The further properties on the sample parts *)

Lemma activate_pin_known_ids_witness :
  exists self,
    Connector.__post_init__ (E := Sample.externals)
      (Examples.connector "X1" None None [IdInt 1] [IdStr "A"; IdStr "B"] []
         [] [] false) = Returns self /\
    (exists self',
        Connector.activate_pin self (Some (IdInt 1)) (Some LEFT) true
          = Returns self') /\
    (exists self',
        Connector.activate_pin self None (Some LEFT) true = Returns self') /\
    Connector.activate_pin self (Some (IdInt 7)) (Some LEFT) true
      = Raises KeyError.
Proof.
  eexists. split; [vm_compute; reflexivity|].
  match goal with
  | |- (exists s', Connector.activate_pin ?s _ _ _ = _) /\ _ =>
      pose proof (fun pin_id =>
                    activate_pin_known_ids (E := Sample.externals)
                      (Examples.connector "X1" None None [IdInt 1]
                         [IdStr "A"; IdStr "B"] [] [] [] false)
                      s pin_id (Some LEFT) ltac:(vm_compute; reflexivity))
        as Hknown
  end.
  split; [|split].
  - apply (proj1 (Hknown (Some (IdInt 1)))). left. reflexivity.
  - apply (proj1 (Hknown None)). reflexivity.
  - apply (proj1 (proj2 (Hknown (Some (IdInt 7))))).
    intros [H|[]]; discriminate.
Defined.

Lemma should_show_pin_unknown_id_witness :
  exists self,
    Connector.__post_init__ (E := Sample.externals)
      (Examples.connector "X1" None (Some 3) [] [] [] [] [] true)
      = Returns self /\
    Connector.should_show_pin self (Some (IdInt 7)) = Raises KeyError /\
    Connector.should_show_pin self None = Raises KeyError.
Proof.
  eexists. split; [vm_compute; reflexivity|].
  match goal with
  | |- Connector.should_show_pin ?s _ = _ /\ _ =>
      pose proof (fun pin_id =>
                    should_show_pin_unknown_id (E := Sample.externals)
                      (Examples.connector "X1" None (Some 3) [] [] [] [] []
                         true)
                      s pin_id ltac:(vm_compute; reflexivity))
        as Hunknown
  end.
  split.
  - apply (Hunknown (Some (IdInt 7))).
    intros [H|[H|[H|[]]]]; discriminate.
  - apply (Hunknown None). vm_compute. discriminate.
Defined.



Lemma Connector_loops_join_known_pins_witness :
  exists self,
    Connector.__post_init__ (E := Sample.externals)
      (Examples.connector "X1" None (Some 3) [] [] []
         [[IdInt 1; IdInt 2]] [] false) = Returns self /\
    Connector.loops self = [[IdInt 1; IdInt 2]].
Proof.
  eexists. split; [vm_compute; reflexivity|].
  match goal with
  | |- Connector.loops ?s = _ =>
      apply (proj1 (Connector_loops_join_known_pins (E := Sample.externals)
                      (Examples.connector "X1" None (Some 3) [] [] []
                         [[IdInt 1; IdInt 2]] [] false)
                      s ltac:(vm_compute; reflexivity)))
  end.
Defined.

Lemma Connector_pins_follow_the_lists_witness :
  exists self pin,
    Connector.__post_init__ (E := Sample.externals)
      (Examples.connector "X1" None None [IdStr "A"; IdStr "B"]
         [IdStr "GND"; IdStr "VCC"] ["BK"] [] [] false) = Returns self /\
    Connector.get_pin (Some (IdStr "B")) (Connector.pin_objects self)
      = Some pin /\
    PinClass.index pin = 1 /\
    PinClass.label pin = Some (IdStr "VCC").
Proof.
  eexists.
  match goal with
  | |- exists pin, Connector.__post_init__ ?a = Returns ?s /\ _ =>
      assert (Hrun : Connector.__post_init__ (E := Sample.externals) a
                     = Returns s) by (vm_compute; reflexivity);
      destruct (Connector_pins_follow_the_lists (E := Sample.externals)
                  a s 1%nat (IdStr "B") Hrun ltac:(vm_compute; reflexivity))
        as (pin & Hget & Hindex & _ & Hlabel & _)
  end.
  exists pin. split; [exact Hrun|]. split; [exact Hget|].
  split; [exact Hindex | exact Hlabel].
Defined.

Lemma Connector_counts_loop_endpoints_witness :
  exists self pin,
    Connector.__post_init__ (E := Sample.externals)
      (Examples.connector "X1" None (Some 3) [] [] []
         [[IdInt 1; IdInt 2]; [IdInt 2; IdInt 3]] [] false) = Returns self /\
    Connector.get_pin (Some (IdInt 2)) (Connector.pin_objects self)
      = Some pin /\
    PinClass._num_connections pin = 2.
Proof.
  eexists.
  match goal with
  | |- exists pin, Connector.__post_init__ ?a = Returns ?s /\ _ =>
      assert (Hrun : Connector.__post_init__ (E := Sample.externals) a
                     = Returns s) by (vm_compute; reflexivity);
      destruct (Connector_counts_loop_endpoints (E := Sample.externals)
                  a s (IdInt 2) Hrun ltac:(vm_compute; auto))
        as (pin & Hget & Hcount)
  end.
  exists pin. split; [exact Hrun|]. split; [exact Hget | exact Hcount].
Defined.

Lemma Connector_resolution_succeeds_witness :
  exists self self',
    Connector.__post_init__ (E := Sample.externals)
      (Examples.connector "X1" None (Some 4) [] [] [] [[IdInt 1; IdInt 2]]
         [Examples.additional "Crimp" (Component.InNumberAndUnit Examples.one)
            (AdditionalComponent.GivenName "populated")] false)
      = Returns self /\
    Connector.compute_qty_multipliers self = Returns self' /\
    map AdditionalComponent._qty_multiplier_computed
      (Connector.additional_components self') = [Some (Number.PyInt 2)].
Proof.
  eexists.
  match goal with
  | |- exists s', Connector.__post_init__ ?a = Returns ?s /\ _ =>
      assert (Hrun : Connector.__post_init__ (E := Sample.externals) a
                     = Returns s) by (vm_compute; reflexivity);
      pose proof (fun s' =>
                    proj2 (Connector_resolution_succeeds (T := Sample.types)
                             s s')) as Hres
  end.
  eexists. split; [exact Hrun|]. split.
  - apply Hres. split; [repeat constructor; discriminate | reflexivity].
  - reflexivity.
Defined.

Lemma Connector_resolution_is_idempotent_witness :
  exists self self',
    Connector.__post_init__ (E := Sample.externals)
      (Examples.connector "X1" None (Some 4) [] [] [] [[IdInt 1; IdInt 2]]
         [Examples.additional "Crimp" (Component.InNumberAndUnit Examples.one)
            (AdditionalComponent.GivenName "populated")] false)
      = Returns self /\
    Connector.compute_qty_multipliers self = Returns self' /\
    Connector.compute_qty_multipliers self' = Returns self'.
Proof.
  eexists _, _. split; [vm_compute; reflexivity|].
  match goal with
  | |- Connector.compute_qty_multipliers ?s = Returns ?s' /\ _ =>
      assert (Hrun : Connector.compute_qty_multipliers (T := Sample.types) s
                     = Returns s') by (vm_compute; reflexivity);
      split; [exact Hrun|];
      apply (Connector_resolution_is_idempotent (T := Sample.types) s s' Hrun)
  end.
Defined.

Lemma Connector_populated_bounds_witness :
  exists self,
    Connector.__post_init__ (E := Sample.externals)
      (Examples.connector "X1" None (Some 4) [] [] [] [[IdInt 1; IdInt 2]]
         [] false) = Returns self /\
    0 <= populated (Connector.pin_objects self)
      <= len (Connector.pin_objects self) /\
    populated (Connector.pin_objects self)
      <= connections (Connector.pin_objects self).
Proof.
  eexists. split; [vm_compute; reflexivity|].
  match goal with
  | |- 0 <= populated (Connector.pin_objects ?s) <= _ /\ _ =>
      apply (Connector_populated_bounds (E := Sample.externals) s)
  end.
  apply (Connector.reach_init
           (Examples.connector "X1" None (Some 4) [] [] []
              [[IdInt 1; IdInt 2]] [] false)).
  vm_compute. reflexivity.
Defined.

Lemma Connector_connections_after_construction_witness :
  exists self,
    Connector.__post_init__ (E := Sample.externals)
      (Examples.connector "X1" None (Some 4) [] [] []
         [[IdInt 1; IdInt 2]; [IdInt 2; IdInt 3]] [] false) = Returns self /\
    connections (Connector.pin_objects self) = 2 * len (Connector.loops self).
Proof.
  eexists. split; [vm_compute; reflexivity|].
  match goal with
  | |- connections (Connector.pin_objects ?s) = _ =>
      apply (Connector_connections_after_construction
               (E := Sample.externals)
               (Examples.connector "X1" None (Some 4) [] [] []
                  [[IdInt 1; IdInt 2]; [IdInt 2; IdInt 3]] [] false)
               s)
  end.
  vm_compute. reflexivity.
Defined.

Lemma Connector_bom_qty_is_one_witness :
  exists self,
    Connector.__post_init__ (E := Sample.externals)
      (Examples.connector "X1" None (Some 4) [] [] [] [] [] false)
      = Returns self /\
    Connector.bom_qty (E := Sample.externals) (M := Sample.more_externals) self
      = Returns (Some (Number.PyInt 1)).
Proof.
  eexists. split; [vm_compute; reflexivity|].
  match goal with
  | |- Connector.bom_qty ?s = _ =>
      apply (Connector_bom_qty_is_one (E := Sample.externals)
               (M := Sample.more_externals) s)
  end.
  apply (Connector.reach_init
           (Examples.connector "X1" None (Some 4) [] [] [] [] [] false)).
  vm_compute. reflexivity.
Defined.

Lemma AdditionalComponent_construction_witness :
  exists self,
    AdditionalComponent.__post_init__ (E := Sample.externals)
      (AdditionalComponent.Args.mk (Examples.attrs None (Some "Crimp"))
         (Component.InStr "2") Component.InNone
         (AdditionalComponent.GivenName "PinCount") None None None)
      = Returns self /\
    names_multiplier (E := Sample.externals)
      (AdditionalComponent.GivenName "PinCount")
      (AdditionalComponent.qty_multiplier self) /\
    AdditionalComponent._qty_multiplier_computed self = Some (Number.PyInt 1).
Proof.
  eexists.
  match goal with
  | |- AdditionalComponent.__post_init__ ?a = Returns ?s /\ _ =>
      assert (Hrun : AdditionalComponent.__post_init__
                       (E := Sample.externals) a = Returns s)
        by (vm_compute; reflexivity);
      destruct (AdditionalComponent_construction (E := Sample.externals)
                  a s Hrun) as (Hname & Hone & _)
  end.
  split; [exact Hrun|]. split; [exact Hname | exact Hone].
Defined.

Lemma AdditionalComponent_unknown_multiplier_witness :
  AdditionalComponent.__post_init__ (E := Sample.externals)
    (AdditionalComponent.Args.mk (Examples.attrs None (Some "Crimp"))
       (Component.InStr "2") Component.InNone
       (AdditionalComponent.GivenName "pins") None None None)
  = Raises (Exception "Unknown qty multiplier: PINS").
Proof.
  apply (AdditionalComponent_unknown_multiplier (E := Sample.externals)
           (AdditionalComponent.Args.mk (Examples.attrs None (Some "Crimp"))
              (Component.InStr "2") Component.InNone
              (AdditionalComponent.GivenName "pins") None None None)
           "pins"
           (Some (NumberAndUnit.mk
                    (Some (Number.PyFloat (T := Sample.types) 2%float)) None))
           None).
  - reflexivity.
  - vm_compute. intros [H|[H|[H|[H|[H|[H|[H|[]]]]]]]]; discriminate.
  - vm_compute. reflexivity.
  - reflexivity.
Defined.



Lemma Cable_construction_invariants_witness :
  exists self,
    Cable.__post_init__ (E := Sample.externals)
      (Examples.cable "W1" None (Some 2) [] None [IdStr "A"; IdStr "B"]
         (Cable.ShieldFlag true) Component.InNone []) = Returns self /\
    ~ In (IdStr "s") (Cable.wirelabels self).
Proof.
  eexists. split; [vm_compute; reflexivity|].
  match goal with
  | |- ~ In _ (Cable.wirelabels ?s) =>
      apply (proj1 (Cable_construction_invariants (E := Sample.externals)
                      (Examples.cable "W1" None (Some 2) [] None
                         [IdStr "A"; IdStr "B"] (Cable.ShieldFlag true)
                         Component.InNone [])
                      s ltac:(vm_compute; reflexivity)))
  end.
  reflexivity.
Defined.

Lemma Cable_colors_follow_the_wire_count_witness :
  exists self,
    Cable.__post_init__ (E := Sample.externals)
      (Examples.cable "W1" None (Some 5) ["RD"; "BK"] None []
         (Cable.ShieldFlag false) Component.InNone []) = Returns self /\
    Cable.wirecount self = 5 /\
    nth_error (Cable.colors self) 4 = Some "RD".
Proof.
  eexists.
  match goal with
  | |- Cable.__post_init__ ?a = Returns ?s /\ _ =>
      assert (Hrun : Cable.__post_init__ (E := Sample.externals) a = Returns s)
        by (vm_compute; reflexivity);
      assert (Hcolors :
                Cable.wirecount s = 5 /\
                len (Cable.colors s) = Z.max 0 5 /\
                forall i, 0 <= i < 5 ->
                  nth_error (Cable.colors s) (Z.to_nat i) =
                    nth_error ["RD"; "BK"] (Z.to_nat (i mod 2)))
        by exact (Cable_colors_follow_the_wire_count (E := Sample.externals)
                    a s Hrun)
  end.
  destruct Hcolors as (Hcount & _ & Hnth).
  split; [exact Hrun|]. split; [exact Hcount|].
  apply (Hnth 4). lia.
Defined.

Lemma Cable_wires_follow_the_lists_witness :
  exists self wire,
    Cable.__post_init__ (E := Sample.externals)
      (Examples.cable "W1" None None ["RD"; "BK"] None [IdStr "A"; IdStr "B"]
         (Cable.ShieldFlag false) (Component.InStr "2 m") []) = Returns self /\
    Cable.get_wire (IdInt 2) (Cable.wire_objects self) = Some wire /\
    WireClass.label wire = Some (IdStr "B") /\
    WireClass.length wire = Cable.length self /\
    WireClass.partnumbers wire = None.
Proof.
  eexists.
  match goal with
  | |- exists wire, Cable.__post_init__ ?a = Returns ?s /\ _ =>
      assert (Hrun : Cable.__post_init__ (E := Sample.externals) a = Returns s)
        by (vm_compute; reflexivity);
      destruct (Cable_wires_follow_the_lists (E := Sample.externals)
                  a s 1%nat Hrun ltac:(vm_compute; reflexivity))
        as (wire & partnumbers & Hget & _ & _ & Hlabel & _ & _ & _ & _ & _
            & Hlength & _ & _ & _ & _ & _ & Hnone)
  end.
  exists wire. split; [exact Hrun|]. split; [exact Hget|].
  split; [exact Hlabel|]. split; [exact Hlength|].
  apply Hnone. discriminate.
Defined.

Lemma Cable_connect_known_wires_witness :
  exists self,
    Cable.__post_init__ (E := Sample.externals)
      (Examples.cable "W1" None (Some 2) [] None [] (Cable.ShieldFlag false)
         Component.InNone []) = Returns self /\
    (exists self' wire,
        Cable._connect self [] (IdInt 2) [] = Returns self' /\
        Cable.get_wire (IdInt 2) (Cable.wire_objects self) = Some wire /\
        Cable._connections self' = [Connection.mk [] wire []] /\
        Cable.wire_objects self' = Cable.wire_objects self) /\
    Cable._connect self [] (IdStr "s") [] = Raises KeyError.
Proof.
  eexists.
  match goal with
  | |- Cable.__post_init__ ?a = Returns ?s /\ _ =>
      assert (Hrun : Cable.__post_init__ (E := Sample.externals) a = Returns s)
        by (vm_compute; reflexivity);
      pose proof (fun via =>
                    Cable_connect_known_wires (E := Sample.externals)
                      a s [] [] via Hrun) as Hconnect
  end.
  split; [exact Hrun|]. split.
  - apply (proj1 (Hconnect (IdInt 2))). left. exists 2.
    split; [reflexivity | vm_compute; split; discriminate].
  - apply (proj2 (Hconnect (IdStr "s"))).
    intros [(k & Hk & _) | (_ & Hshield)]; discriminate.
Defined.

Lemma Cable_resolution_factors_witness :
  exists self self' total_length,
    Cable.__post_init__ (E := Sample.externals)
      (Examples.cable "W1" None (Some 2) [] None [] (Cable.ShieldFlag false)
         (Component.InStr "2 m")
         [Examples.additional "Sleeve" (Component.InNumberAndUnit Examples.one)
            (AdditionalComponent.GivenName "length")]) = Returns self /\
    Cable.compute_qty_multipliers (E := Sample.externals) self
      = Returns self' /\
    Number.sum (E := Sample.externals) (wire_lengths self)
      = Returns total_length /\
    Forall2 (resolved self total_length)
      (Cable.additional_components self) (Cable.additional_components self').
Proof.
  eexists _, _.
  match goal with
  | |- exists _, Cable.__post_init__ ?a = Returns ?s /\
                     Cable.compute_qty_multipliers _ = Returns ?s' /\ _ =>
      assert (Hinit : Cable.__post_init__ (E := Sample.externals) a
                      = Returns s) by (vm_compute; reflexivity);
      assert (Hrun : Cable.compute_qty_multipliers (E := Sample.externals) s
                     = Returns s') by (vm_compute; reflexivity);
      destruct (Cable_resolution_factors (E := Sample.externals) s s' Hrun)
        as (total & Htotal & _ & Hall)
  end.
  exists total. split; [exact Hinit|]. split; [exact Hrun|].
  split; [exact Htotal | exact Hall].
Defined.

Lemma Cable_resolution_is_not_repeatable_witness :
  exists self self',
    Cable.__post_init__ (E := Sample.externals)
      (Examples.cable "W1" None (Some 2) [] None [] (Cable.ShieldFlag false)
         (Component.InStr "2 m")
         [Examples.additional "Sleeve" (Component.InNumberAndUnit Examples.one)
            (AdditionalComponent.GivenName "length")]) = Returns self /\
    Cable.compute_qty_multipliers (E := Sample.externals) self
      = Returns self' /\
    exists m,
      (m = LENGTH \/ m = TOTAL_LENGTH) /\
      Cable.compute_qty_multipliers (E := Sample.externals) self' =
        Raises (Exception (no_unit_message m)).
Proof.
  eexists _, _.
  match goal with
  | |- Cable.__post_init__ ?a = Returns ?s /\
       Cable.compute_qty_multipliers _ = Returns ?s' /\ _ =>
      assert (Hinit : Cable.__post_init__ (E := Sample.externals) a
                      = Returns s) by (vm_compute; reflexivity);
      assert (Hrun : Cable.compute_qty_multipliers (E := Sample.externals) s
                     = Returns s') by (vm_compute; reflexivity);
      split; [exact Hinit|]; split; [exact Hrun|];
      apply (Cable_resolution_is_not_repeatable (E := Sample.externals) s s'
               _ (Examples.metres 2) "m" Hrun (or_introl eq_refl)
               eq_refl eq_refl eq_refl)
  end.
Defined.

Lemma Connector_pins_print_witness :
  exists self pin unnamed,
    Connector.__post_init__ (E := Sample.externals)
      (Examples.connector "X1" None None [IdStr "A"; IdStr "B"; IdStr ""]
         [IdStr "GND"; IdStr "VCC"; IdStr "NC"] [] [] [] false)
      = Returns self /\
    Connector.get_pin (Some (IdStr "B")) (Connector.pin_objects self)
      = Some pin /\
    PinClass.__str__ pin = "X1:B:VCC" /\
    Connector.get_pin (Some (IdStr "")) (Connector.pin_objects self)
      = Some unnamed /\
    PinClass.__str__ unnamed = "X1:NC".
Proof.
  eexists.
  match goal with
  | |- exists pin unnamed, Connector.__post_init__ ?a = Returns ?s /\ _ =>
      assert (Hrun : Connector.__post_init__ (E := Sample.externals) a
                     = Returns s) by (vm_compute; reflexivity);
      destruct (Connector_pins_print (E := Sample.externals)
                  a s 1%nat (IdStr "B") Hrun ltac:(vm_compute; reflexivity))
        as (designator & pin & Hdesignator & Hget & Hprint);
      destruct (Connector_pins_print (E := Sample.externals)
                  a s 2%nat (IdStr "") Hrun ltac:(vm_compute; reflexivity))
        as (designator' & unnamed & Hdesignator' & Hget' & Hprint')
  end.
  exists pin, unnamed. split; [exact Hrun|]. split; [exact Hget|].
  vm_compute in Hdesignator. inversion Hdesignator; subst designator.
  vm_compute in Hdesignator'. inversion Hdesignator'; subst designator'.
  assert (Hstr : "X1" <> "" -> PinClass.__str__ pin = "X1:B:VCC")
    by exact Hprint.
  assert (Hstr' : "X1" <> "" -> PinClass.__str__ unnamed = "X1:NC")
    by exact Hprint'.
  split; [apply Hstr; discriminate|]. split; [exact Hget'|].
  apply Hstr'. discriminate.
Defined.

Lemma Cable_bom_qty_uses_the_length_witness :
  exists self,
    Cable.__post_init__ (E := Sample.externals)
      (Examples.cable "W1" None (Some 2) [] None [] (Cable.ShieldFlag false)
         (Component.InStr "2 m") []) = Returns self /\
    Cable.length self = Some (Examples.metres 2) /\
    Cable.bom_qty (E := Sample.externals) (M := Sample.more_externals) self
      = Returns (Some (Number.PyFloat (T := Sample.types) 2%float)).
Proof.
  eexists.
  match goal with
  | |- Cable.__post_init__ ?a = Returns ?s /\ _ =>
      assert (Hrun : Cable.__post_init__ (E := Sample.externals) a = Returns s)
        by (vm_compute; reflexivity);
      destruct (Cable_bom_qty_uses_the_length (E := Sample.externals)
                  (M := Sample.more_externals) a s Hrun)
        as (_ & _ & _ & Hqty)
  end.
  split; [exact Hrun|]. split; [vm_compute; reflexivity|].
  rewrite Hqty. vm_compute. reflexivity.
Defined.

Lemma port_flags_only_get_set_witness :
  exists self self',
    Connector.__post_init__ (E := Sample.externals)
      (Examples.connector "X1" None (Some 3) [] [] [] [[IdInt 1; IdInt 2]] []
         false) = Returns self /\
    Connector.ports_left self = false /\
    Connector.ports_right self = false /\
    Connector.activate_pin self (Some (IdInt 3)) (Some RIGHT) true
      = Returns self' /\
    Connector.ports_left self' = false /\
    Connector.ports_right self' = true.
Proof.
  eexists _, _.
  match goal with
  | |- Connector.__post_init__ ?a = Returns ?s /\ _ =>
      assert (Hrun : Connector.__post_init__ (E := Sample.externals) a
                     = Returns s) by (vm_compute; reflexivity);
      destruct (proj1 (port_flags_only_get_set (E := Sample.externals))
                  a s Hrun) as (Hleft & Hright)
  end.
  split; [exact Hrun|]. split; [exact Hleft|]. split; [exact Hright|].
  match goal with
  | |- Connector.activate_pin ?s ?k ?side ?c = Returns ?s' /\ _ =>
      assert (Hact : Connector.activate_pin (T := Sample.types) s k side c
                     = Returns s') by (vm_compute; reflexivity);
      destruct (proj2 (port_flags_only_get_set (E := Sample.externals))
                  s s' k side c Hact) as (Hleft' & Hright')
  end.
  split; [exact Hact|].
  rewrite Hleft', Hright', Hleft, Hright. split; reflexivity.
Defined.

Lemma additional_components_are_expanded_witness :
  exists self,
    Connector.__post_init__ (E := Sample.externals)
      (Examples.connector "X1" None (Some 3) [] [] [] [] 
         [Examples.additional "Crimp" (Component.InNumberAndUnit Examples.one)
            (AdditionalComponent.GivenName "pincount")] false)
      = Returns self /\
    Forall2 (expanded (E := Sample.externals))
      [Examples.additional "Crimp" (Component.InNumberAndUnit Examples.one)
         (AdditionalComponent.GivenName "pincount")]
      (Connector.additional_components self).
Proof.
  eexists. split; [vm_compute; reflexivity|].
  match goal with
  | |- Forall2 _ _ (Connector.additional_components ?s) =>
      apply (proj1 (additional_components_are_expanded
                      (E := Sample.externals))
               (Examples.connector "X1" None (Some 3) [] [] [] []
                  [Examples.additional "Crimp"
                     (Component.InNumberAndUnit Examples.one)
                     (AdditionalComponent.GivenName "pincount")] false)
               s)
  end.
  vm_compute. reflexivity.
Defined.

Lemma Options_backgrounds_fall_back_witness :
  Options.bgcolor_bundle
    (Options.__post_init__ (E := Sample.externals)
       (M := Sample.more_externals) Options.Args.default)
  = Options.bgcolor
      (Options.__post_init__ (E := Sample.externals)
         (M := Sample.more_externals) Options.Args.default) /\
  SingleColor_bool (MoreExternals := Sample.more_externals)
    (Options.bgcolor_bundle
       (Options.__post_init__ (E := Sample.externals)
          (M := Sample.more_externals) Options.Args.default)) = true.
Proof.
  pose proof (Options_backgrounds_fall_back (E := Sample.externals)
                (M := Sample.more_externals) Options.Args.default)
    as (_ & _ & _ & _ & _ & Htrue).
  cbv zeta in Htrue. split; [reflexivity|].
  apply Htrue. reflexivity.
Defined.

Lemma AdditionalComponent_bom_qty_after_resolution_witness :
  exists self self',
    Connector.__post_init__ (E := Sample.externals)
      (Examples.connector "X1" None (Some 3) [] [] [] []
         [Examples.additional "Crimp" (Component.InNumberAndUnit Examples.one)
            (AdditionalComponent.GivenName "pincount")] false)
      = Returns self /\
    Connector.compute_qty_multipliers self = Returns self' /\
    map (AdditionalComponent.bom_qty (E := Sample.externals)
           (M := Sample.more_externals))
      (Connector.additional_components self')
      = [Returns (Some (Number.PyInt 3))].
Proof.
  eexists _, _. split; [vm_compute; reflexivity|].
  match goal with
  | |- Connector.compute_qty_multipliers ?s = Returns ?s' /\ _ =>
      assert (Hrun : Connector.compute_qty_multipliers (T := Sample.types) s
                     = Returns s') by (vm_compute; reflexivity);
      pose proof (proj1 (AdditionalComponent_bom_qty_after_resolution
                           (E := Sample.externals)
                           (M := Sample.more_externals))
                    s s' Hrun) as Hall
  end.
  split; [exact Hrun|].
  simpl in Hall. inversion Hall as [|x y xs ys Hxy Hrest]; subst.
  inversion Hrest; subst. simpl. rewrite Hxy. reflexivity.
Defined.
